(** * Change-ledger assembly of the inspection front end

    A shallow embedding of [services/backendClient.ts] and
    [utils/artifacts.ts]: the coordinate normaliser, the four per-detector
    change builders, the timeline assembler with its job-level fallback,
    the artifact URL resolver and the top-level entry point.

    JavaScript numbers are IEEE-754 binary64 values, so they are modelled by
    Rocq's primitive [float] and the code's arithmetic and comparisons are
    the primitive ones.  JavaScript strings are modelled by [string], read as
    the UTF-8 encoding of the text.  A property that is absent, [undefined]
    or [null] is [None]. *)

From Stdlib Require Import ZArith QArith Qround List String Ascii Bool Lia.
From Stdlib Require Import Floats.
From Stdlib Require Uint63.
From Stdlib Require Import DecimalString DecimalNat DecimalZ DecimalPos.
Import ListNotations.

Close Scope Q_scope.
Local Open Scope string_scope.
Set Warnings "-inexact-float".

(** ** The JavaScript runtime the code relies on *)

Module JS.

(** *** Decimal rendering of integers *)

Definition string_of_nat (n : nat) : string :=
  NilZero.string_of_uint (Nat.to_uint n).

Definition string_of_Z (z : Z) : string :=
  NilZero.string_of_int (Z.to_int z).

(** *** Strings *)

Definition bytes (codes : list nat) : string :=
  string_of_list_ascii (map ascii_of_nat codes).

(** [s.startsWith(p)] *)
Definition startsWith (s p : string) : bool := String.prefix p s.

(** [s.includes(t)] *)
Fixpoint includes (s t : string) : bool :=
  String.prefix t s
  || match s with
     | EmptyString => false
     | String _ s' => includes s' t
     end.

(** [s.toLowerCase()].  Only the letters A-Z are folded.  The code lowers a
    label to search it for the defect tokens; outside ASCII only U+0130 and
    U+212A lower to text with an ASCII letter (an i followed by a combining
    dot, and a k), and no token has a k, or an i at its end, so the search
    gives what it gives in JavaScript. *)
Definition lower_ascii (c : ascii) : ascii :=
  let n := nat_of_ascii c in
  if (65 <=? n)%nat && (n <=? 90)%nat then ascii_of_nat (n + 32) else c.

Fixpoint toLowerCase (s : string) : string :=
  match s with
  | EmptyString => EmptyString
  | String c s' => String (lower_ascii c) (toLowerCase s')
  end.

(** If [p] is a prefix of [s], what follows it. *)
Fixpoint strip_prefix (p s : string) : option string :=
  match p, s with
  | EmptyString, _ => Some s
  | String a p', String b s' =>
      if Ascii.eqb a b then strip_prefix p' s' else None
  | String _ _, EmptyString => None
  end.

Fixpoint strip_any (ps : list string) (s : string) : option string :=
  match ps with
  | [] => None
  | p :: ps' =>
      match strip_prefix p s with
      | Some r => Some r
      | None => strip_any ps' s
      end
  end.

Fixpoint rev_string (s : string) : string :=
  match s with
  | EmptyString => EmptyString
  | String c s' => rev_string s' ++ String c EmptyString
  end.

(** The line terminators LF, CR, U+2028 and U+2029. *)
Definition lineTerminators : list string :=
  [bytes [10]; bytes [13]; bytes [226; 128; 168]; bytes [226; 128; 169]].

(** White space: TAB, VT, FF, SP, U+00A0, U+FEFF and the other space
    separators U+1680, U+2000 to U+200A, U+202F, U+205F and U+3000. *)
Definition whiteSpace : list string :=
  [bytes [9]; bytes [11]; bytes [12]; bytes [32]; bytes [194; 160];
   bytes [239; 187; 191]; bytes [225; 154; 128]]
  ++ map (fun n => bytes [226; 128; n]) (seq 128 11)
  ++ [bytes [226; 128; 175]; bytes [226; 129; 159]; bytes [227; 128; 128]].

Definition trimmable : list string := whiteSpace ++ lineTerminators.

Fixpoint trimStart_from (fuel : nat) (ws : list string) (s : string) : string :=
  match fuel with
  | O => s
  | S fuel' =>
      match strip_any ws s with
      | Some r => trimStart_from fuel' ws r
      | None => s
      end
  end.

Definition trimStart (s : string) : string :=
  trimStart_from (String.length s) trimmable s.

Definition trimEnd (s : string) : string :=
  rev_string
    (trimStart_from (String.length s) (map rev_string trimmable) (rev_string s)).

(** [s.trim()] *)
Definition trim (s : string) : string := trimEnd (trimStart s).

(** [s.split(sep)] for a separator of one character. *)
Fixpoint split (sep : ascii) (s : string) : list string :=
  match s with
  | EmptyString => [EmptyString]
  | String c s' =>
      if Ascii.eqb c sep then EmptyString :: split sep s'
      else
        match split sep s' with
        | [] => [String c EmptyString]
        | w :: ws => String c w :: ws
        end
  end.

(** [parts.join(sep)] *)
Definition join (sep : string) (parts : list string) : string :=
  String.concat sep parts.

(** [Boolean(s)] for a string: only the empty string is falsy. *)
Definition nonEmpty (s : string) : bool :=
  match s with EmptyString => false | _ => true end.

(** [x || d] for an optional string. *)
Definition str_or (x : option string) (d : string) : string :=
  match x with
  | Some v => if nonEmpty v then v else d
  | None => d
  end.

Definition hexDigit (n : nat) : ascii :=
  if (n <? 10)%nat then ascii_of_nat (48 + n) else ascii_of_nat (55 + n).

(** The characters [encodeURIComponent] leaves alone:
    A-Z a-z 0-9 - _ . ! ~ * ' ( ) *)
Definition uriUnreserved (c : ascii) : bool :=
  let n := nat_of_ascii c in
  ((65 <=? n) && (n <=? 90) || (97 <=? n) && (n <=? 122)
   || (48 <=? n) && (n <=? 57)
   || existsb (Nat.eqb n) [45; 95; 46; 33; 126; 42; 39; 40; 41])%nat.

(** [encodeURIComponent(s)]: every other byte of the UTF-8 encoding is
    written %XX.  A string is the UTF-8 encoding of its text; a text with
    a lone surrogate has none, and on it the function throws a URIError:
    such a text is not among the strings here. *)
Fixpoint encodeURIComponent (s : string) : string :=
  match s with
  | EmptyString => EmptyString
  | String c s' =>
      let n := nat_of_ascii c in
      if uriUnreserved c then String c (encodeURIComponent s')
      else String "%" (String (hexDigit (n / 16))
                         (String (hexDigit (n mod 16)) (encodeURIComponent s')))
  end.

Definition zeros (n : nat) : string :=
  string_of_list_ascii (repeat "0"%char n).

(** *** Numbers *)

(** [ToBoolean] of a number: [+0], [-0] and [NaN] are falsy. *)
Definition truthy (x : float) : bool :=
  negb (PrimFloat.eqb x 0 || is_nan x).

(** [x ?? d] *)
Definition nullish {A : Type} (x : option A) (d : A) : A :=
  match x with Some v => v | None => d end.

(** [x || d] for an optional number. *)
Definition num_or (x : option float) (d : float) : float :=
  match x with
  | Some v => if truthy v then v else d
  | None => d
  end.

(** The number whose value is the integer [n] (exact for |n| <= 2^53). *)
Definition of_Z (n : Z) : float :=
  match n with
  | Z0 => 0%float
  | Zpos _ => of_uint63 (Uint63.of_Z n)
  | Zneg p => (- of_uint63 (Uint63.of_Z (Zpos p)))%float
  end.

(** [Math.round]: the nearest integer, a tie going towards +infinity;
    [NaN], the infinities and the zeros are returned as they are, and a
    negative argument that rounds to zero gives [-0]. *)
Definition Math_round (x : float) : float :=
  match Prim2SF x with
  | S754_finite s m e =>
      if (0 <=? e)%Z then x
      else
        let M := if s then Zneg m else Zpos m in
        let n := ((2 * M + 2 ^ (- e)) / 2 ^ (1 - e))%Z in
        if (n =? 0)%Z then (if s then neg_zero else zero) else of_Z n
  | _ => x
  end.

(** [Math.max] and [Math.min] of two numbers: [NaN] is contagious and
    [+0] counts as larger than [-0]. *)
Definition Math_max (a b : float) : float :=
  if is_nan a || is_nan b then nan
  else if PrimFloat.ltb a b then b
  else if PrimFloat.ltb b a then a
  else if get_sign a then b else a.

Definition Math_min (a b : float) : float :=
  if is_nan a || is_nan b then nan
  else if PrimFloat.ltb a b then a
  else if PrimFloat.ltb b a then b
  else if get_sign a then a else b.

(** *** Numbers as text *)

(** The value of a finite non-zero number is [m * 2^e]. *)
Definition value (m : positive) (e : Z) : Q :=
  (inject_Z (Zpos m) * Qpower 2 e)%Q.

Definition pow10 (z : Z) : Q := Qpower 10 z.

Definition nb_digits (z : Z) : Z := Z.of_nat (String.length (string_of_Z z)).

(** The [n] with [10^(n-1) <= v < 10^n], for the value [v] of a number. *)
Definition decimal_exponent (v : Q) : Z :=
  if Qle_bool 1 v then nb_digits (Qfloor v)
  else (1 - nb_digits (Qfloor (/ v)))%Z.

(** Whether the real [v] rounds (to nearest, ties to even) to the number
    [m * 2^e]: [v] lies between the midpoints to the neighbouring numbers,
    the midpoints themselves counting when [m] is even. *)
Definition rounds_to (m : positive) (e : Z) (v : Q) : bool :=
  let below := if (Zpos m =? 2 ^ 52)%Z && (-1074 <? e)%Z then 1%Z else 2%Z in
  let lo := (inject_Z (4 * Zpos m - below) * Qpower 2 (e - 2))%Q in
  let hi := (inject_Z (4 * Zpos m + 2) * Qpower 2 (e - 2))%Q in
  if Z.even (Zpos m) then Qle_bool lo v && Qle_bool v hi
  else negb (Qle_bool v lo) && negb (Qle_bool hi v).

(** The digits [s], their number [k] and the exponent [n] of
    Number::toString: [s * 10^(n-k)] rounds to the number, [k] is as small
    as possible and, among such [s], the value is the closest one. *)
Fixpoint shortest (fuel : nat) (k : Z) (m : positive) (e : Z) (n0 : Z)
  : Z * Z * Z :=
  let v := value m e in
  let scale := pow10 (n0 - k) in
  let s1 := Qfloor (v / scale) in
  let s2 := (s1 + 1)%Z in
  let pick s :=
    if (s =? 10 ^ k)%Z then ((10 ^ (k - 1))%Z, k, (n0 + 1)%Z) else (s, k, n0) in
  match rounds_to m e (inject_Z s1 * scale), rounds_to m e (inject_Z s2 * scale) with
  | true, true =>
      match ((v - inject_Z s1 * scale) ?= (inject_Z s2 * scale - v))%Q with
      | Lt => pick s1
      | Gt => pick s2
      | Eq => if Z.even s1 then pick s1 else pick s2
      end
  | true, false => pick s1
  | false, true => pick s2
  | false, false =>
      match fuel with
      | O => (s1, k, n0)
      | S fuel' => shortest fuel' (k + 1) m e n0
      end
  end.

(** Seventeen digits determine a binary64 number, which bounds the search. *)
Definition digits_of (m : positive) (e : Z) : Z * Z * Z :=
  shortest 17 1 m e (decimal_exponent (value m e)).

Definition sub_string (from len : Z) (s : string) : string :=
  String.substring (Z.to_nat from) (Z.to_nat len) s.

Definition render (skn : Z * Z * Z) : string :=
  let '(s, k, n) := skn in
  let ds := string_of_Z s in
  if ((k <=? n) && (n <=? 21))%Z then ds ++ zeros (Z.to_nat (n - k))
  else if ((0 <? n) && (n <=? 21))%Z then
    sub_string 0 n ds ++ "." ++ sub_string n (k - n) ds
  else if ((-6 <? n) && (n <=? 0))%Z then "0." ++ zeros (Z.to_nat (- n)) ++ ds
  else
    let x := (n - 1)%Z in
    let xs := (if (x <? 0)%Z then "-" else "+") ++ string_of_Z (Z.abs x) in
    if (k =? 1)%Z then ds ++ "e" ++ xs
    else sub_string 0 1 ds ++ "." ++ sub_string 1 (k - 1) ds ++ "e" ++ xs.

(** Number::toString, what [`${x}`] and [String(x)] give. *)
Definition Number_toString (x : float) : string :=
  match Prim2SF x with
  | S754_nan => "NaN"
  | S754_zero _ => "0"
  | S754_infinity s => if s then "-Infinity" else "Infinity"
  | S754_finite s m e => (if s then "-" else "") ++ render (digits_of m e)
  end.

(** The integer [n] nearest to [m * 2^e * 10^f], the larger one at a tie. *)
Definition scaled_round (m : positive) (e : Z) (f : nat) : Z :=
  let t := (Zpos m * 10 ^ Z.of_nat f)%Z in
  if (0 <=? e)%Z then (t * 2 ^ e)%Z
  else ((2 * t + 2 ^ (- e)) / 2 ^ (1 - e))%Z.

(** [x.toFixed(f)] *)
Definition toFixed (x : float) (f : nat) : string :=
  let point (ds : string) :=
    match f with
    | O => ds
    | _ =>
        let ds' :=
          if (String.length ds <=? f)%nat
          then zeros (f + 1 - String.length ds) ++ ds else ds in
        let k := String.length ds' in
        String.substring 0 (k - f) ds' ++ "." ++ String.substring (k - f) f ds'
    end in
  match Prim2SF x with
  | S754_zero _ => point "0"
  | S754_finite s m e =>
      if Qle_bool (pow10 21) (value m e) then Number_toString x
      else (if s then "-" else "") ++ point (string_of_Z (scaled_round m e f))
  | _ => Number_toString x
  end.

(** The number nearest to the positive rational [v] (ties to even). *)
Definition nearest (v : Q) : float :=
  let e0 := (Z.log2 (Qnum v) - Z.log2 (Zpos (Qden v)))%Z in
  let e := if Qle_bool (Qpower 2 e0) v then e0 else (e0 - 1)%Z in
  let q := Z.max (e - 52) (-1074) in
  let t := (v / Qpower 2 q)%Q in
  let f := Qfloor t in
  let m :=
    match ((t - inject_Z f) ?= (1 # 2))%Q with
    | Lt => f
    | Gt => (f + 1)%Z
    | Eq => if Z.even f then f else (f + 1)%Z
    end in
  Z.ldexp (of_Z m) q.

Definition isDigit (c : ascii) : bool :=
  let n := nat_of_ascii c in ((48 <=? n) && (n <=? 57))%nat.

(** The longest run of decimal digits at the head of [s], as
    (value, number of digits, rest). *)
Fixpoint read_digits (s : string) (acc : Z) (count : nat) : Z * nat * string :=
  match s with
  | String c s' =>
      if isDigit c
      then read_digits s' (10 * acc + Z.of_nat (nat_of_ascii c - 48))%Z (S count)
      else (acc, count, s)
  | EmptyString => (acc, count, s)
  end.

Definition read_sign (s : string) : bool * string :=
  match s with
  | String "-" s' => (true, s')
  | String "+" s' => (false, s')
  | _ => (false, s)
  end.

(** An unsigned decimal literal: digits, an optional fraction and an
    optional exponent, with a digit before or after the point. *)
Definition read_decimal (s : string) : option Q :=
  let '(ip, ni, r1) := read_digits s 0 0 in
  let '(fp, nf, r2) :=
    match r1 with
    | String "." r => read_digits r 0 0
    | _ => (0%Z, O, r1)
    end in
  let dotted := match r1 with String "." _ => true | _ => false end in
  if ((ni + nf =? 0)%nat || (negb dotted && (ni =? 0)%nat)) then None
  else
    let mant := (inject_Z ip + inject_Z fp * pow10 (- Z.of_nat nf))%Q in
    match r2 with
    | EmptyString => Some mant
    | String c r =>
        if Ascii.eqb c "e" || Ascii.eqb c "E" then
          let '(neg, r') := read_sign r in
          match read_digits r' 0 0 with
          | (x, S _, EmptyString) =>
              Some (mant * pow10 (if neg then - x else x))%Q
          | _ => None
          end
        else None
    end.

(** [Number(s)] for the decimal syntax (StrDecimalLiteral), which is what
    [toFixed] writes: surrounding white space is dropped, the empty string
    is [0], [Infinity] may carry a sign, anything else is [NaN]. *)
Definition Number_ofString (s : string) : float :=
  let t := trim s in
  match t with
  | EmptyString => 0%float
  | _ =>
      let '(neg, u) := read_sign t in
      let signed (x : float) := if neg then (- x)%float else x in
      if String.eqb u "Infinity" then signed infinity
      else
        match read_decimal u with
        | Some v =>
            if Qle_bool v 0 then signed 0%float else signed (nearest v)
        | None => nan
        end
  end.

(** Groups of three digits separated by commas. *)
Fixpoint group3 (fuel : nat) (n : Z) : string :=
  match fuel with
  | O => string_of_Z n
  | S fuel' =>
      if (n <? 1000)%Z then string_of_Z n
      else
        let low := string_of_Z (n mod 1000) in
        group3 fuel' (n / 1000)
        ++ "," ++ zeros (3 - String.length low) ++ low
  end.

Fixpoint strip_zeros (rev_digits : string) : string :=
  match rev_digits with
  | String "0" r => strip_zeros r
  | _ => rev_digits
  end.

(** [x.toLocaleString()].  In JavaScript the locale of the host decides; the
    embedding fixes en-US: the shortest decimal of the number rounded half
    away from zero to at most three fraction digits, the integer part
    grouped by thousands. *)
Definition Number_toLocaleString (x : float) : string :=
  let fmt (neg : bool) (t : Z) :=
    let low := string_of_Z (t mod 1000) in
    let frac :=
      rev_string (strip_zeros (rev_string (zeros (3 - String.length low) ++ low))) in
    (if neg then "-" else "")
    ++ group3 (Z.to_nat (nb_digits t)) (t / 1000)
    ++ (if nonEmpty frac then "." ++ frac else "") in
  match Prim2SF x with
  | S754_nan => "NaN"
  | S754_zero s => fmt s 0%Z
  | S754_infinity s =>
      (if s then "-" else "") ++ bytes [226; 136; 158]
  | S754_finite s m e =>
      let '(d, k, n) := digits_of m e in
      let j := (k - n - 3)%Z in
      let t :=
        if (j <=? 0)%Z then (d * 10 ^ (- j))%Z
        else ((2 * d + 10 ^ j) / (2 * 10 ^ j))%Z in
      fmt s t
  end.

End JS.

(** ** types.ts *)

Module Types.

Definition Box : Type := float * float * float * float.

Inductive ChangeType := Structural | Surface | Spatial.
Inductive Impact := Low | Medium | High.
Inductive ComparisonMode := baseline | consecutive.
Inductive DomainMode := F1 | Manufacturing | Infrastructure | QA.

Definition DomainMode_text (d : DomainMode) : string :=
  match d with
  | F1 => "F1"
  | Manufacturing => "Manufacturing"
  | Infrastructure => "Infrastructure"
  | QA => "QA"
  end.

Definition Impact_eqb (a b : Impact) : bool :=
  match a, b with
  | Low, Low | Medium, Medium | High, High => true
  | _, _ => false
  end.

Record ChangeComparisonRef := {
  beforeIndex : Z;
  afterIndex : Z;
  label : string
}.

Record SpecialistInsights := {
  aero : option string;
  data : option string
}.

Record DetectedChange := {
  id : string;
  description : string;
  box : Box;
  changeType : ChangeType;
  confidence : float;
  interpretation : string;
  impact : Impact;
  criticality : float;
  estimatedCost : float;
  performanceGain : string;
  specialistInsights : option SpecialistInsights;
  redFlags : list string;
  suggestedActions : list string;
  suggestedQuestions : list string;
  comparisonRef : option ChangeComparisonRef
}.

(** The ledger.  The [timeline] property, metadata kept for the diagnostics
    panels by [buildTimelineSummary], is not part of the embedding. *)
Record AnalysisResult := {
  summary : string;
  changes : list DetectedChange;
  recommendations : list string;
  isDemoMode : bool;
  jobId : option string
}.

End Types.

(** ** services/backendClient.ts: the job document *)

(** Frame indices are integers, written in decimal as JavaScript writes a
  number that is an integer.  The artifact bundles of the stages and the
  alignment stage feed the timeline metadata only and are left out. *)

Module BackendImageSize.
Record t := { width : float; height : float }.
End BackendImageSize.

Module BackendYoloPair.
Record t := {
  class_name : option string;
  box_shared : option Types.Box;
  changed : option bool;
  ssim : option float;
  confidence : option float;
  llm_damage_notes : option string
}.
End BackendYoloPair.

Module BackendMaskDetection.
Record t := {
  class_id : float;
  class_name : option string;
  bbox : option Types.Box;
  score : option float;
  mask_area : option float
}.
End BackendMaskDetection.

Module BackendPcbRegion.
Record t := {
  id : option string;
  label : option string;
  bbox : option Types.Box;
  bboxNormalized : option Types.Box;
  centroidNormalized : option (float * float);
  pixelCount : option float;
  areaRatio : option float;
  confidence : option float;
  source : option string;
  meanProbability : option float;
  maxProbability : option float
}.
End BackendPcbRegion.

Module BackendPcbSummary.
Record t := {
  status : option string;
  coverage : option float;
  pixelsChanged : option float;
  regionCount : option float;
  regions : option (list BackendPcbRegion.t)
}.
End BackendPcbSummary.

(** [BackendChangeformerRegion] extends [BackendPcbRegion] with two fields
  the latter already has. *)
Module BackendChangeformerSummary.
Record t := {
  status : option string;
  coverage : option float;
  pixelsChanged : option float;
  regionCount : option float;
  regions : option (list BackendPcbRegion.t);
  globalMeanProbability : option float;
  globalMaxProbability : option float
}.
End BackendChangeformerSummary.

Module BackendObjectDiffSummary.
Record t := { paired : option (list BackendYoloPair.t) }.
End BackendObjectDiffSummary.

Module BackendObjectDiffReport.
Record t := { paired : option (list BackendYoloPair.t) }.
End BackendObjectDiffReport.

Module BackendObjectDiffStage.
Record t := {
  summary : option BackendObjectDiffSummary.t;
  report : option BackendObjectDiffReport.t;
  imageSize : option BackendImageSize.t
}.
End BackendObjectDiffStage.

Module BackendMaskSummary.
Record t := { detections : option (list BackendMaskDetection.t) }.
End BackendMaskSummary.

Module BackendMaskStage.
Record t := {
  summary : option BackendMaskSummary.t;
  imageSize : option BackendImageSize.t
}.
End BackendMaskStage.

Module BackendPcbStage.
Record t := {
  summary : option BackendPcbSummary.t;
  imageSize : option BackendImageSize.t
}.
End BackendPcbStage.

Module BackendChangeformerStage.
Record t := {
  summary : option BackendChangeformerSummary.t;
  imageSize : option BackendImageSize.t
}.
End BackendChangeformerStage.

Module BackendPipelineStages.
Record t := {
  object_diff : option BackendObjectDiffStage.t;
  mask_rcnn : option BackendMaskStage.t;
  pcb_cd : option BackendPcbStage.t;
  changeformer_cd : option BackendChangeformerStage.t
}.

(** [{}] *)
Definition empty : t :=
  {| object_diff := None; mask_rcnn := None; pcb_cd := None;
     changeformer_cd := None |}.
End BackendPipelineStages.

Module BackendFrameInfo.
Record t := {
  index : Z;
  path : option string;
  originalName : option string
}.
End BackendFrameInfo.

Module BackendTimelineEntry.
Record t := {
  beforeIndex : Z;
  afterIndex : Z;
  beforePath : option string;
  afterPath : option string;
  comparisonRoot : option string;
  pipeline : option BackendPipelineStages.t
}.
End BackendTimelineEntry.

Module BackendError.
Record t := {
  message : option string;
  stage : option string;
  stdout : option string;
  stderr : option string
}.
End BackendError.

Module BackendJobResponse.
Record t := {
  jobId : string;
  status : string;
  comparisonMode : option Types.ComparisonMode;
  baselineIndex : option Z;
  frames : option (list BackendFrameInfo.t);
  timeline : option (list BackendTimelineEntry.t);
  error : option BackendError.t;
  pipeline : option BackendPipelineStages.t
}.
End BackendJobResponse.

(** ** The environment: build-time configuration, the network, promises *)

Module Env.
(** [import.meta.env] *)
Record t := { VITE_ORCHESTRATOR_URL : option string }.
End Env.

Module Async.

(** How a promise settles. *)
Inductive Outcome (A : Type) : Type :=
| Fulfilled (value : A)
| Rejected (message : string).
Arguments Fulfilled {A} value.
Arguments Rejected {A} message.

(** A call of the progress callback: percentage and status. *)
Definition Progress : Type := float * string.

(** An async computation: given the calls of the callback made so far, how
    it settles and the calls made by then. *)
Definition M (A : Type) : Type := list Progress -> Outcome A * list Progress.

Definition ret {A : Type} (a : A) : M A := fun log => (Fulfilled a, log).

Definition throw {A : Type} (message : string) : M A :=
  fun log => (Rejected message, log).

Definition bind {A B : Type} (c : M A) (k : A -> M B) : M B :=
  fun log =>
    match c log with
    | (Fulfilled a, log') => k a log'
    | (Rejected message, log') => (Rejected message, log')
    end.

Definition setProgress (percentage : float) (status : string) : M unit :=
  fun log => (Fulfilled tt, (log ++ [(percentage, status)])%list).

(** [await p] for a promise that has settled as [o]. *)
Definition await {A : Type} (o : Outcome A) : M A := fun log => (o, log).

Definition run {A : Type} (c : M A) : Outcome A * list Progress := c [].

End Async.

Notation "x <- c ;; k" := (Async.bind c (fun x => k))
(at level 61, c at next level, right associativity).
Notation "c ;;; k" := (Async.bind c (fun _ => k))
(at level 61, right associativity).

Module Http.

Record File := { name : string }.

Inductive FormValue := Text (value : string) | Blob (file : File) (filename : string).

Record Request := {
  url : string;
  method : string;
  body : list (string * FormValue)
}.

Record Response := {
  ok : bool;
  text : Async.Outcome string;
  json : Async.Outcome BackendJobResponse.t
}.

(** [fetch]: the response the network gives to a request, if any. *)
Definition Fetch : Type := Request -> Async.Outcome Response.

End Http.

(** ** services/backendClient.ts: the builders and the assembler *)

Module BackendClient.
Import Types JS.

Definition MASK_CONFIDENCE_THRESHOLD : float := 0.85.

Inductive BoxFormat := xyxy | yxyx.

(** [array.map((x, index) => f x index)] *)
Fixpoint mapi_from {A B : Type} (f : A -> nat -> B) (i : nat) (l : list A)
  : list B :=
  match l with
  | [] => []
  | x :: l' => f x i :: mapi_from f (S i) l'
  end.

Definition mapi {A B : Type} (f : A -> nat -> B) (l : list A) : list B :=
  mapi_from f 0 l.

(** [Boolean(x)] for an optional number. *)
Definition given (x : option float) : bool :=
  match x with Some v => truthy v | None => false end.

Definition normalizeBox (box : option Box)
  (imageSize : option BackendImageSize.t) (format : BoxFormat) : Box :=
  match box with
  | None => (0, 0, 0, 0)%float
  | Some (a, b, c, d) =>
      let width := num_or (option_map BackendImageSize.width imageSize) 1 in
      let height := num_or (option_map BackendImageSize.height imageSize) 1 in
      match format with
      | xyxy => (a / width, b / height, c / width, d / height)%float
      | yxyx => (b / width, a / height, d / width, c / height)%float
      end
  end.

Definition createYoloChanges (pairs : list BackendYoloPair.t)
  (imageSize : option BackendImageSize.t) : list DetectedChange :=
  mapi (fun pair index =>
    let changed := nullish (BackendYoloPair.changed pair) false in
    let name := BackendYoloPair.class_name pair in
    {| id := "component-" ++ string_of_nat index;
       description := str_or name ("Component " ++ string_of_nat (index + 1));
       box :=
         normalizeBox
           (Some (nullish (BackendYoloPair.box_shared pair) (0, 0, 0, 0)%float))
           imageSize xyxy;
       changeType := Structural;
       confidence := nullish (BackendYoloPair.confidence pair) 0.5%float;
       interpretation :=
         str_or (BackendYoloPair.llm_damage_notes pair)
           (if changed then "SSIM indicates meaningful change vs. reference."
            else "Component stable relative to baseline.");
       impact := if changed then High else Low;
       criticality := if changed then 7%float else 3%float;
       estimatedCost := if changed then 5000%float else 0%float;
       performanceGain := "N/A";
       specialistInsights :=
         Some {| aero :=
                   if changed
                   then Some "Investigate aero impact from detected delta."
                   else None;
                 data := None |};
       redFlags :=
         if changed
         then ["SSIM delta "
               ++ nullish
                    (option_map (fun s => toFixed s 3) (BackendYoloPair.ssim pair))
                    "N/A"]
         else [];
       suggestedActions :=
         if changed
         then ["Schedule inspection for " ++ str_or name "component" ++ "."]
         else ["Monitor " ++ str_or name "component" ++ " for future deviations."];
       suggestedQuestions :=
         if changed
         then ["@Shourya what secondary checks do we need on "
               ++ str_or name "this component" ++ "?"]
         else [];
       comparisonRef := None |}) pairs.

Definition createMaskChanges (detections : list BackendMaskDetection.t)
  (imageSize : option BackendImageSize.t) : list DetectedChange :=
  mapi (fun det index =>
    let name := BackendMaskDetection.class_name det in
    let area := BackendMaskDetection.mask_area det in
    {| id := "mask-" ++ string_of_nat index;
       description := str_or name ("Detection " ++ string_of_nat (index + 1));
       box := normalizeBox (BackendMaskDetection.bbox det) imageSize yxyx;
       changeType := Surface;
       confidence := nullish (BackendMaskDetection.score det) 0.6%float;
       interpretation := "Mask R-CNN detected localized surface anomaly.";
       impact := Medium;
       criticality :=
         Math_min 10
           (Math_round (nullish (BackendMaskDetection.score det) 0.6 * 10)%float);
       estimatedCost := 2500%float;
       performanceGain := "N/A";
       specialistInsights :=
         Some {| aero :=
                   if given area
                   then Some ("Approx. affected pixels: "
                              ++ Number_toString (nullish area 0%float))
                   else None;
                 data := None |};
       redFlags :=
         if given area
         then ["Mask size " ++ Number_toString (nullish area 0%float) ++ " px"]
         else [];
       suggestedActions :=
         ["Validate " ++ str_or name "mask region" ++ " on the physical car."];
       suggestedQuestions :=
         ["@Varun what repair cost range suits " ++ str_or name "this damage" ++ "?"];
       comparisonRef := None |})
    (filter
       (fun det =>
          PrimFloat.leb MASK_CONFIDENCE_THRESHOLD
            (nullish (BackendMaskDetection.score det) 0%float))
       detections).

Definition criticalDefects : list string :=
  ["missing_hole"; "mouse_bite"; "open_circuit"; "short"; "spur";
   "spurious_copper"].

Definition alwaysHighDefects : list string :=
  ["open_circuit"; "short"; "spur"; "spurious_copper"].

(** [a > b] on numbers *)
Definition gt (a b : float) : bool := PrimFloat.ltb b a.

(** [region.bboxNormalized || (region.bbox ? normalizeBox(region.bbox,
    imageSize) : fallbackBox)] *)
Definition regionBox (region : BackendPcbRegion.t)
  (imageSize : option BackendImageSize.t) : Box :=
  let fallbackBox := (0, 0, 1, 1)%float in
  match BackendPcbRegion.bboxNormalized region with
  | Some b => b
  | None =>
      match BackendPcbRegion.bbox region with
      | Some b => normalizeBox (Some b) imageSize xyxy
      | None => fallbackBox
      end
  end.

Definition createPcbChanges (regions : list BackendPcbRegion.t)
  (imageSize : option BackendImageSize.t) : list DetectedChange :=
  mapi (fun region index =>
    let normalizedBox := regionBox region imageSize in
    let areaRatio := nullish (BackendPcbRegion.areaRatio region) 0%float in
    let confidence :=
      nullish (BackendPcbRegion.confidence region)
        (Math_min 0.95 (0.6 + areaRatio * 5))%float in
    let label :=
      toLowerCase
        (str_or (BackendPcbRegion.label region)
           (str_or (BackendPcbRegion.id region) "")) in
    let impact0 :=
      if gt areaRatio 0.02 then High
      else if gt areaRatio 0.008 then Medium else Low in
    let impact :=
      if existsb (fun token => includes label token) criticalDefects
      then
        if existsb (fun token => includes label token) alwaysHighDefects
        then High
        else if gt areaRatio 0.02 then High else Medium
      else impact0 in
    let coverageLabel :=
      if truthy areaRatio
      then toFixed (areaRatio * 100)%float 2 ++ "% coverage"
      else "Pixel delta detected" in
    let pixelNote :=
      if given (BackendPcbRegion.pixelCount region)
      then Some (Number_toLocaleString
                   (nullish (BackendPcbRegion.pixelCount region) 0%float)
                 ++ " px")
      else None in
    {| id := str_or (BackendPcbRegion.id region) ("pcb-" ++ string_of_nat index);
       description := "RF-DETR-Seg region " ++ string_of_nat (index + 1);
       box := normalizedBox;
       changeType := Surface;
       confidence := confidence;
       interpretation :=
         "PCB BIT change detection highlighted this anomaly relative to the baseline frame.";
       impact := impact;
       criticality :=
         match impact with High => 8 | Medium => 6 | Low => 3 end%float;
       estimatedCost := Math_round (Math_max 1500 (areaRatio * 50000))%float;
       performanceGain := "N/A";
       specialistInsights :=
         Some {| aero := None;
                 data :=
                   Some (coverageLabel
                         ++ match pixelNote with
                            | Some note => " · " ++ note
                            | None => ""
                            end) |};
       redFlags :=
         [coverageLabel]
         ++ match pixelNote with Some note => [note] | None => [] end;
       suggestedActions :=
         ["Flag PCB zone " ++ string_of_nat (index + 1)
          ++ " for microscope validation."];
       suggestedQuestions :=
         ["@QA can we verify tolerances for zone " ++ string_of_nat (index + 1)
          ++ "?"];
       comparisonRef := None |}) regions.

(** The constant [coveragePct] of [createChangeformerChanges]:
    [Number((coverage * 100).toFixed(2))]. *)
Definition coveragePct (coverage : float) : float :=
  Number_ofString (toFixed (coverage * 100)%float 2).

Definition createChangeformerChanges
  (summary : option BackendChangeformerSummary.t)
  (imageSize : option BackendImageSize.t) : list DetectedChange :=
  match summary with
  | None => []
  | Some summary =>
      let baseRegions := nullish (BackendChangeformerSummary.regions summary) [] in
      let coverage := nullish (BackendChangeformerSummary.coverage summary) 0%float in
      let globalMax := BackendChangeformerSummary.globalMaxProbability summary in
      match baseRegions with
      | [] =>
          if PrimFloat.leb coverage 0 then []
          else
            let coveragePct := coveragePct coverage in
            let pct := Number_toString coveragePct in
            [ {| id := "changeformer-aggregate";
                 description := "ChangeFormer coverage " ++ pct ++ "%";
                 box := (0, 0, 1, 1)%float;
                 changeType := Spatial;
                 confidence := nullish globalMax 0.6%float;
                 interpretation :=
                   "Transformer change detection shows " ++ pct
                   ++ "% of pixels drifting vs. baseline.";
                 impact :=
                   if gt coveragePct 3 then High
                   else if gt coveragePct 1 then Medium else Low;
                 criticality :=
                   (if gt coveragePct 3 then 8
                    else if gt coveragePct 1 then 6 else 4)%float;
                 estimatedCost :=
                   Math_round (Math_max 2000 (coveragePct * 800))%float;
                 performanceGain := "N/A";
                 specialistInsights :=
                   Some {| aero := None;
                           data :=
                             Some ("Global mean P="
                                   ++ nullish
                                        (option_map (fun p => toFixed p 3)
                                           (BackendChangeformerSummary.globalMeanProbability
                                              summary))
                                        "—") |};
                 redFlags := ["Coverage " ++ pct ++ "%"];
                 suggestedActions :=
                   ["Overlay ChangeFormer mask on source imagery to localise stress."];
                 suggestedQuestions :=
                   ["@Infra what inspection tooling verifies this drift?"];
                 comparisonRef := None |} ]
      | _ :: _ =>
          mapi (fun region index =>
            let normalizedBox := regionBox region imageSize in
            let areaRatio := nullish (BackendPcbRegion.areaRatio region) 0%float in
            let confidence :=
              match BackendPcbRegion.maxProbability region with
              | Some p => p
              | None =>
                  match BackendPcbRegion.meanProbability region with
                  | Some p => p
                  | None =>
                      match BackendPcbRegion.confidence region with
                      | Some p => p
                      | None => nullish globalMax 0.6%float
                      end
                  end
              end in
            let probabilityLabel :=
              if given (BackendPcbRegion.meanProbability region)
              then Some ("μ="
                         ++ toFixed
                              (nullish (BackendPcbRegion.meanProbability region)
                                 0%float) 3)
              else None in
            let coverageLabel := toFixed (areaRatio * 100)%float 2 ++ "% coverage" in
            let impact :=
              if gt areaRatio 0.02 then High
              else if gt areaRatio 0.008 then Medium else Low in
            let name := BackendPcbRegion.label region in
            {| id :=
                 str_or (BackendPcbRegion.id region)
                   ("changeformer-" ++ string_of_nat index);
               description :=
                 str_or name ("ChangeFormer region " ++ string_of_nat (index + 1));
               box := normalizedBox;
               changeType := Spatial;
               confidence := confidence;
               interpretation :=
                 "ChangeFormer transformer head flagged this structural drift zone.";
               impact := impact;
               criticality :=
                 match impact with High => 8 | Medium => 6 | Low => 4 end%float;
               estimatedCost :=
                 Math_round (Math_max 3000 (areaRatio * 60000))%float;
               performanceGain := "N/A";
               specialistInsights :=
                 Some {| aero := None;
                         data :=
                           Some match probabilityLabel with
                                | Some p => coverageLabel ++ " · " ++ p
                                | None => coverageLabel
                                end |};
               redFlags := [coverageLabel];
               suggestedActions :=
                 ["Schedule infrastructure inspection for "
                  ++ str_or name ("region " ++ string_of_nat (index + 1)) ++ "."];
               suggestedQuestions :=
                 ["@Infra what remediation is required for this span?"];
               comparisonRef := None |}) baseRegions
      end
  end.

(** A frame index is an integer, the rank of a frame in the upload.  The
    code holds it in a binary64 number: [index + 1] is the sum of the
    integers as long as the index and its successor are safe integers, of
    size below 2^53; beyond, the code rounds the sum. *)
Definition formatComparisonLabel (afterIndex beforeIndex : Z)
  (mode : ComparisonMode) : string :=
  match mode with
  | consecutive =>
      "Frame " ++ string_of_Z (afterIndex + 1) ++ " vs Frame "
      ++ string_of_Z (beforeIndex + 1)
  | baseline => "Frame " ++ string_of_Z (afterIndex + 1) ++ " vs Baseline"
  end.

Definition labelTimelineChanges (baseChanges : list DetectedChange)
  (afterIndex beforeIndex : Z) (mode : ComparisonMode) (prefix : string)
  : list DetectedChange :=
  let label := formatComparisonLabel afterIndex beforeIndex mode in
  mapi (fun change idx =>
    {| id := prefix ++ "-f" ++ string_of_Z afterIndex ++ "-" ++ string_of_nat idx;
       description := description change ++ " · " ++ label;
       box := box change;
       changeType := changeType change;
       confidence := confidence change;
       interpretation := interpretation change;
       impact := impact change;
       criticality := criticality change;
       estimatedCost := estimatedCost change;
       performanceGain := performanceGain change;
       specialistInsights := specialistInsights change;
       redFlags := redFlags change;
       suggestedActions := suggestedActions change;
       suggestedQuestions := suggestedQuestions change;
       comparisonRef :=
         Some {| beforeIndex := beforeIndex;
                 afterIndex := afterIndex;
                 label := label |} |}) baseChanges.

(** Optional chaining: [x?.f], and [x?.f] where [f] is itself optional. *)
Definition opt {A B : Type} (x : option A) (f : A -> B) : option B :=
  option_map f x.

Definition opt' {A B : Type} (x : option A) (f : A -> option B) : option B :=
  match x with Some v => f v | None => None end.

(** [stages.object_diff?.report?.paired || stages.object_diff?.summary?.paired
    || []]; an array, even an empty one, is truthy. *)
Definition yoloPairsOf (stages : BackendPipelineStages.t)
  : list BackendYoloPair.t :=
  let stage := BackendPipelineStages.object_diff stages in
  match opt' (opt' stage BackendObjectDiffStage.report)
          BackendObjectDiffReport.paired with
  | Some pairs => pairs
  | None =>
      nullish
        (opt' (opt' stage BackendObjectDiffStage.summary)
           BackendObjectDiffSummary.paired) []
  end.

Definition maskDetectionsOf (stages : BackendPipelineStages.t)
  : list BackendMaskDetection.t :=
  nullish
    (opt' (opt' (BackendPipelineStages.mask_rcnn stages) BackendMaskStage.summary)
       BackendMaskSummary.detections) [].

Definition pcbRegionsOf (stages : BackendPipelineStages.t)
  : list BackendPcbRegion.t :=
  nullish
    (opt' (opt' (BackendPipelineStages.pcb_cd stages) BackendPcbStage.summary)
       BackendPcbSummary.regions) [].

Definition changeformerSummaryOf (stages : BackendPipelineStages.t)
  : option BackendChangeformerSummary.t :=
  opt' (BackendPipelineStages.changeformer_cd stages)
    BackendChangeformerStage.summary.

(** The function [collectTimelineChanges] maps over the timeline: the
    changes of one frame pair. *)
Definition timelineEntryChanges (mode : ComparisonMode)
  (entry : BackendTimelineEntry.t) : list DetectedChange :=
  match BackendTimelineEntry.pipeline entry with
  | None => []
  | Some timelinePipeline =>
      let afterIndex := BackendTimelineEntry.afterIndex entry in
      let beforeIndex := BackendTimelineEntry.beforeIndex entry in
      let pcbChanges :=
        labelTimelineChanges
          (createPcbChanges (pcbRegionsOf timelinePipeline)
             (opt' (BackendPipelineStages.pcb_cd timelinePipeline)
                BackendPcbStage.imageSize))
          afterIndex beforeIndex mode "pcb" in
      let yoloChanges :=
        labelTimelineChanges
          (createYoloChanges (yoloPairsOf timelinePipeline)
             (opt' (BackendPipelineStages.object_diff timelinePipeline)
                BackendObjectDiffStage.imageSize))
          afterIndex beforeIndex mode "RF-DETR-Seg" in
      let maskChanges :=
        labelTimelineChanges
          (createMaskChanges (maskDetectionsOf timelinePipeline)
             (opt' (BackendPipelineStages.mask_rcnn timelinePipeline)
                BackendMaskStage.imageSize))
          afterIndex beforeIndex mode "mask" in
      let changeformerChanges :=
        labelTimelineChanges
          (createChangeformerChanges (changeformerSummaryOf timelinePipeline)
             (opt' (BackendPipelineStages.changeformer_cd timelinePipeline)
                BackendChangeformerStage.imageSize))
          afterIndex beforeIndex mode "changeformer" in
      (pcbChanges ++ yoloChanges ++ maskChanges ++ changeformerChanges)%list
  end.

Definition collectTimelineChanges (job : BackendJobResponse.t)
  : list DetectedChange :=
  match BackendJobResponse.timeline job with
  | None => []
  | Some timeline =>
      if (List.length timeline =? 0)%nat then []
      else
        let mode := nullish (BackendJobResponse.comparisonMode job) baseline in
        flat_map (timelineEntryChanges mode) timeline
  end.

(** The constant [fallbackChanges] of [assembleAnalysisResult]: what the
    builders make of the job-level stages. *)
Definition fallbackChanges (pipeline : BackendPipelineStages.t)
  : list DetectedChange :=
  let fallbackYoloPairs := yoloPairsOf pipeline in
  let fallbackMaskDetections := maskDetectionsOf pipeline in
  let fallbackPcbRegions := pcbRegionsOf pipeline in
  let fallbackChangeformerSummary := changeformerSummaryOf pipeline in
  (createPcbChanges fallbackPcbRegions
     (opt' (BackendPipelineStages.pcb_cd pipeline) BackendPcbStage.imageSize)
   ++ createYoloChanges fallbackYoloPairs
        (opt' (BackendPipelineStages.object_diff pipeline)
           BackendObjectDiffStage.imageSize)
   ++ createMaskChanges fallbackMaskDetections
        (opt' (BackendPipelineStages.mask_rcnn pipeline)
           BackendMaskStage.imageSize)
   ++ createChangeformerChanges fallbackChangeformerSummary
        (opt' (BackendPipelineStages.changeformer_cd pipeline)
           BackendChangeformerStage.imageSize))%list.

Definition assembleAnalysisResult (job : BackendJobResponse.t)
  (domain : DomainMode) : AnalysisResult :=
  let pipeline :=
    nullish (BackendJobResponse.pipeline job) BackendPipelineStages.empty in
  let pcb_cd := BackendPipelineStages.pcb_cd pipeline in
  let changeformer_cd := BackendPipelineStages.changeformer_cd pipeline in
  let fallbackMaskDetections := maskDetectionsOf pipeline in
  let timelineChanges := collectTimelineChanges job in
  let fallbackChanges := fallbackChanges pipeline in
  let changes :=
    if (List.length timelineChanges =? 0)%nat then fallbackChanges
    else timelineChanges in
  let hasMaskChanges :=
    if (List.length timelineChanges =? 0)%nat
    then (0 <? List.length fallbackMaskDetections)%nat
    else existsb (fun change => startsWith (id change) "mask") timelineChanges in
  let pcbSummary := opt' pcb_cd BackendPcbStage.summary in
  let pcbRegionCount :=
    nullish (opt' pcbSummary BackendPcbSummary.regionCount) 0%float in
  let pcbCoverage := nullish (opt' pcbSummary BackendPcbSummary.coverage) 0%float in
  let pcbCoveragePct := (Math_round (pcbCoverage * 1000) / 10)%float in
  let changeformerSummary := opt' changeformer_cd BackendChangeformerStage.summary in
  let changeformerRegionCount :=
    nullish (opt' changeformerSummary BackendChangeformerSummary.regionCount)
      0%float in
  let changeformerCoverage :=
    nullish (opt' changeformerSummary BackendChangeformerSummary.coverage)
      0%float in
  let changeformerCoveragePct :=
    (Math_round (changeformerCoverage * 1000) / 10)%float in
  let changedComponents :=
    List.length (filter (fun change => Impact_eqb (impact change) High) changes) in
  let first : list string :=
    if (0 <? changedComponents)%nat
    then ["Prioritise inspection of " ++ string_of_nat changedComponents
          ++ " component(s) flagged by SSIM/RF-DETR-Seg."]
    else ["No high-impact structural deltas detected; continue baseline monitoring."] in
  let pcbAdvice : list string :=
    if truthy pcbRegionCount
    then ["Review RF-DETR-Seg manufacturing mask (~"
          ++ Number_toString pcbCoveragePct
          ++ "% coverage) before releasing to Gemini."]
    else if gt pcbCoverage 0
    then ["RF-DETR-Seg detected low-level PCB drift (~"
          ++ Number_toString pcbCoveragePct
          ++ "% coverage); spot-check the suspect zones."]
    else [] in
  let changeformerAdvice : list string :=
    if truthy changeformerRegionCount
    then ["Inspect " ++ Number_toString changeformerRegionCount
          ++ " ChangeFormer structural region(s) before clearing infrastructure alert."]
    else if gt changeformerCoverage 0.01
    then ["Review ChangeFormer heatmap (~"
          ++ Number_toString changeformerCoveragePct
          ++ "% coverage) to localise infrastructure stress."]
    else [] in
  let maskAdvice : list string :=
    if hasMaskChanges
    then ["Review Mask R-CNN overlay for precise damage contours."]
    else [] in
  let recommendations : list string :=
    app first
      (app pcbAdvice
         (app changeformerAdvice
            (app maskAdvice
               ["Use backend artifacts for engineering deep dives or export packages."]))) in
  let summary :=
    match domain with
    | Manufacturing =>
        if gt pcbRegionCount 0
        then "RF-DETR-Seg flagged " ++ Number_toString pcbRegionCount
             ++ " manufacturing defect" ++ (if gt pcbRegionCount 1 then "s" else "")
             ++ " (~" ++ Number_toString pcbCoveragePct ++ "% coverage)."
        else if gt pcbCoverage 0
        then "RF-DETR-Seg detected ~" ++ Number_toString pcbCoveragePct
             ++ "% low-level PCB drift without discrete regions."
        else "RF-DETR-Seg reports no manufacturing anomalies versus baseline."
    | Infrastructure =>
        if gt changeformerRegionCount 0
        then "ChangeFormer highlighted " ++ Number_toString changeformerRegionCount
             ++ " infrastructure drift region"
             ++ (if gt changeformerRegionCount 1 then "s" else "") ++ "."
        else if gt changeformerCoverage 0
        then "ChangeFormer heatmap shows ~" ++ Number_toString changeformerCoveragePct
             ++ "% diffuse drift; monitor the span."
        else "ChangeFormer reports no structural drift versus baseline."
    | _ =>
        if (0 <? changedComponents)%nat
        then "Detected " ++ string_of_nat changedComponents
             ++ " structural changes in " ++ DomainMode_text domain ++ " mode."
        else "No major deltas found for " ++ DomainMode_text domain
             ++ " mode. Alignment + SSIM agree with baseline."
    end in
  {| summary := summary;
     changes := changes;
     recommendations := recommendations;
     isDemoMode := false;
     jobId := Some (BackendJobResponse.jobId job) |}.

Record ImageFile := {
  image_id : string;
  file : Http.File;
  previewUrl : string;
  image_label : string
}.

Definition DEFAULT_API_BASE : string := "http://localhost:8000".

Definition API_BASE (env : Env.t) : string :=
  str_or (Env.VITE_ORCHESTRATOR_URL env) DEFAULT_API_BASE.

Definition ComparisonMode_text (mode : ComparisonMode) : string :=
  match mode with baseline => "baseline" | consecutive => "consecutive" end.

Definition analyzeWithBackend (env : Env.t) (fetch : Http.Fetch)
  (imageFiles : list ImageFile) (domain : DomainMode)
  (comparisonMode : ComparisonMode) : Async.M AnalysisResult :=
  if (List.length imageFiles <? 2)%nat
  then Async.throw "At least two images are required for backend analysis."
  else
    Async.setProgress 15 "Uploading ordered frames to backend orchestrator..." ;;;
    let formData :=
      (map (fun image =>
              ("frames", Http.Blob (file image) (Http.name (file image))))
         imageFiles
       ++ [("domain", Http.Text (DomainMode_text domain));
           ("comparisonMode", Http.Text (ComparisonMode_text comparisonMode));
           ("baselineIndex", Http.Text "0")])%list in
    response <-
      Async.await
        (fetch {| Http.url := API_BASE env ++ "/api/jobs";
                  Http.method := "POST";
                  Http.body := formData |}) ;;
    if negb (Http.ok response)
    then
      errorText <- Async.await (Http.text response) ;;
      Async.throw
        (if nonEmpty errorText then errorText
         else "Backend analysis request failed.")
    else
      let progressLabel :=
        match domain with
        | Manufacturing => "Running RF-DETR-Seg manufacturing pipeline..."
        | Infrastructure => "Running ChangeFormer infrastructure pipeline..."
        | _ => "Running SSIM, RF-DETR-Seg, and Mask R-CNN pipelines..."
        end in
      Async.setProgress 60 progressLabel ;;;
      job <- Async.await (Http.json response) ;;
      if negb (String.eqb (BackendJobResponse.status job) "completed")
      then
        Async.throw
          (str_or (opt' (BackendJobResponse.error job) BackendError.message)
             "Analysis job failed on the backend.")
      else
        Async.setProgress 90 "Synthesizing engineering brief..." ;;;
        Async.ret (assembleAnalysisResult job domain).

End BackendClient.

(** ** utils/artifacts.ts *)

Module Artifacts.
Import JS.

Definition ORCHESTRATOR_BASE (env : Env.t) : string :=
  str_or (Env.VITE_ORCHESTRATOR_URL env) "http://localhost:8000".

(** [[^/]+] at the head of [s]: the longest run without a slash, and what
    follows it. *)
Fixpoint span_segment (s : string) : string * string :=
  match s with
  | EmptyString => (EmptyString, EmptyString)
  | String c s' =>
      if Ascii.eqb c "/" then (EmptyString, s)
      else let '(seg, rest) := span_segment s' in (String c seg, rest)
  end.

(** [.+] at the head of [s]: the longest run without a line terminator. *)
Fixpoint span_line (s : string) : string :=
  match s with
  | EmptyString => EmptyString
  | String c s' =>
      match strip_any lineTerminators s with
      | Some _ => EmptyString
      | None => String c (span_line s')
      end
  end.

(** A match of [/\/data\/jobs\/([^/]+)\/(.+)/] that starts at the head of
    [s]: its two groups. *)
Definition JOB_PATH_at (s : string) : option (string * string) :=
  match strip_prefix "/data/jobs/" s with
  | None => None
  | Some r =>
      match span_segment r with
      | (String c jobId, String "/" r') =>
          match span_line r' with
          | EmptyString => None
          | relativePath => Some (String c jobId, relativePath)
          end
      | _ => None
      end
  end.

(** [s.match(JOB_PATH_REGEX)]: the groups of the leftmost match. *)
Fixpoint JOB_PATH_REGEX (s : string) : option (string * string) :=
  match JOB_PATH_at s with
  | Some groups => Some groups
  | None =>
      match s with
      | EmptyString => None
      | String _ s' => JOB_PATH_REGEX s'
      end
  end.

Definition encodeSegmentedPath (path : string) : string :=
  join "/" (map encodeURIComponent (filter nonEmpty (split "/" path))).

(** [/^https?:/i.test(s)] *)
Definition isHttp (s : string) : bool :=
  let l := toLowerCase s in
  startsWith l "http:" || startsWith l "https:".

(** [s.replace(/\/$/, '')] *)
Fixpoint dropFinalSlash (s : string) : string :=
  match s with
  | EmptyString => EmptyString
  | String c EmptyString => if Ascii.eqb c "/" then EmptyString else s
  | String c s' => String c (dropFinalSlash s')
  end.

Definition resolveArtifactUrl (env : Env.t) (artifact : option string)
  (comparisonRoot : option string) : option string :=
  match artifact with
  | None => None
  | Some artifact =>
      if negb (nonEmpty artifact) then None
      else
        let trimmed := trim artifact in
        if negb (nonEmpty trimmed) then None
        else if isHttp trimmed then Some trimmed
        else if startsWith trimmed "//" then Some ("https:" ++ trimmed)
        else
          let base := dropFinalSlash (ORCHESTRATOR_BASE env) in
          match JOB_PATH_REGEX trimmed with
          | Some (jobId, relativePath) =>
              Some (base ++ "/api/jobs/" ++ jobId ++ "/artifacts/"
                    ++ encodeSegmentedPath relativePath)
          | None =>
              match BackendClient.opt' comparisonRoot JOB_PATH_REGEX with
              | Some (jobId, _) =>
                  Some (base ++ "/api/jobs/" ++ jobId ++ "/artifacts/"
                        ++ encodeSegmentedPath trimmed)
              | None =>
                  if startsWith trimmed "/" then Some (base ++ trimmed)
                  else Some (base ++ "/" ++ encodeSegmentedPath trimmed)
              end
          end
  end.

Definition getOrchestratorBase (env : Env.t) : string := ORCHESTRATOR_BASE env.

End Artifacts.

(** * The timeline summary *)

From Stdlib Require Import Permutation Sorted.

(** ** The host *)

(** Two built-ins give what the JavaScript engine and its locale data make
    of their arguments: [a.localeCompare(b)], of which only the sign is
    used, and [s.toUpperCase()].  The code that calls them takes them from
    the host. *)
Module Host.
Record t := {
  localeCompare : string -> string -> Z;
  toUpperCase : string -> string
}.
End Host.

(** ** types.ts: the timeline metadata *)

Module TimelineFrameMetadata.
Record t := {
  index : Z;
  label : option string;
  originalName : option string;
  path : option string
}.
End TimelineFrameMetadata.

Module TimelineComponentDiff.
Record t := {
  component : string;
  ssim : option float;
  confidence : option float;
  changed : option bool
}.
End TimelineComponentDiff.

(** The object types that [TimelineComparisonMetadata] declares in place. *)
Module TimelineAlignmentArtifacts.
Record t := { overlay : option string; heatmap : option string }.
End TimelineAlignmentArtifacts.

Module TimelineObjectDiffArtifacts.
Record t := {
  overlay : option string;
  roiDir : option string;
  roboflowVisualizations : option (list string);
  componentDiffs : option (list TimelineComponentDiff.t)
}.
End TimelineObjectDiffArtifacts.

Module TimelineMaskArtifacts.
Record t := { overlay : option string }.
End TimelineMaskArtifacts.

(** The summaries are the objects of the job document, passed on. *)
Module TimelinePcbMaskArtifacts.
Record t := {
  mask : option string;
  overlay : option string;
  heatmap : option string;
  summaryPath : option string;
  summary : option BackendPcbSummary.t
}.
End TimelinePcbMaskArtifacts.

Module TimelineChangeformerArtifacts.
Record t := {
  mask : option string;
  overlay : option string;
  heatmap : option string;
  summary : option BackendChangeformerSummary.t
}.
End TimelineChangeformerArtifacts.

Module TimelineComparisonMetadata.
Record t := {
  beforeIndex : Z;
  afterIndex : Z;
  comparisonRoot : option string;
  ssim : option float;
  alignmentArtifacts : option TimelineAlignmentArtifacts.t;
  objectDiffArtifacts : option TimelineObjectDiffArtifacts.t;
  maskArtifacts : option TimelineMaskArtifacts.t;
  pcbMaskArtifacts : option TimelinePcbMaskArtifacts.t;
  changeformerArtifacts : option TimelineChangeformerArtifacts.t
}.
End TimelineComparisonMetadata.

Module TimelineSummary.
Record t := {
  mode : Types.ComparisonMode;
  baselineIndex : Z;
  frames : list TimelineFrameMetadata.t;
  comparisons : list TimelineComparisonMetadata.t
}.
End TimelineSummary.

(** ** services/backendClient.ts: the artifact bundles of the stages *)

(** A path that is [null] and a path that is missing are both [None]; no
    code tells them apart.  The record of Roboflow renderings is the list of
    its entries, in the order [Object.entries] gives them. *)

Module BackendAlignmentArtifacts.
Record t := { overlay : option string; heatmap : option string }.
End BackendAlignmentArtifacts.

Module BackendAlignmentSummary.
Record t := { ssim : option float }.
End BackendAlignmentSummary.

Module BackendAlignmentStage.
Record t := {
  summary : option BackendAlignmentSummary.t;
  artifacts : option BackendAlignmentArtifacts.t;
  imageSize : option BackendImageSize.t
}.
End BackendAlignmentStage.

Module BackendObjectDiffArtifacts.
Record t := {
  overlay : option string;
  paired_roi_dir : option string;
  roboflow_visualizations : option (list (string * option string))
}.
End BackendObjectDiffArtifacts.

Module BackendMaskArtifacts.
Record t := { overlay : option string; raw : option string }.
End BackendMaskArtifacts.

Module BackendPcbArtifacts.
Record t := {
  mask : option string;
  overlay : option string;
  heatmap : option string;
  report : option string
}.
End BackendPcbArtifacts.

Module BackendChangeformerArtifacts.
Record t := {
  mask : option string;
  overlay : option string;
  heatmap : option string;
  report : option string
}.
End BackendChangeformerArtifacts.

(** ** The job document with its artifact bundles *)

(** The interfaces of the job document in full: a stage is the stage the
    change builders read, together with its artifact bundle, and the
    alignment stage is there.  [stages], [entry] and [job] give the document
    the change builders read. *)
Module Document.

Module ObjectDiffStage.
Record t := {
  stage : BackendObjectDiffStage.t;
  artifacts : option BackendObjectDiffArtifacts.t
}.
End ObjectDiffStage.

Module MaskStage.
Record t := {
  stage : BackendMaskStage.t;
  artifacts : option BackendMaskArtifacts.t
}.
End MaskStage.

Module PcbStage.
Record t := {
  stage : BackendPcbStage.t;
  artifacts : option BackendPcbArtifacts.t
}.
End PcbStage.

Module ChangeformerStage.
Record t := {
  stage : BackendChangeformerStage.t;
  artifacts : option BackendChangeformerArtifacts.t
}.
End ChangeformerStage.

Module PipelineStages.
Record t := {
  alignment : option BackendAlignmentStage.t;
  object_diff : option ObjectDiffStage.t;
  mask_rcnn : option MaskStage.t;
  pcb_cd : option PcbStage.t;
  changeformer_cd : option ChangeformerStage.t
}.

Definition stages (p : t) : BackendPipelineStages.t :=
  {| BackendPipelineStages.object_diff :=
       option_map ObjectDiffStage.stage (object_diff p);
     BackendPipelineStages.mask_rcnn := option_map MaskStage.stage (mask_rcnn p);
     BackendPipelineStages.pcb_cd := option_map PcbStage.stage (pcb_cd p);
     BackendPipelineStages.changeformer_cd :=
       option_map ChangeformerStage.stage (changeformer_cd p) |}.
End PipelineStages.

Module TimelineEntry.
Record t := {
  beforeIndex : Z;
  afterIndex : Z;
  beforePath : option string;
  afterPath : option string;
  comparisonRoot : option string;
  pipeline : option PipelineStages.t
}.

Definition entry (e : t) : BackendTimelineEntry.t :=
  {| BackendTimelineEntry.beforeIndex := beforeIndex e;
     BackendTimelineEntry.afterIndex := afterIndex e;
     BackendTimelineEntry.beforePath := beforePath e;
     BackendTimelineEntry.afterPath := afterPath e;
     BackendTimelineEntry.comparisonRoot := comparisonRoot e;
     BackendTimelineEntry.pipeline := option_map PipelineStages.stages (pipeline e) |}.
End TimelineEntry.

Module JobResponse.
Record t := {
  jobId : string;
  status : string;
  comparisonMode : option Types.ComparisonMode;
  baselineIndex : option Z;
  frames : option (list BackendFrameInfo.t);
  timeline : option (list TimelineEntry.t);
  error : option BackendError.t;
  pipeline : option PipelineStages.t
}.

Definition job (j : t) : BackendJobResponse.t :=
  {| BackendJobResponse.jobId := jobId j;
     BackendJobResponse.status := status j;
     BackendJobResponse.comparisonMode := comparisonMode j;
     BackendJobResponse.baselineIndex := baselineIndex j;
     BackendJobResponse.frames := frames j;
     BackendJobResponse.timeline := option_map (map TimelineEntry.entry) (timeline j);
     BackendJobResponse.error := error j;
     BackendJobResponse.pipeline := option_map PipelineStages.stages (pipeline j) |}.
End JobResponse.

End Document.

(** ** services/backendClient.ts: the timeline summary *)

Module BackendTimeline.
Import JS Types BackendClient.

(** [list.sort(compare)]: the sort is stable, and for a comparator that
    orders the elements consistently its result is the one of insertion
    sort, an element going before the elements it does not follow. *)
Fixpoint insert {A : Type} (compare : A -> A -> Z) (x : A) (sorted : list A)
  : list A :=
  match sorted with
  | [] => [x]
  | y :: rest =>
      if (compare x y <=? 0)%Z then x :: sorted
      else y :: insert compare x rest
  end.

Definition sort {A : Type} (compare : A -> A -> Z) (l : list A) : list A :=
  fold_right (insert compare) [] l.

(** [Boolean(path)] for a path that may be [null] *)
Definition givenPath (path : option string) : bool :=
  match path with Some s => nonEmpty s | None => false end.

(** The strings of a list from which [filter(Boolean)] removed the rest. *)
Definition strings (paths : list (option string)) : list string :=
  flat_map (fun path => match path with Some s => [s] | None => [] end) paths.

Definition extractRoboflowVisualizations (host : Host.t)
  (entries : option (list (string * option string))) : option (list string) :=
  match entries with
  | None => None
  | Some entries =>
      let resolved :=
        strings
          (filter givenPath
             (map snd
                (sort (fun a b => Host.localeCompare host (fst a) (fst b))
                   entries))) in
      if (List.length resolved =? 0)%nat then None else Some resolved
  end.

Definition summarizeComponentDiffs (pairs : option (list BackendYoloPair.t))
  : option (list TimelineComponentDiff.t) :=
  match pairs with
  | None => None
  | Some pairs =>
      if (List.length pairs =? 0)%nat then None
      else
        let summarized :=
          map (fun pair =>
                 {| TimelineComponentDiff.component :=
                      str_or (BackendYoloPair.class_name pair) "component";
                    TimelineComponentDiff.ssim :=
                      option_map (fun s => Number_ofString (toFixed s 4))
                        (BackendYoloPair.ssim pair);
                    TimelineComponentDiff.confidence :=
                      option_map (fun c => Number_ofString (toFixed c 3))
                        (BackendYoloPair.confidence pair);
                    TimelineComponentDiff.changed :=
                      Some (nullish (BackendYoloPair.changed pair) false) |})
            pairs in
        if (List.length summarized =? 0)%nat then None else Some summarized
  end.

(** [x || y] for two optional objects or arrays, which are truthy when
    they are there. *)
Definition orElse {A : Type} (x y : option A) : option A :=
  match x with Some _ => x | None => y end.

(** [Boolean(x)] for an optional object *)
Definition present {A : Type} (x : option A) : bool :=
  match x with Some _ => true | None => false end.

(** The function [buildTimelineSummary] maps over the frames and over the
    timeline. *)
Definition frameMetadata (frame : BackendFrameInfo.t) : TimelineFrameMetadata.t :=
  {| TimelineFrameMetadata.index := BackendFrameInfo.index frame;
     TimelineFrameMetadata.label :=
       Some ("Frame " ++ string_of_Z (BackendFrameInfo.index frame + 1));
     TimelineFrameMetadata.originalName := BackendFrameInfo.originalName frame;
     TimelineFrameMetadata.path := BackendFrameInfo.path frame |}.

Definition comparisonMetadata (host : Host.t) (entry : Document.TimelineEntry.t)
  : TimelineComparisonMetadata.t :=
  let pipeline := Document.TimelineEntry.pipeline entry in
  let alignment := opt' pipeline Document.PipelineStages.alignment in
  let object_diff := opt' pipeline Document.PipelineStages.object_diff in
  let mask_rcnn := opt' pipeline Document.PipelineStages.mask_rcnn in
  let alignmentArtifacts := opt' alignment BackendAlignmentStage.artifacts in
  let objectDiffArtifacts := opt' object_diff Document.ObjectDiffStage.artifacts in
  let maskArtifacts := opt' mask_rcnn Document.MaskStage.artifacts in
  let pcbStage := opt' pipeline Document.PipelineStages.pcb_cd in
  let pcbArtifacts := opt' pcbStage Document.PcbStage.artifacts in
  let pcbSummary :=
    opt' pcbStage (fun s => BackendPcbStage.summary (Document.PcbStage.stage s)) in
  let changeformerStage := opt' pipeline Document.PipelineStages.changeformer_cd in
  let changeformerStageArtifacts :=
    opt' changeformerStage Document.ChangeformerStage.artifacts in
  let changeformerSummary :=
    opt' changeformerStage
      (fun s => BackendChangeformerStage.summary (Document.ChangeformerStage.stage s)) in
  let changeformerArtifacts :=
    if present changeformerStageArtifacts || present changeformerSummary
    then Some {| TimelineChangeformerArtifacts.mask :=
                   opt' changeformerStageArtifacts BackendChangeformerArtifacts.mask;
                 TimelineChangeformerArtifacts.overlay :=
                   opt' changeformerStageArtifacts BackendChangeformerArtifacts.overlay;
                 TimelineChangeformerArtifacts.heatmap :=
                   opt' changeformerStageArtifacts BackendChangeformerArtifacts.heatmap;
                 TimelineChangeformerArtifacts.summary := changeformerSummary |}
    else None in
  let maskDetections :=
    nullish
      (opt' (opt' mask_rcnn
               (fun s => BackendMaskStage.summary (Document.MaskStage.stage s)))
         BackendMaskSummary.detections) [] in
  let hasMaskOverlay :=
    givenPath (opt' maskArtifacts BackendMaskArtifacts.overlay)
    && existsb
         (fun det =>
            PrimFloat.leb MASK_CONFIDENCE_THRESHOLD
              (nullish (BackendMaskDetection.score det) 0%float))
         maskDetections in
  {| TimelineComparisonMetadata.beforeIndex := Document.TimelineEntry.beforeIndex entry;
     TimelineComparisonMetadata.afterIndex := Document.TimelineEntry.afterIndex entry;
     TimelineComparisonMetadata.comparisonRoot :=
       Document.TimelineEntry.comparisonRoot entry;
     TimelineComparisonMetadata.ssim :=
       opt' (opt' alignment BackendAlignmentStage.summary) BackendAlignmentSummary.ssim;
     TimelineComparisonMetadata.alignmentArtifacts :=
       match alignmentArtifacts with
       | Some a =>
           Some {| TimelineAlignmentArtifacts.overlay :=
                     BackendAlignmentArtifacts.overlay a;
                   TimelineAlignmentArtifacts.heatmap :=
                     BackendAlignmentArtifacts.heatmap a |}
       | None => None
       end;
     TimelineComparisonMetadata.objectDiffArtifacts :=
       match objectDiffArtifacts with
       | Some a =>
           Some {| TimelineObjectDiffArtifacts.overlay :=
                     BackendObjectDiffArtifacts.overlay a;
                   TimelineObjectDiffArtifacts.roiDir :=
                     BackendObjectDiffArtifacts.paired_roi_dir a;
                   TimelineObjectDiffArtifacts.roboflowVisualizations :=
                     extractRoboflowVisualizations host
                       (BackendObjectDiffArtifacts.roboflow_visualizations a);
                   TimelineObjectDiffArtifacts.componentDiffs :=
                     summarizeComponentDiffs
                       (orElse
                          (opt' (opt' object_diff
                                   (fun s =>
                                      BackendObjectDiffStage.report
                                        (Document.ObjectDiffStage.stage s)))
                             BackendObjectDiffReport.paired)
                          (opt' (opt' object_diff
                                   (fun s =>
                                      BackendObjectDiffStage.summary
                                        (Document.ObjectDiffStage.stage s)))
                             BackendObjectDiffSummary.paired)) |}
       | None => None
       end;
     TimelineComparisonMetadata.maskArtifacts :=
       if hasMaskOverlay
          && givenPath (opt' maskArtifacts BackendMaskArtifacts.overlay)
       then Some {| TimelineMaskArtifacts.overlay :=
                      opt' maskArtifacts BackendMaskArtifacts.overlay |}
       else None;
     TimelineComparisonMetadata.pcbMaskArtifacts :=
       if present pcbArtifacts || present pcbSummary
       then Some {| TimelinePcbMaskArtifacts.mask :=
                      opt' pcbArtifacts BackendPcbArtifacts.mask;
                    TimelinePcbMaskArtifacts.overlay :=
                      opt' pcbArtifacts BackendPcbArtifacts.overlay;
                    TimelinePcbMaskArtifacts.heatmap :=
                      opt' pcbArtifacts BackendPcbArtifacts.heatmap;
                    TimelinePcbMaskArtifacts.summaryPath :=
                      opt' pcbArtifacts BackendPcbArtifacts.report;
                    TimelinePcbMaskArtifacts.summary := pcbSummary |}
       else None;
     TimelineComparisonMetadata.changeformerArtifacts := changeformerArtifacts |}.

Definition buildTimelineSummary (host : Host.t) (job : Document.JobResponse.t)
  : option TimelineSummary.t :=
  let frames :=
    map frameMetadata (nullish (Document.JobResponse.frames job) []) in
  let comparisons :=
    map (comparisonMetadata host) (nullish (Document.JobResponse.timeline job) []) in
  if (List.length frames =? 0)%nat && (List.length comparisons =? 0)%nat
  then None
  else
    Some {| TimelineSummary.mode :=
              nullish (Document.JobResponse.comparisonMode job) baseline;
            TimelineSummary.baselineIndex :=
              nullish (Document.JobResponse.baselineIndex job) 0%Z;
            TimelineSummary.frames := frames;
            TimelineSummary.comparisons := comparisons |}.

End BackendTimeline.

(** The result of [assembleAnalysisResult] with its [timeline] field. *)
Module Analysis.
Record t := {
  result : Types.AnalysisResult;
  timeline : option TimelineSummary.t
}.

Definition assembleAnalysisResult (host : Host.t) (job : Document.JobResponse.t)
  (domain : Types.DomainMode) : t :=
  {| result := BackendClient.assembleAnalysisResult (Document.JobResponse.job job) domain;
     timeline := BackendTimeline.buildTimelineSummary host job |}.
End Analysis.

(** ** App.tsx: the selection *)

(** The state the selection reads and writes, and the values the component
    derives from it at each rendering. *)
Module App.
Import Types.

Record State := {
  result : option Analysis.t;
  imageFiles : list BackendClient.ImageFile;
  selectedChange : option DetectedChange;
  timelineSliderAfterIndex : option Z;
  showHeatmap : bool;
  useRoboflowOverlay : bool
}.

(** [list.find(test)] *)
Definition find {A : Type} (test : A -> bool) (l : list A) : option A :=
  List.find test l.

(** [result?.timeline?.comparisons || []] *)
Definition timelineComparisons (s : State) : list TimelineComparisonMetadata.t :=
  match BackendClient.opt' (result s) Analysis.timeline with
  | Some timeline => TimelineSummary.comparisons timeline
  | None => []
  end.

(** [timelineComparisons[timelineComparisons.length - 1]] *)
Definition latestComparison (s : State) : option TimelineComparisonMetadata.t :=
  nth_error (timelineComparisons s) (List.length (timelineComparisons s) - 1).

Definition activeComparison (s : State) : option TimelineComparisonMetadata.t :=
  if (List.length (timelineComparisons s) =? 0)%nat then None
  else
    let match_ :=
      match BackendClient.opt' (selectedChange s) comparisonRef with
      | Some ref =>
          find
            (fun comparison =>
               (TimelineComparisonMetadata.afterIndex comparison =? afterIndex ref)%Z
               && (TimelineComparisonMetadata.beforeIndex comparison
                   =? beforeIndex ref)%Z)
            (timelineComparisons s)
      | None => None
      end in
    match match_ with
    | Some _ => match_
    | None =>
        let manual :=
          match timelineSliderAfterIndex s with
          | Some sliderAfterIndex =>
              find
                (fun comparison =>
                   (TimelineComparisonMetadata.afterIndex comparison
                    =? sliderAfterIndex)%Z)
                (timelineComparisons s)
          | None => None
          end in
        match manual with
        | Some _ => manual
        | None => latestComparison s
        end
    end.

Definition activeBeforeIndex (s : State) : Z :=
  match activeComparison s with
  | Some comparison => TimelineComparisonMetadata.beforeIndex comparison
  | None =>
      match BackendClient.opt' (selectedChange s) comparisonRef with
      | Some ref => beforeIndex ref
      | None => 0%Z
      end
  end.

Definition activeAfterIndex (s : State) : Z :=
  match activeComparison s with
  | Some comparison => TimelineComparisonMetadata.afterIndex comparison
  | None =>
      match BackendClient.opt' (selectedChange s) comparisonRef with
      | Some ref => afterIndex ref
      | None => Z.max (Z.of_nat (List.length (imageFiles s)) - 1) 0
      end
  end.

Definition handleSelectChange (id : option string) (s : State) : State :=
  match id with
  | None =>
      {| result := result s; imageFiles := imageFiles s;
         selectedChange := None;
         timelineSliderAfterIndex := timelineSliderAfterIndex s;
         showHeatmap := showHeatmap s;
         useRoboflowOverlay := useRoboflowOverlay s |}
  | Some id =>
      let change :=
        BackendClient.opt' (result s)
          (fun r =>
             find (fun c => String.eqb (Types.id c) id)
               (changes (Analysis.result r))) in
      {| result := result s; imageFiles := imageFiles s;
         selectedChange := change;
         timelineSliderAfterIndex :=
           match BackendClient.opt' change comparisonRef with
           | Some ref => Some (afterIndex ref)
           | None => timelineSliderAfterIndex s
           end;
         showHeatmap := showHeatmap s;
         useRoboflowOverlay := useRoboflowOverlay s |}
  end.

Definition handleComparisonChange (afterIndex : Z) (s : State) : State :=
  {| result := result s; imageFiles := imageFiles s;
     selectedChange := None;
     timelineSliderAfterIndex := Some afterIndex;
     showHeatmap := showHeatmap s;
     useRoboflowOverlay := useRoboflowOverlay s |}.

End App.

(** ** The component ResultDisplay: the changes drawn on the frames *)

Module ResultDisplay.
Import Types.

(** The properties of the component that decide which changes are drawn. *)
Record Props := {
  images : list BackendClient.ImageFile;
  result : option Analysis.t;
  comparison : option TimelineComparisonMetadata.t;
  activeBeforeIndex : option Z;
  activeAfterIndex : option Z;
  selectedChangeId : option string;
  showHeatmap : bool;
  useRoboflowOverlay : bool
}.

(** The state of the component that decides it: whether the canvas of the
    annotations is mounted and gives a drawing context, whether the image
    is loaded, the size of the canvas, and the addresses of the Roboflow
    renderings of the frame pair. *)
Module CanvasSize.
Record t := { width : float; height : float }.
End CanvasSize.

Module FrameOverlayUrls.
Record t := { before : option string; after : option string }.
End FrameOverlayUrls.


(** [Boolean(url)] and [url ? ... : ...] for an address that may be [null] *)
Definition given (url : option string) : bool :=
  match url with Some s => JS.nonEmpty s | None => false end.







(** [result?.timeline?.mode ?? 'baseline'] *)
Definition timelineMode (props : Props) : ComparisonMode :=
  JS.nullish
    (option_map TimelineSummary.mode (BackendClient.opt' (result props) Analysis.timeline))
    baseline.

Definition formatComparisonLabel (props : Props) (afterIndex beforeIndex : Z)
  : string :=
  match timelineMode props with
  | consecutive =>
      "Frame " ++ JS.string_of_Z (afterIndex + 1) ++ " vs Frame "
      ++ JS.string_of_Z (beforeIndex + 1)
  | baseline => "Frame " ++ JS.string_of_Z (afterIndex + 1) ++ " vs Baseline"
  end.









(** A call of [drawEnhancedAnnotation] on the canvas of the annotations. *)
Module Annotation.
Record t := { change : DetectedChange; isSelected : bool; index : Z }.
End Annotation.


(** The properties [App] renders the component with. *)
Definition ofApp (s : App.State) : Props :=
  {| images := App.imageFiles s;
     result := App.result s;
     comparison := App.activeComparison s;
     activeBeforeIndex := Some (App.activeBeforeIndex s);
     activeAfterIndex := Some (App.activeAfterIndex s);
     selectedChangeId :=
       match App.selectedChange s with
       | Some c => if JS.nonEmpty (id c) then Some (id c) else None
       | None => None
       end;
     showHeatmap := App.showHeatmap s;
     useRoboflowOverlay := App.useRoboflowOverlay s |}.

End ResultDisplay.

(** ** components/Icons.tsx: the badge of a change *)

Module Icons.
Import JS.

Definition mappings : list (string * string) :=
  [("RF-DETR-Seg", "RF-DETR-Seg"); ("component", "RF-DETR-Seg");
   ("delta", "RF-DETR-Seg"); ("mask", "Mask R-CNN"); ("pcb", "RF-DETR-Seg");
   ("changeformer", "ChangeFormer")].

Definition getChangeSourceLabel (host : Host.t) (changeId : string) : string :=
  if negb (nonEmpty changeId) then "Change"
  else
    match List.find (fun m => startsWith changeId (fst m)) mappings with
    | Some match_ => snd match_
    | None =>
        let fallback := hd "" (split "-" changeId) in
        if nonEmpty fallback then Host.toUpperCase host fallback else "Change"
    end.

End Icons.

(** ** components/DiagnosticsPanel.tsx: the heading of a comparison *)

Module DiagnosticsPanel.
Import Types.

Definition formatComparisonLabel (comparison : TimelineComparisonMetadata.t)
  (mode : ComparisonMode) : string :=
  match mode with
  | consecutive =>
      "Frame " ++ JS.string_of_Z (TimelineComparisonMetadata.afterIndex comparison + 1)
      ++ " vs Frame "
      ++ JS.string_of_Z (TimelineComparisonMetadata.beforeIndex comparison + 1)
  | baseline =>
      "Frame " ++ JS.string_of_Z (TimelineComparisonMetadata.afterIndex comparison + 1)
      ++ " vs Baseline"
  end.

End DiagnosticsPanel.

(** ** services/geminiService.ts: the digest of the artifact gallery *)

Module GeminiService.

Module ArtifactGalleryDigest.
Record t := {
  label : string;
  roboflowVisualizations : list string;
  componentDiffs : list TimelineComponentDiff.t;
  hasMaskMap : bool;
  appendixIndex : nat
}.
End ArtifactGalleryDigest.

Definition buildArtifactGalleryDigest (analysis : Analysis.t)
  : list ArtifactGalleryDigest.t :=
  let comparisons :=
    match Analysis.timeline analysis with
    | Some timeline => TimelineSummary.comparisons timeline
    | None => []
    end in
  BackendClient.mapi
    (fun comparison idx =>
       {| ArtifactGalleryDigest.label :=
            "Frame "
            ++ JS.string_of_Z (TimelineComparisonMetadata.afterIndex comparison + 1)
            ++ " vs Frame "
            ++ JS.string_of_Z (TimelineComparisonMetadata.beforeIndex comparison + 1);
          ArtifactGalleryDigest.roboflowVisualizations :=
            JS.nullish
              (BackendClient.opt'
                 (TimelineComparisonMetadata.objectDiffArtifacts comparison)
                 TimelineObjectDiffArtifacts.roboflowVisualizations) [];
          ArtifactGalleryDigest.componentDiffs :=
            JS.nullish
              (BackendClient.opt'
                 (TimelineComparisonMetadata.objectDiffArtifacts comparison)
                 TimelineObjectDiffArtifacts.componentDiffs) [];
          ArtifactGalleryDigest.hasMaskMap :=
            BackendTimeline.givenPath
              (BackendClient.opt'
                 (TimelineComparisonMetadata.maskArtifacts comparison)
                 TimelineMaskArtifacts.overlay);
          ArtifactGalleryDigest.appendixIndex := idx + 1 |})
    comparisons.

End GeminiService.

(** * Properties *)

(** ** Vocabulary of the statements and sample inputs *)

Section Vocabulary.
Import Types BackendClient.
Local Open Scope float_scope.

(** A shifted mantissa that is not negative. *)
Definition nonneg (r : shr_record) : Prop := (0 <= shr_m r)%Z.

(** A detection whose score is below the mask threshold, and one whose score
    is at or above it. *)
Definition scoreBelow (det : BackendMaskDetection.t) : Prop :=
  exists s, BackendMaskDetection.score det = Some s
            /\ PrimFloat.ltb s 0.85 = true.

Definition scoreAtOrAbove (det : BackendMaskDetection.t) : bool :=
  match BackendMaskDetection.score det with
  | Some s => PrimFloat.leb 0.85 s
  | None => false
  end.

Definition detectionOf (score : float) : BackendMaskDetection.t :=
  {| BackendMaskDetection.class_id := 1;
     BackendMaskDetection.class_name := Some "dent"%string;
     BackendMaskDetection.bbox := Some (10, 20, 30, 40);
     BackendMaskDetection.score := Some score;
     BackendMaskDetection.mask_area := Some 1234 |}.

(** The label in which [createPcbChanges] looks for defect tokens, whether
    it mentions one of [tokens], and the area ratio it reads. *)
Definition labelOf (region : BackendPcbRegion.t) : string :=
  JS.toLowerCase
    (JS.str_or (BackendPcbRegion.label region)
       (JS.str_or (BackendPcbRegion.id region) "")).

Definition mentions (tokens : list string) (region : BackendPcbRegion.t) : bool :=
  existsb (fun token => JS.includes (labelOf region) token) tokens.

Definition areaOf (region : BackendPcbRegion.t) : float :=
  JS.nullish (BackendPcbRegion.areaRatio region) 0.

Definition regionOf (id label : option string) (areaRatio : float)
  : BackendPcbRegion.t :=
  {| BackendPcbRegion.id := id;
     BackendPcbRegion.label := label;
     BackendPcbRegion.bbox := None;
     BackendPcbRegion.bboxNormalized := Some (0.1, 0.1, 0.2, 0.2);
     BackendPcbRegion.centroidNormalized := None;
     BackendPcbRegion.pixelCount := Some 1200;
     BackendPcbRegion.areaRatio := Some areaRatio;
     BackendPcbRegion.confidence := None;
     BackendPcbRegion.source := None;
     BackendPcbRegion.meanProbability := None;
     BackendPcbRegion.maxProbability := None |}.

(** A structural-drift summary with a coverage and no region. *)
Definition driftOf (coverage : float) : BackendChangeformerSummary.t :=
  {| BackendChangeformerSummary.status := None;
     BackendChangeformerSummary.coverage := Some coverage;
     BackendChangeformerSummary.pixelsChanged := None;
     BackendChangeformerSummary.regionCount := None;
     BackendChangeformerSummary.regions := Some [];
     BackendChangeformerSummary.globalMeanProbability := None;
     BackendChangeformerSummary.globalMaxProbability := None |}.

(** The three impact tiers of an area ratio, and of a coverage percentage. *)
Definition areaTier (areaRatio : float) : Impact :=
  if gt areaRatio 0.02 then High
  else if gt areaRatio 0.008 then Medium else Low.

Definition coverageTier (pct : float) : Impact :=
  if gt pct 3 then High else if gt pct 1 then Medium else Low.

(** The stages of a frame pair on which only the object diff ran, reporting
    [pairs]. *)
Definition objectDiffOnly (stages : BackendPipelineStages.t)
  (pairs : list BackendYoloPair.t) : Prop :=
  yoloPairsOf stages = pairs
  /\ maskDetectionsOf stages = []
  /\ pcbRegionsOf stages = []
  /\ changeformerSummaryOf stages = None.

(** What the object-diff builder gives a changed and an unchanged pair. *)
Definition severityOf (pair : BackendYoloPair.t) (change : DetectedChange) : Prop :=
  if JS.nullish (BackendYoloPair.changed pair) false
  then impact change = High /\ criticality change = 7
       /\ estimatedCost change = 5000
       /\ redFlags change
          = [("SSIM delta "
              ++ JS.nullish
                   (option_map (fun s => JS.toFixed s 3) (BackendYoloPair.ssim pair))
                   "N/A")%string]
  else impact change = Low /\ criticality change = 3
       /\ estimatedCost change = 0 /\ redFlags change = [].

Definition componentOf (changed : bool) : BackendYoloPair.t :=
  {| BackendYoloPair.class_name := Some "front_wing"%string;
     BackendYoloPair.box_shared := Some (10, 20, 30, 40);
     BackendYoloPair.changed := Some changed;
     BackendYoloPair.ssim := Some 0.41251;
     BackendYoloPair.confidence := Some 0.9;
     BackendYoloPair.llm_damage_notes := None |}.

Definition objectDiffStages (pairs : list BackendYoloPair.t)
  : BackendPipelineStages.t :=
  {| BackendPipelineStages.object_diff :=
       Some {| BackendObjectDiffStage.summary := None;
               BackendObjectDiffStage.report :=
                 Some {| BackendObjectDiffReport.paired := Some pairs |};
               BackendObjectDiffStage.imageSize :=
                 Some {| BackendImageSize.width := 100;
                         BackendImageSize.height := 50 |} |};
     BackendPipelineStages.mask_rcnn := None;
     BackendPipelineStages.pcb_cd := None;
     BackendPipelineStages.changeformer_cd := None |}.

Definition framePair (beforeIndex afterIndex : Z)
  (stages : BackendPipelineStages.t) : BackendTimelineEntry.t :=
  {| BackendTimelineEntry.beforeIndex := beforeIndex;
     BackendTimelineEntry.afterIndex := afterIndex;
     BackendTimelineEntry.beforePath := None;
     BackendTimelineEntry.afterPath := None;
     BackendTimelineEntry.comparisonRoot := None;
     BackendTimelineEntry.pipeline := Some stages |}.

Definition completedJob (mode : ComparisonMode)
  (timeline : list BackendTimelineEntry.t)
  (pipeline : option BackendPipelineStages.t) : BackendJobResponse.t :=
  {| BackendJobResponse.jobId := "job-42";
     BackendJobResponse.status := "completed";
     BackendJobResponse.comparisonMode := Some mode;
     BackendJobResponse.baselineIndex := Some 0%Z;
     BackendJobResponse.frames := None;
     BackendJobResponse.timeline := Some timeline;
     BackendJobResponse.error := None;
     BackendJobResponse.pipeline := pipeline |}.

(** The job with another job-level [pipeline]. *)
Definition withPipeline (job : BackendJobResponse.t)
  (pipeline : option BackendPipelineStages.t) : BackendJobResponse.t :=
  {| BackendJobResponse.jobId := BackendJobResponse.jobId job;
     BackendJobResponse.status := BackendJobResponse.status job;
     BackendJobResponse.comparisonMode := BackendJobResponse.comparisonMode job;
     BackendJobResponse.baselineIndex := BackendJobResponse.baselineIndex job;
     BackendJobResponse.frames := BackendJobResponse.frames job;
     BackendJobResponse.timeline := BackendJobResponse.timeline job;
     BackendJobResponse.error := BackendJobResponse.error job;
     BackendJobResponse.pipeline := pipeline |}.

(** A job that failed in a stage, the response that carries it, and two
    uploaded frames. *)
Definition failedJob : BackendJobResponse.t :=
  {| BackendJobResponse.jobId := "job-7";
     BackendJobResponse.status := "failed";
     BackendJobResponse.comparisonMode := Some baseline;
     BackendJobResponse.baselineIndex := Some 0%Z;
     BackendJobResponse.frames := None;
     BackendJobResponse.timeline := None;
     BackendJobResponse.error :=
       Some {| BackendError.message := Some "alignment stage crashed";
               BackendError.stage := Some "alignment";
               BackendError.stdout := None;
               BackendError.stderr := None |};
     BackendJobResponse.pipeline :=
       Some (objectDiffStages [componentOf true]) |}.

Definition answering (job : BackendJobResponse.t) : Http.Fetch :=
  fun _ =>
    Async.Fulfilled
      {| Http.ok := true;
         Http.text := Async.Fulfilled "";
         Http.json := Async.Fulfilled job |}.

Definition frameOf (name : string) : ImageFile :=
  {| image_id := name;
     file := {| Http.name := name |};
     previewUrl := ("blob:" ++ name)%string;
     image_label := name |}.

Definition localhost : Env.t := {| Env.VITE_ORCHESTRATOR_URL := None |}.

(** The id [labelTimelineChanges] gives the change of rank [idx] of a frame
    pair, and the prefixes it is called with. *)
Definition timelineId (prefix : string) (afterIndex : Z) (idx : nat) : string :=
  (prefix ++ "-f" ++ JS.string_of_Z afterIndex ++ "-" ++ JS.string_of_nat idx)%string.

Definition timelinePrefixes : list string :=
  ["pcb"; "RF-DETR-Seg"; "mask"; "changeformer"]%string.

(** A string without the character [-]. *)
Fixpoint dashFree (s : string) : bool :=
  match s with
  | EmptyString => true
  | String c s' => negb (Ascii.eqb c "-") && dashFree s'
  end.

(** The ids the detectors supply for the job-level regions, the prefixes of
    the ids the builders make up, and the condition under which the two
    kinds cannot meet: the supplied ids are pairwise distinct and none begins
    like a made-up one. *)
Definition suppliedIds (regions : list BackendPcbRegion.t) : list string :=
  flat_map
    (fun r =>
       match BackendPcbRegion.id r with
       | Some s => if JS.nonEmpty s then [s] else []
       | None => []
       end) regions.

Definition localPrefixes : list string :=
  ["pcb-"; "component-"; "mask-"; "changeformer-"]%string.

Definition changeformerRegionsOf (stages : BackendPipelineStages.t)
  : list BackendPcbRegion.t :=
  JS.nullish
    (opt' (changeformerSummaryOf stages) BackendChangeformerSummary.regions) [].

Definition detectorIds (stages : BackendPipelineStages.t) : list string :=
  (suppliedIds (pcbRegionsOf stages)
   ++ suppliedIds (changeformerRegionsOf stages))%list.

Definition foreign (s : string) : Prop :=
  Forall (fun q => JS.startsWith s q = false) localPrefixes.

Definition suppliedIdsDistinct (stages : BackendPipelineStages.t) : Prop :=
  NoDup (detectorIds stages) /\ Forall foreign (detectorIds stages).

(** Job-level stages in which a defect detector reports [regions]. *)
Definition pcbStages (regions : list BackendPcbRegion.t)
  : BackendPipelineStages.t :=
  {| BackendPipelineStages.object_diff := None;
     BackendPipelineStages.mask_rcnn := None;
     BackendPipelineStages.pcb_cd :=
       Some {| BackendPcbStage.summary :=
                 Some {| BackendPcbSummary.status := None;
                         BackendPcbSummary.coverage := None;
                         BackendPcbSummary.pixelsChanged := None;
                         BackendPcbSummary.regionCount := None;
                         BackendPcbSummary.regions := Some regions |};
               BackendPcbStage.imageSize := None |};
     BackendPipelineStages.changeformer_cd := None |}.

(** Which made-up prefix an id begins with, if any. *)
Definition kind (x : string) : option nat :=
  if JS.startsWith x "pcb-" then Some 0%nat
  else if JS.startsWith x "component-" then Some 1%nat
  else if JS.startsWith x "mask-" then Some 2%nat
  else if JS.startsWith x "changeformer-" then Some 3%nat
  else None.

(** The ids of regions: the detector's, or [prefix] and the rank. *)
Definition regionIds (prefix : string) (k : nat)
  (regions : list BackendPcbRegion.t) : list string :=
  mapi_from
    (fun r i =>
       JS.str_or (BackendPcbRegion.id r) (prefix ++ JS.string_of_nat i)%string)
    k regions.

End Vocabulary.

(** ** Further vocabulary and sample inputs *)

Section MoreVocabulary.
Import Types BackendClient.
Local Open Scope float_scope.

(** A network that answers every request with an HTTP error carrying [text]. *)
Definition refusing (text : string) : Http.Fetch :=
  fun _ =>
    Async.Fulfilled
      {| Http.ok := false;
         Http.text := Async.Fulfilled text;
         Http.json := Async.Rejected "Unexpected token" |}.

(** The three progress reports of a run that succeeds. *)
Definition progressLabel (domain : DomainMode) : string :=
  match domain with
  | Manufacturing => "Running RF-DETR-Seg manufacturing pipeline..."
  | Infrastructure => "Running ChangeFormer infrastructure pipeline..."
  | _ => "Running SSIM, RF-DETR-Seg, and Mask R-CNN pipelines..."
  end.

Definition fullProgress (domain : DomainMode) : list Async.Progress :=
  [(15, "Uploading ordered frames to backend orchestrator..."%string);
   (60, progressLabel domain);
   (90, "Synthesizing engineering brief..."%string)].

(** [l] begins [m]. *)
Fixpoint isPrefix {A : Type} (l m : list A) : Prop :=
  match l, m with
  | [], _ => True
  | x :: l', y :: m' => x = y /\ isPrefix l' m'
  | _ :: _, [] => False
  end.

End MoreVocabulary.

Section AssemblyVocabulary.
Import Types BackendClient.
Local Open Scope float_scope.

(** The lines the recommendations begin and end with, and the mask line. *)
Definition noDeltaLine : string :=
  "No high-impact structural deltas detected; continue baseline monitoring.".

Definition prioritiseLine (n : nat) : string :=
  ("Prioritise inspection of " ++ JS.string_of_nat n
   ++ " component(s) flagged by SSIM/RF-DETR-Seg.")%string.

Definition artifactsLine : string :=
  "Use backend artifacts for engineering deep dives or export packages.".

Definition maskLine : string :=
  "Review Mask R-CNN overlay for precise damage contours.".

(** The number of changes of impact High. *)
Definition highCount (changes : list DetectedChange) : nat :=
  List.length (filter (fun change => Impact_eqb (impact change) High) changes).

(** The order Low < Medium < High. *)
Definition Impact_le (a b : Impact) : Prop :=
  match a, b with
  | Low, _ | Medium, Medium | Medium, High | High, High => True
  | _, _ => False
  end.

(** Job-level stages in which a mask detector reports [detections]. *)
Definition maskStages (detections : list BackendMaskDetection.t)
  : BackendPipelineStages.t :=
  {| BackendPipelineStages.object_diff := None;
     BackendPipelineStages.mask_rcnn :=
       Some {| BackendMaskStage.summary :=
                 Some {| BackendMaskSummary.detections := Some detections |};
               BackendMaskStage.imageSize := None |};
     BackendPipelineStages.pcb_cd := None;
     BackendPipelineStages.changeformer_cd := None |}.

End AssemblyVocabulary.

(** ** Vocabulary of the change ledger *)

Section LedgerVocabulary.
Import Types BackendClient.
Local Open Scope float_scope.

(** The comparison mode a job is read with. *)
Definition modeOf (job : BackendJobResponse.t) : ComparisonMode :=
  JS.nullish (BackendJobResponse.comparisonMode job) baseline.

(** The reference [labelTimelineChanges] attaches to the changes of a frame
    pair. *)
Definition refOf (mode : ComparisonMode) (entry : BackendTimelineEntry.t)
  : ChangeComparisonRef :=
  {| beforeIndex := BackendTimelineEntry.beforeIndex entry;
     afterIndex := BackendTimelineEntry.afterIndex entry;
     label :=
       formatComparisonLabel (BackendTimelineEntry.afterIndex entry)
         (BackendTimelineEntry.beforeIndex entry) mode |}.

(** The criticality of a change is a number of the scale that ends at 10,
    and agrees with its impact at both ends of the scale. *)
Definition onScale (c : DetectedChange) : Prop :=
  is_nan (criticality c) = false
  /\ PrimFloat.leb (criticality c) 10 = true
  /\ (impact c = High -> criticality c = 7 \/ criticality c = 8)
  /\ (impact c = Low -> criticality c = 3 \/ criticality c = 4).

End LedgerVocabulary.

Section TextVocabulary.

(** The index and its successor are safe integers of JavaScript
    ([Number.isSafeInteger]): both are binary64 numbers, the code computes
    [index + 1] without rounding and prints it with all its digits. *)
Definition safeIndex (index : Z) : bool :=
  (- 2 ^ 53 <? index)%Z && (index + 1 <? 2 ^ 53)%Z.

(** A string without the character space. *)
Fixpoint spaceFree (s : string) : bool :=
  match s with
  | EmptyString => true
  | String c s' => negb (Ascii.eqb c " ") && spaceFree s'
  end.

End TextVocabulary.

Section PathVocabulary.

(** A string without the character [sep]. *)
Fixpoint sepFree (sep : ascii) (s : string) : bool :=
  match s with
  | EmptyString => true
  | String c s' => negb (Ascii.eqb c sep) && sepFree sep s'
  end.

(** Every character of a string passes the test. *)
Fixpoint allChars (p : ascii -> bool) (s : string) : bool :=
  match s with
  | EmptyString => true
  | String c s' => p c && allChars p s'
  end.

(** The characters of an encoded path: what [encodeURIComponent] leaves
    alone, the percent sign of its escapes, and the slash between segments. *)
Definition pathChar (c : ascii) : bool :=
  JS.uriUnreserved c || Ascii.eqb c "%" || Ascii.eqb c "/".

(** The segments of a path that [encodeSegmentedPath] keeps. *)
Definition segments (path : string) : list string :=
  filter JS.nonEmpty (JS.split "/" path).

End PathVocabulary.

Section JobPathVocabulary.

(** A string in which no line terminator begins. *)
Fixpoint noLineBreak (s : string) : bool :=
  match s with
  | EmptyString => true
  | String c s' =>
      match JS.strip_any JS.lineTerminators s with
      | Some _ => false
      | None => noLineBreak s'
      end
  end.

(** The path of a file of a job on the orchestrator's disk. *)
Definition jobPath (jobId relativePath : string) : string :=
  ("/data/jobs/" ++ jobId ++ "/" ++ relativePath)%string.

End JobPathVocabulary.

Section BaseVocabulary.

(** The last character of a string is a slash. *)
Fixpoint endsWithSlash (s : string) : bool :=
  match s with
  | EmptyString => false
  | String c EmptyString => Ascii.eqb c "/"
  | String _ s' => endsWithSlash s'
  end.

End BaseVocabulary.

(** ** Vocabulary of the timeline summary and of the viewer *)

Section ViewerVocabulary.
Import Types BackendClient.

(** A host for the examples: strings compared by their bytes, and the
    letters a-z raised. *)
Definition upper_ascii (c : ascii) : ascii :=
  let n := nat_of_ascii c in
  if (97 <=? n)%nat && (n <=? 122)%nat then ascii_of_nat (n - 32) else c.

Fixpoint upper (s : string) : string :=
  match s with
  | EmptyString => EmptyString
  | String c s' => String (upper_ascii c) (upper s')
  end.

Definition bytewise : Host.t :=
  {| Host.localeCompare :=
       fun a b =>
         match String.compare a b with Lt => (-1)%Z | Eq => 0%Z | Gt => 1%Z end;
     Host.toUpperCase := upper |}.

(** The frame pairs of a job document. *)
Definition timelineOf (job : Document.JobResponse.t) : list Document.TimelineEntry.t :=
  JS.nullish (Document.JobResponse.timeline job) [].

(** The application right after the analysis of [job] arrived. *)
Definition loaded (host : Host.t) (job : Document.JobResponse.t)
  (domain : DomainMode) (images : list ImageFile) : App.State :=
  {| App.result := Some (Analysis.assembleAnalysisResult host job domain);
     App.imageFiles := images;
     App.selectedChange := None;
     App.timelineSliderAfterIndex := None;
     App.showHeatmap := false;
     App.useRoboflowOverlay := false |}.

(** The application holds a result with the changes and the timeline of
    [analysis]; its summary and its recommendations may have been rewritten
    since. *)
Definition carries (s : App.State) (analysis : Analysis.t) : Prop :=
  exists r,
    App.result s = Some r
    /\ changes (Analysis.result r) = changes (Analysis.result analysis)
    /\ Analysis.timeline r = Analysis.timeline analysis.

(** The ledger of the application. *)
Definition ledger (s : App.State) : list DetectedChange :=
  match App.result s with
  | Some r => changes (Analysis.result r)
  | None => []
  end.

(** The change belongs to the frame pair of the comparison, or to none. *)
Definition ofPair (comparison : TimelineComparisonMetadata.t)
  (change : DetectedChange) : bool :=
  match comparisonRef change with
  | Some ref =>
      (afterIndex ref =? TimelineComparisonMetadata.afterIndex comparison)%Z
      && (beforeIndex ref =? TimelineComparisonMetadata.beforeIndex comparison)%Z
  | None => true
  end.



(** The job document of a job without artifact bundles. *)
Definition bareStages (stages : BackendPipelineStages.t) : Document.PipelineStages.t :=
  {| Document.PipelineStages.alignment := None;
     Document.PipelineStages.object_diff :=
       option_map
         (fun s => {| Document.ObjectDiffStage.stage := s;
                      Document.ObjectDiffStage.artifacts := None |})
         (BackendPipelineStages.object_diff stages);
     Document.PipelineStages.mask_rcnn :=
       option_map
         (fun s => {| Document.MaskStage.stage := s;
                      Document.MaskStage.artifacts := None |})
         (BackendPipelineStages.mask_rcnn stages);
     Document.PipelineStages.pcb_cd :=
       option_map
         (fun s => {| Document.PcbStage.stage := s;
                      Document.PcbStage.artifacts := None |})
         (BackendPipelineStages.pcb_cd stages);
     Document.PipelineStages.changeformer_cd :=
       option_map
         (fun s => {| Document.ChangeformerStage.stage := s;
                      Document.ChangeformerStage.artifacts := None |})
         (BackendPipelineStages.changeformer_cd stages) |}.

Definition bareEntry (entry : BackendTimelineEntry.t) : Document.TimelineEntry.t :=
  {| Document.TimelineEntry.beforeIndex := BackendTimelineEntry.beforeIndex entry;
     Document.TimelineEntry.afterIndex := BackendTimelineEntry.afterIndex entry;
     Document.TimelineEntry.beforePath := BackendTimelineEntry.beforePath entry;
     Document.TimelineEntry.afterPath := BackendTimelineEntry.afterPath entry;
     Document.TimelineEntry.comparisonRoot := BackendTimelineEntry.comparisonRoot entry;
     Document.TimelineEntry.pipeline :=
       option_map bareStages (BackendTimelineEntry.pipeline entry) |}.

Definition bareJob (job : BackendJobResponse.t) : Document.JobResponse.t :=
  {| Document.JobResponse.jobId := BackendJobResponse.jobId job;
     Document.JobResponse.status := BackendJobResponse.status job;
     Document.JobResponse.comparisonMode := BackendJobResponse.comparisonMode job;
     Document.JobResponse.baselineIndex := BackendJobResponse.baselineIndex job;
     Document.JobResponse.frames := BackendJobResponse.frames job;
     Document.JobResponse.timeline :=
       option_map (map bareEntry) (BackendJobResponse.timeline job);
     Document.JobResponse.error := BackendJobResponse.error job;
     Document.JobResponse.pipeline :=
       option_map bareStages (BackendJobResponse.pipeline job) |}.

End ViewerVocabulary.

Section ViewerExamples.
Import Types BackendClient.

(** Three frames compared consecutively: a changed component in the first
    frame pair and a confident mask detection in the second. *)
Definition threeFrames : Document.JobResponse.t :=
  bareJob
    (completedJob consecutive
       [framePair 0 1 (objectDiffStages [componentOf true]);
        framePair 1 2 (maskStages [detectionOf 0.9])]
       None).

Definition threeImages : list ImageFile :=
  [frameOf "a.png"; frameOf "b.png"; frameOf "c.png"].


End ViewerExamples.

Section SummaryVocabulary.
Import Types BackendClient.

(** The mask stage of the frame pair comes with the path of an overlay. *)
Definition maskOverlayGiven (e : Document.TimelineEntry.t) : bool :=
  BackendTimeline.givenPath
    (opt' (opt' (opt' (Document.TimelineEntry.pipeline e)
                   Document.PipelineStages.mask_rcnn)
             Document.MaskStage.artifacts)
       BackendMaskArtifacts.overlay).

(** A job of one frame pair whose mask stage reports [detections] and the
    overlay [overlay]. *)
Definition maskDocument (detections : list BackendMaskDetection.t)
  (overlay : option string) : Document.JobResponse.t :=
  {| Document.JobResponse.jobId := "job-1";
     Document.JobResponse.status := "completed";
     Document.JobResponse.comparisonMode := Some baseline;
     Document.JobResponse.baselineIndex := Some 0%Z;
     Document.JobResponse.frames := None;
     Document.JobResponse.timeline :=
       Some
         [ {| Document.TimelineEntry.beforeIndex := 0;
              Document.TimelineEntry.afterIndex := 1;
              Document.TimelineEntry.beforePath := None;
              Document.TimelineEntry.afterPath := None;
              Document.TimelineEntry.comparisonRoot := None;
              Document.TimelineEntry.pipeline :=
                Some
                  {| Document.PipelineStages.alignment := None;
                     Document.PipelineStages.object_diff := None;
                     Document.PipelineStages.mask_rcnn :=
                       Some
                         {| Document.MaskStage.stage :=
                              {| BackendMaskStage.summary :=
                                   Some {| BackendMaskSummary.detections :=
                                             Some detections |};
                                 BackendMaskStage.imageSize := None |};
                            Document.MaskStage.artifacts :=
                              Some {| BackendMaskArtifacts.overlay := overlay;
                                      BackendMaskArtifacts.raw := None |} |};
                     Document.PipelineStages.pcb_cd := None;
                     Document.PipelineStages.changeformer_cd := None |} |} ];
     Document.JobResponse.error := None;
     Document.JobResponse.pipeline := None |}.

End SummaryVocabulary.

Section SortVocabulary.

(** The comparator orders the strings consistently: of two strings one
    does not follow the other, and not following is transitive. *)
Definition consistent (compare : string -> string -> Z) : Prop :=
  (forall a b, (compare a b <= 0)%Z \/ (compare b a <= 0)%Z)
  /\ (forall a b c,
         (compare a b <= 0)%Z -> (compare b c <= 0)%Z -> (compare a c <= 0)%Z).

(** The paths of the entries that are given, in the order of the entries. *)
Definition givenPaths (entries : list (string * option string)) : list string :=
  BackendTimeline.strings (filter BackendTimeline.givenPath (map snd entries)).

End SortVocabulary.

Section TableVocabulary.
Import Types.

(** A row of the component table agrees with a change of the ledger. *)
Definition tableAgrees (diff : TimelineComponentDiff.t) (change : DetectedChange)
  : Prop :=
  (TimelineComponentDiff.changed diff = Some true /\ impact change = High
   \/ TimelineComponentDiff.changed diff = Some false /\ impact change = Low)
  /\ (TimelineComponentDiff.component diff = description change
      \/ TimelineComponentDiff.component diff = "component"%string).

(** The component table of a frame pair of the timeline summary:
    [comparison.objectDiffArtifacts?.componentDiffs]. *)
Definition componentTable (comparison : TimelineComparisonMetadata.t)
  : option (list TimelineComponentDiff.t) :=
  BackendClient.opt' (TimelineComparisonMetadata.objectDiffArtifacts comparison)
    TimelineObjectDiffArtifacts.componentDiffs.

(** The artifact bundle of the object diff stage of a frame pair:
    [entry.pipeline?.object_diff?.artifacts]. *)
Definition objectDiffBundle (e : Document.TimelineEntry.t)
  : option BackendObjectDiffArtifacts.t :=
  BackendClient.opt'
    (BackendClient.opt' (Document.TimelineEntry.pipeline e)
       Document.PipelineStages.object_diff)
    Document.ObjectDiffStage.artifacts.

(** The pairs of components the object diff stage of a frame pair reports,
    as the change builders read them. *)
Definition componentPairs (e : Document.TimelineEntry.t) : list BackendYoloPair.t :=
  match Document.TimelineEntry.pipeline e with
  | Some p => BackendClient.yoloPairsOf (Document.PipelineStages.stages p)
  | None => []
  end.

(** Three frame pairs: components reported with an artifact bundle, an
    artifact bundle without components, and components without an artifact
    bundle. *)
Definition tabledEntry (beforeIndex afterIndex : Z)
  (pairs : list BackendYoloPair.t) (artifacts : option BackendObjectDiffArtifacts.t)
  : Document.TimelineEntry.t :=
  {| Document.TimelineEntry.beforeIndex := beforeIndex;
     Document.TimelineEntry.afterIndex := afterIndex;
     Document.TimelineEntry.beforePath := None;
     Document.TimelineEntry.afterPath := None;
     Document.TimelineEntry.comparisonRoot := None;
     Document.TimelineEntry.pipeline :=
       Some
         {| Document.PipelineStages.alignment := None;
            Document.PipelineStages.object_diff :=
              Some
                {| Document.ObjectDiffStage.stage :=
                     {| BackendObjectDiffStage.summary := None;
                        BackendObjectDiffStage.report :=
                          Some {| BackendObjectDiffReport.paired := Some pairs |};
                        BackendObjectDiffStage.imageSize := None |};
                   Document.ObjectDiffStage.artifacts := artifacts |};
            Document.PipelineStages.mask_rcnn := None;
            Document.PipelineStages.pcb_cd := None;
            Document.PipelineStages.changeformer_cd := None |} |}.

Definition overlayBundle : BackendObjectDiffArtifacts.t :=
  {| BackendObjectDiffArtifacts.overlay := Some "overlay.png"%string;
     BackendObjectDiffArtifacts.paired_roi_dir := None;
     BackendObjectDiffArtifacts.roboflow_visualizations := None |}.

Definition tabledFrames : Document.JobResponse.t :=
  {| Document.JobResponse.jobId := "job-7";
     Document.JobResponse.status := "completed";
     Document.JobResponse.comparisonMode := Some consecutive;
     Document.JobResponse.baselineIndex := Some 0%Z;
     Document.JobResponse.frames := None;
     Document.JobResponse.timeline :=
       Some [tabledEntry 0 1 [componentOf true] (Some overlayBundle);
             tabledEntry 1 2 [] (Some overlayBundle);
             tabledEntry 2 3 [componentOf true] None];
     Document.JobResponse.error := None;
     Document.JobResponse.pipeline := None |}.

End TableVocabulary.

Section BadgeVocabulary.
Import Types.

(** The detector a change comes from, as its type and its interpretation
    tell, and the badge naming it. *)
Definition detectorOf (c : DetectedChange) : string :=
  match changeType c with
  | Structural => "RF-DETR-Seg"
  | Spatial => "ChangeFormer"
  | Surface =>
      if JS.startsWith (interpretation c) "Mask R-CNN" then "Mask R-CNN"
      else "RF-DETR-Seg"
  end.

Definition badged (host : Host.t) (c : DetectedChange) : Prop :=
  Icons.getChangeSourceLabel host (id c) = detectorOf c.

End BadgeVocabulary.

Section IntegrityVocabulary.

(** The comparisons of a result: [analysis.timeline?.comparisons || []]. *)
Definition comparisonsOf (analysis : Analysis.t) : list TimelineComparisonMetadata.t :=
  match Analysis.timeline analysis with
  | Some timeline => TimelineSummary.comparisons timeline
  | None => []
  end.

End IntegrityVocabulary.

Section RequestVocabulary.
Import Types BackendClient.

(** The request that uploads the frames: a POST to the jobs route of the
    orchestrator with one part for each frame, in order, then the domain,
    the comparison mode and a baseline index of 0. *)
Definition uploadRequest (env : Env.t) (imageFiles : list ImageFile)
  (domain : DomainMode) (comparisonMode : ComparisonMode) : Http.Request :=
  {| Http.url := (API_BASE env ++ "/api/jobs")%string;
     Http.method := "POST";
     Http.body :=
       (map (fun image =>
               ("frames"%string, Http.Blob (file image) (Http.name (file image))))
          imageFiles
        ++ [("domain"%string, Http.Text (DomainMode_text domain));
            ("comparisonMode"%string, Http.Text (ComparisonMode_text comparisonMode));
            ("baselineIndex"%string, Http.Text "0")])%list |}.

End RequestVocabulary.

(** ** The model at work *)

Section Examples.
Import Types BackendClient Artifacts.
Local Open Scope float_scope.

Example toFixed_rounds_the_binary_value :
  map (fun x => JS.toFixed x 2) [1.005; 8.345; 0.004 * 100; -0.001; 1e21]
  = ["1.00"; "8.35"; "0.40"; "-0.00"; "1e+21"]%string.
Proof. vm_compute. reflexivity. Qed.

Example toString_is_the_shortest_decimal :
  map JS.Number_toString [0.1 + 0.2; 0.4; 1e21; 0.000001; 1e-7; 123456789; -0]
  = ["0.30000000000000004"; "0.4"; "1e+21"; "0.000001"; "1e-7"; "123456789";
     "0"]%string.
Proof. vm_compute. reflexivity. Qed.

Example round_ties_go_up :
  map JS.Math_round [2.5; -2.5; 8.5; 0.49999999999999994]
  = [3; -2; 9; 0].
Proof. vm_compute. reflexivity. Qed.

Example coveragePct_of_scenario_C : coveragePct 0.004 = 0.4.
Proof. vm_compute. reflexivity. Qed.

Example aggregate_change_of_scenario_C :
  map (fun c => (description c, impact c, criticality c, estimatedCost c))
    (createChangeformerChanges (Some (driftOf 0.004)) None)
  = [("ChangeFormer coverage 0.4%"%string, Low, 4, 2000)].
Proof. vm_compute. reflexivity. Qed.

Example resolve_scenario_B :
  resolveArtifactUrl localhost (Some "stages/mask_rcnn/overlay.png"%string)
    (Some "/data/jobs/job-42/timeline/frame_02"%string)
  = Some "http://localhost:8000/api/jobs/job-42/artifacts/stages/mask_rcnn/overlay.png"%string.
Proof. vm_compute. reflexivity. Qed.

Example resolve_encodes_each_segment :
  resolveArtifactUrl localhost (Some " /data/jobs/j1/a b/c d.png "%string) None
  = Some "http://localhost:8000/api/jobs/j1/artifacts/a%20b/c%20d.png"%string.
Proof. vm_compute. reflexivity. Qed.

Example ledger_of_two_frame_pairs :
  map (fun c => (id c, description c, impact c))
    (changes
       (assembleAnalysisResult
          (completedJob consecutive
             [framePair 0 1 (objectDiffStages [componentOf false]);
              framePair 1 2 (objectDiffStages [componentOf true])] None) F1))
  = [("RF-DETR-Seg-f1-0", "front_wing · Frame 2 vs Frame 1", Low);
     ("RF-DETR-Seg-f2-0", "front_wing · Frame 3 vs Frame 2", High)]%string.
Proof. vm_compute. reflexivity. Qed.

End Examples.

(** ** Facts about numbers *)

Section NumberFacts.

Lemma SFcompare_antisym (x y : spec_float) :
  SFcompare y x = option_map CompOpp (SFcompare x y).
Proof.
  destruct x as [sx | sx | | sx mx ex], y as [sy | sy | | sy my ey];
    simpl; try reflexivity;
    try (destruct sx; reflexivity); try (destruct sy; reflexivity);
    try (destruct sx, sy; reflexivity).
  destruct sx, sy; simpl; try reflexivity;
    rewrite (Z.compare_antisym ey ex), (ZC4 my mx);
    destruct (ey ?= ex)%Z; simpl; try reflexivity.
Qed.

(** [x < y] rules out [y <= x]. *)
Lemma ltb_not_leb (x y : float) :
  PrimFloat.ltb x y = true -> PrimFloat.leb y x = false.
Proof.
  rewrite ltb_spec, leb_spec. unfold SFltb, SFleb.
  rewrite (SFcompare_antisym (Prim2SF x) (Prim2SF y)).
  destruct (SFcompare (Prim2SF x) (Prim2SF y)) as [[ | | ] | ];
    simpl; congruence.
Qed.

End NumberFacts.

Section DivisionFacts.

Lemma is_nan_spec (x : float) :
  is_nan x = match Prim2SF x with S754_nan => true | _ => false end.
Proof.
  unfold is_nan. rewrite eqb_spec. unfold SFeqb.
  destruct (Prim2SF x) as [s | s | | s m e]; simpl; try reflexivity.
  - destruct s; reflexivity.
  - destruct s; rewrite Z.compare_refl, Pos.compare_cont_refl; reflexivity.
Qed.

Lemma truthy_spec (x : float) :
  JS.truthy x = true ->
  match Prim2SF x with
  | S754_infinity _ | S754_finite _ _ _ => True
  | _ => False
  end.
Proof.
  unfold JS.truthy. rewrite is_nan_spec, eqb_spec.
  change (Prim2SF 0) with (S754_zero false).
  destruct (Prim2SF x) as [s | s | | s m e]; simpl; try discriminate; auto.
Qed.

Lemma finite_spec (x : float) :
  is_finite x = true ->
  match Prim2SF x with
  | S754_zero _ | S754_finite _ _ _ => True
  | _ => False
  end.
Proof.
  unfold is_finite, is_infinity.
  rewrite is_nan_spec, eqb_spec, abs_spec.
  change (Prim2SF infinity) with (S754_infinity false).
  destruct (Prim2SF x) as [s | s | | s m e]; simpl; try discriminate; auto.
Qed.

(** Shifting a non-negative mantissa right keeps it non-negative. *)
Lemma shr_1_nonneg r : nonneg r -> nonneg (shr_1 r).
Proof.
  destruct r as [m rb sb]. unfold nonneg. simpl.
  destruct m as [ | [p | p | ] | p]; simpl; lia.
Qed.

Lemma iter_pos_nonneg p : forall r, nonneg r -> nonneg (iter_pos shr_1 p r).
Proof.
  induction p; intros r H; simpl; auto using shr_1_nonneg.
Qed.

Lemma shr_fexp_nonneg prec emax m e l :
  (0 <= m)%Z -> nonneg (fst (shr_fexp prec emax m e l)).
Proof.
  intros H. unfold shr_fexp, shr.
  assert (H0 : nonneg (shr_record_of_loc m l))
    by (destruct l as [ | [ | | ]]; exact H).
  destruct (fexp prec emax (Zdigits2 m + e) - e)%Z; simpl; auto.
  apply iter_pos_nonneg; exact H0.
Qed.

Lemma round_nearest_even_nonneg m l :
  (0 <= m)%Z -> (0 <= round_nearest_even m l)%Z.
Proof.
  intros H. destruct l as [ | [ | | ]]; simpl; try lia.
  destruct (Z.even m); lia.
Qed.

Lemma binary_round_aux_not_nan prec emax s m e l :
  (0 <= m)%Z -> binary_round_aux prec emax s m e l <> S754_nan.
Proof.
  intros H. unfold binary_round_aux.
  pose proof (shr_fexp_nonneg prec emax m e l H) as H1.
  destruct (shr_fexp prec emax m e l) as [r1 e1]. simpl in H1.
  pose proof (shr_fexp_nonneg prec emax
                (round_nearest_even (shr_m r1) (loc_of_shr_record r1)) e1
                loc_Exact (round_nearest_even_nonneg _ _ H1)) as H2.
  destruct (shr_fexp prec emax _ e1 loc_Exact) as [r2 e2]. simpl in H2.
  unfold nonneg in H2.
  destruct (shr_m r2); try discriminate; try lia.
  destruct (e2 <=? emax - prec)%Z; discriminate.
Qed.

Lemma SFdiv_core_nonneg prec emax m1 e1 m2 e2 :
  (0 <= fst (fst (SFdiv_core_binary prec emax (Zpos m1) e1 (Zpos m2) e2)))%Z.
Proof.
  unfold SFdiv_core_binary.
  set (s := (e1 - e2 - _)%Z).
  set (m' := match s with Zpos _ => Z.shiftl (Zpos m1) s | Z0 => Zpos m1 | Zneg _ => 0%Z end).
  assert (Hm : (0 <= m')%Z).
  { subst m'. destruct s; try lia. apply Z.shiftl_nonneg. lia. }
  pose proof (Z_div_mod m' (Zpos m2) eq_refl) as H.
  destruct (Z.div_eucl m' (Zpos m2)) as [q r]. simpl.
  destruct H as [H1 H2]. nia.
Qed.

(** A finite number divided by a number other than zero and [NaN] is a
    number, not [NaN]. *)
Lemma div_not_nan (a w : float) :
  is_finite a = true -> JS.truthy w = true -> is_nan (a / w) = false.
Proof.
  intros Ha Hw. apply finite_spec in Ha. apply truthy_spec in Hw.
  rewrite is_nan_spec, div_spec. unfold SF64div, SFdiv.
  destruct (Prim2SF a) as [sa | sa | | sa ma ea]; try contradiction;
    destruct (Prim2SF w) as [sw | sw | | sw mw ew]; try contradiction;
    try reflexivity.
  pose proof (SFdiv_core_nonneg prec emax ma ea mw ew) as H.
  destruct (SFdiv_core_binary prec emax (Zpos ma) ea (Zpos mw) ew) as [[mz ez] lz].
  simpl in H.
  pose proof (binary_round_aux_not_nan prec emax (xorb sa sw) mz ez lz H) as N.
  destruct (binary_round_aux prec emax (xorb sa sw) mz ez lz); congruence.
Qed.

End DivisionFacts.

(** ** The coordinate normaliser *)

Section NormalizeBox.
Import Types BackendClient.
Local Open Scope float_scope.

Lemma num_or_truthy (dim : option float) : JS.truthy (JS.num_or dim 1) = true.
Proof.
  unfold JS.num_or. destruct dim as [v | ]; [ | reflexivity].
  destruct (JS.truthy v) eqn:E; [exact E | reflexivity].
Qed.

Lemma num_or_zero (v : float) :
  PrimFloat.eqb v 0 = true -> JS.num_or (Some v) 1 = 1.
Proof.
  intros H. unfold JS.num_or, JS.truthy. rewrite H. reflexivity.
Qed.

Lemma num_or_given (v : float) :
  JS.truthy v = true -> JS.num_or (Some v) 1 = v.
Proof.
  intros H. unfold JS.num_or. rewrite H. reflexivity.
Qed.

(** C8 (as amended): for an image size whose width and height are numbers
    other than zero and NaN, normalising a box in the xyxy format divides
    the x coordinates by the width and the y coordinates by the height, and
    in the yxyx format the two axes are swapped first; the quotients are
    returned as they are, neither clamped nor reordered. *)
Theorem C8_normalizeBox_scales (a b c d w h : float) :
  JS.truthy w = true ->
  JS.truthy h = true ->
  normalizeBox (Some (a, b, c, d))
    (Some {| BackendImageSize.width := w; BackendImageSize.height := h |}) xyxy
  = (a / w, b / h, c / w, d / h)
  /\ normalizeBox (Some (a, b, c, d))
       (Some {| BackendImageSize.width := w; BackendImageSize.height := h |}) yxyx
     = (b / w, a / h, d / w, c / h)
  /\ normalizeBox (Some (a, b, c, d))
       (Some {| BackendImageSize.width := w; BackendImageSize.height := h |}) yxyx
     = normalizeBox (Some (b, a, d, c))
         (Some {| BackendImageSize.width := w; BackendImageSize.height := h |}) xyxy.
Proof.
  intros Hw Hh. unfold normalizeBox.
    cbn [option_map BackendImageSize.width BackendImageSize.height].
  rewrite (num_or_given w Hw), (num_or_given h Hh). repeat split.
Qed.

(** A box that leaves the unit square with its corners out of order comes
    back unclamped and unordered. *)
Lemma C8_normalizeBox_scales_witness :
  normalizeBox (Some (200, 10, 100, 5))
    (Some {| BackendImageSize.width := 100; BackendImageSize.height := 10 |}) xyxy
  = (2, 1, 1, 0.5).
Proof.
  etransitivity;
    [ exact (proj1 (C8_normalizeBox_scales 200 10 100 5 100 10 eq_refl eq_refl))
    | reflexivity ].
Defined.

(** C8 as stated fails for an image of width or height zero: the
    coordinates are divided by 1, not by 0. *)
Lemma C8_zero_size_counterexample :
  normalizeBox (Some (2, 4, 6, 8))
    (Some {| BackendImageSize.width := 0; BackendImageSize.height := 0 |}) xyxy
  <> (2 / 0, 4 / 0, 6 / 0, 8 / 0).
Proof.
  intros H.
  apply (f_equal (fun t : Box => PrimFloat.eqb (fst (fst (fst t))) 2)) in H.
  vm_compute in H. discriminate H.
Qed.

(** C10: the normaliser is total and never divides by zero.  Without a box
    the result is [0, 0, 0, 0]; a missing image size, and a width or height
    of zero, count as 1; the divisor is always a number other than zero and
    NaN, so finite coordinates give numbers, never NaN. *)
Theorem C10_normalizeBox_total :
  (forall size format, normalizeBox None size format = (0, 0, 0, 0))
  /\ (forall box format,
        normalizeBox (Some box) None format
        = normalizeBox (Some box)
            (Some {| BackendImageSize.width := 1; BackendImageSize.height := 1 |})
            format)
  /\ (forall box w h format,
        PrimFloat.eqb w 0 = true ->
        normalizeBox (Some box)
          (Some {| BackendImageSize.width := w; BackendImageSize.height := h |})
          format
        = normalizeBox (Some box)
            (Some {| BackendImageSize.width := 1; BackendImageSize.height := h |})
            format)
  /\ (forall box w h format,
        PrimFloat.eqb h 0 = true ->
        normalizeBox (Some box)
          (Some {| BackendImageSize.width := w; BackendImageSize.height := h |})
          format
        = normalizeBox (Some box)
            (Some {| BackendImageSize.width := w; BackendImageSize.height := 1 |})
            format)
  /\ (forall size,
        JS.truthy (JS.num_or (option_map BackendImageSize.width size) 1) = true
        /\ JS.truthy (JS.num_or (option_map BackendImageSize.height size) 1) = true)
  /\ (forall a b c d size format,
        is_finite a = true -> is_finite b = true ->
        is_finite c = true -> is_finite d = true ->
        let '(x0, y0, x1, y1) := normalizeBox (Some (a, b, c, d)) size format in
        is_nan x0 = false /\ is_nan y0 = false
        /\ is_nan x1 = false /\ is_nan y1 = false).
Proof.
  split; [ | split; [ | split; [ | split; [ | split]]]].
  - intros size format. reflexivity.
  - intros [[[a b] c] d] format. reflexivity.
  - intros [[[a b] c] d] w h format Hw. unfold normalizeBox.
    cbn [option_map BackendImageSize.width BackendImageSize.height].
    rewrite (num_or_zero w Hw). reflexivity.
  - intros [[[a b] c] d] w h format Hh. unfold normalizeBox.
    cbn [option_map BackendImageSize.width BackendImageSize.height].
    rewrite (num_or_zero h Hh). reflexivity.
  - intros size. split; apply num_or_truthy.
  - intros a b c d size format Ha Hb Hc Hd. unfold normalizeBox.
    pose proof (num_or_truthy (option_map BackendImageSize.width size)) as Hw.
    pose proof (num_or_truthy (option_map BackendImageSize.height size)) as Hh.
    destruct format; repeat split; apply div_not_nan; assumption.
Qed.

Lemma C10_normalizeBox_total_witness :
  normalizeBox (Some (10, 20, 30, 40))
    (Some {| BackendImageSize.width := 0; BackendImageSize.height := 50 |}) xyxy
  = (10, 0.4, 30, 0.8)
  /\ is_nan (fst (fst (fst
       (normalizeBox (Some (10, 20, 30, 40))
          (Some {| BackendImageSize.width := 0; BackendImageSize.height := 50 |})
          xyxy)))) = false.
Proof.
  split.
  - etransitivity;
      [ exact (proj1 (proj2 (proj2 C10_normalizeBox_total))
                 (10, 20, 30, 40) 0 50 xyxy eq_refl)
      | reflexivity ].
  - pose proof (proj2 (proj2 (proj2 (proj2 (proj2 C10_normalizeBox_total))))
                  10 20 30 40
                  (Some {| BackendImageSize.width := 0;
                           BackendImageSize.height := 50 |})
                  xyxy eq_refl eq_refl eq_refl eq_refl) as H.
    destruct (normalizeBox _ _ _) as [[[x0 y0] x1] y1]. exact (proj1 H).
Defined.

End NormalizeBox.

(** ** Lists built with an index *)

Section Mapi.
Import BackendClient.
Context {A B : Type}.
Variable f : A -> nat -> B.

Lemma mapi_from_length (l : list A) :
  forall k, List.length (mapi_from f k l) = List.length l.
Proof.
  induction l as [ | x l IH]; intros k; simpl; [reflexivity | now rewrite IH].
Qed.

Lemma mapi_from_app (l1 l2 : list A) :
  forall k,
    mapi_from f k (l1 ++ l2)
    = (mapi_from f k l1 ++ mapi_from f (k + List.length l1) l2)%list.
Proof.
  induction l1 as [ | x l1 IH]; intros k; simpl.
  - now rewrite Nat.add_0_r.
  - rewrite IH. now rewrite Nat.add_succ_r.
Qed.

Lemma mapi_from_Forall2 (P : A -> B -> Prop) (l : list A) :
  (forall x i, In x l -> P x (f x i)) ->
  forall k, Forall2 P l (mapi_from f k l).
Proof.
  induction l as [ | x l IH]; intros H k; simpl; constructor.
  - apply H. now left.
  - apply IH. intros y i Hy. apply H. now right.
Qed.

Lemma mapi_from_map {C : Type} (g : B -> C) (l : list A) :
  forall k, map g (mapi_from f k l) = mapi_from (fun x i => g (f x i)) k l.
Proof.
  induction l as [ | x l IH]; intros k; simpl; [reflexivity | now rewrite IH].
Qed.

Lemma mapi_from_In (l : list A) :
  forall k y, In y (mapi_from f k l) ->
    exists x i, In x l /\ (k <= i < k + List.length l)%nat /\ y = f x i.
Proof.
  induction l as [ | x l IH]; intros k y H; simpl in H; [contradiction | ].
  destruct H as [H | H].
  - exists x, k. simpl. repeat split; auto; lia.
  - destruct (IH _ _ H) as (x' & i & Hx & Hi & Hy).
    exists x', i. simpl. repeat split; auto; lia.
Qed.

End Mapi.


Section MapiMore.
Import BackendClient.

Lemma mapi_from_Forall {A B : Type} (f : A -> nat -> B) (P : B -> Prop)
  (l : list A) :
  (forall x i, In x l -> P (f x i)) -> forall k, Forall P (mapi_from f k l).
Proof.
  induction l as [ | x l IH]; intros H k; simpl; constructor.
  - apply H. now left.
  - apply IH. intros y i Hy. apply H. now right.
Qed.

Lemma mapi_from_mapi_from {A B C : Type} (f : A -> nat -> B) (g : B -> nat -> C)
  (l : list A) :
  forall k, mapi_from g k (mapi_from f k l) = mapi_from (fun x i => g (f x i) i) k l.
Proof.
  induction l as [ | x l IH]; intros k; simpl; [reflexivity | now rewrite IH].
Qed.

End MapiMore.

(** ** Facts about strings *)

Section StringFacts.

Lemma append_assoc (a b c : string) : (a ++ (b ++ c) = (a ++ b) ++ c)%string.
Proof.
  induction a as [ | x a IH]; simpl; [reflexivity | now rewrite IH].
Qed.

Lemma prefix_refl (s : string) : String.prefix s s = true.
Proof.
  induction s as [ | c s IH]; simpl; [reflexivity | ].
  destruct (ascii_dec c c); [exact IH | congruence].
Qed.

Lemma includes_self (s : string) : JS.includes s s = true.
Proof.
  destruct s; simpl; [reflexivity | ].
  destruct (ascii_dec a a); [ | congruence].
  now rewrite prefix_refl.
Qed.

(** A string includes each of its suffixes. *)
Lemma includes_suffix (a b : string) : JS.includes (a ++ b) b = true.
Proof.
  induction a as [ | c a IH].
  - apply includes_self.
  - cbn [append JS.includes]. rewrite IH. apply orb_true_r.
Qed.

End StringFacts.

(** ** The mask builder *)

Section MaskBuilder.
Import Types BackendClient.
Local Open Scope float_scope.

Lemma mask_filter_eq (det : BackendMaskDetection.t) :
  PrimFloat.leb MASK_CONFIDENCE_THRESHOLD
    (JS.nullish (BackendMaskDetection.score det) 0)
  = scoreAtOrAbove det.
Proof.
  unfold scoreAtOrAbove. destruct (BackendMaskDetection.score det); reflexivity.
Qed.

Lemma scoreBelow_not_kept (det : BackendMaskDetection.t) :
  scoreBelow det -> scoreAtOrAbove det = false.
Proof.
  intros (s & Hs & Hlt). unfold scoreAtOrAbove. rewrite Hs.
  now apply ltb_not_leb.
Qed.

(** C2 (as amended): a detection whose score is below 0.85 is dropped, the
    changes being the ones built without it; the changes are, in order, one
    for each detection whose score is at or above 0.85, with impact Medium,
    the score as confidence and criticality min(10, round(score*10)); a
    single detection of score 0.5 gives no change, one of score 0.9 gives
    one. *)
Theorem C2_mask_threshold :
  (forall before det after size,
      scoreBelow det ->
      createMaskChanges (before ++ det :: after) size
      = createMaskChanges (before ++ after) size)
  /\ (forall detections size,
        Forall2
          (fun det change =>
             impact change = Medium
             /\ forall s, BackendMaskDetection.score det = Some s ->
                  PrimFloat.leb 0.85 s = true
                  /\ confidence change = s
                  /\ criticality change = JS.Math_min 10 (JS.Math_round (s * 10)))
          (filter scoreAtOrAbove detections)
          (createMaskChanges detections size))
  /\ createMaskChanges [detectionOf 0.5] None = []
  /\ List.length (createMaskChanges [detectionOf 0.9] None) = 1%nat.
Proof.
  split; [ | split; [ | split]].
  - intros before det after size Hb. unfold createMaskChanges.
    rewrite !filter_app. simpl.
    rewrite mask_filter_eq, (scoreBelow_not_kept det Hb). reflexivity.
  - intros detections size. unfold createMaskChanges, mapi.
    rewrite (filter_ext _ _ mask_filter_eq).
    apply mapi_from_Forall2. intros det i Hin. simpl. split; [reflexivity | ].
    intros s Hs. apply filter_In in Hin. destruct Hin as [_ Hk].
    unfold scoreAtOrAbove in Hk. rewrite Hs in Hk. rewrite Hs. simpl. auto.
  - vm_compute. reflexivity.
  - vm_compute. reflexivity.
Qed.

Lemma C2_mask_threshold_witness :
  createMaskChanges [detectionOf 0.9; detectionOf 0.5; detectionOf 0.95] None
  = createMaskChanges [detectionOf 0.9; detectionOf 0.95] None.
Proof.
  apply (proj1 C2_mask_threshold [detectionOf 0.9] (detectionOf 0.5) [detectionOf 0.95]).
  exists 0.5. split; reflexivity.
Defined.

(** C2 as stated fails on the criticality: it is capped at 10, so a
    detection of score 2 gets 10 where round(score*10) is 20. *)
Lemma C2_criticality_counterexample :
  map criticality (createMaskChanges [detectionOf 2] None) = [10]
  /\ JS.Math_round (2 * 10) = 20.
Proof. split; vm_compute; reflexivity. Qed.

End MaskBuilder.

(** ** The defect-region builder *)

Section PcbBuilder.
Import Types BackendClient.
Local Open Scope float_scope.

Lemma alwaysHigh_critical (p : string -> bool) :
  existsb p alwaysHighDefects = true -> existsb p criticalDefects = true.
Proof.
  unfold alwaysHighDefects, criticalDefects. cbn [existsb].
  destruct (p "missing_hole"%string), (p "mouse_bite"%string); auto.
Qed.

(** C5 (as amended): the impact of a defect region is High when its label
    mentions a token of the always-high list, whatever the area; when it
    mentions another critical token it is High for areaRatio > 0.02 and
    Medium otherwise; with no critical token it is High for
    areaRatio > 0.02, Medium for areaRatio > 0.008 and Low otherwise. *)
Theorem C5_pcb_impact :
  (forall regions size,
      Forall2
        (fun region change =>
           (mentions alwaysHighDefects region = true -> impact change = High)
           /\ (mentions criticalDefects region = true ->
               mentions alwaysHighDefects region = false ->
               impact change
               = if gt (areaOf region) 0.02 then High else Medium)
           /\ (mentions criticalDefects region = false ->
               impact change = areaTier (areaOf region)))
        regions (createPcbChanges regions size))
  /\ map impact
       (createPcbChanges
          [regionOf None None 0.03; regionOf None None 0.01; regionOf None None 0.001]
          None)
     = [High; Medium; Low].
Proof.
  split; [ | vm_compute; reflexivity].
  intros regions size. unfold createPcbChanges, mapi.
  apply mapi_from_Forall2. intros r i _. cbn [impact].
  fold (labelOf r). fold (areaOf r).
  fold (mentions criticalDefects r). fold (mentions alwaysHighDefects r).
  repeat split.
  - intros H. rewrite H.
    unfold mentions in *. rewrite (alwaysHigh_critical _ H). reflexivity.
  - intros H1 H2. rewrite H1, H2. reflexivity.
  - intros H. rewrite H. reflexivity.
Qed.

Lemma C5_pcb_impact_witness :
  map impact
    (createPcbChanges [regionOf None (Some "Short between pads"%string) 0.001] None)
  = [High].
Proof.
  pose proof (proj1 C5_pcb_impact
                [regionOf None (Some "Short between pads"%string) 0.001] None) as H.
  remember (createPcbChanges _ None) as cs eqn:E. clear E.
  inversion H as [ | r c rs cs' (H1 & _) T E1 E2]; subst.
  inversion T; subst. cbn [map]. rewrite (H1 eq_refl). reflexivity.
Defined.

(** C5 as stated fails for the secondary tokens: a mouse bite that covers 3%
    of the board is High, not Medium. *)
Lemma C5_secondary_token_counterexample :
  map impact (createPcbChanges [regionOf None (Some "mouse_bite"%string) 0.03] None)
  = [High].
Proof. vm_compute. reflexivity. Qed.

End PcbBuilder.

(** ** The structural-drift builder *)

Section DriftBuilder.
Import Types BackendClient.
Local Open Scope float_scope.

(** C6 (as amended): for a summary without regions, a coverage above zero
    gives exactly one change, the aggregate one, over the whole frame, whose
    impact is High, Medium or Low as the coverage percentage rounded to two
    decimals exceeds 3, exceeds 1, or neither; a coverage of zero or less
    gives no change. *)
Theorem C6_drift_aggregate (summary : BackendChangeformerSummary.t)
  (size : option BackendImageSize.t) :
  JS.nullish (BackendChangeformerSummary.regions summary) [] = [] ->
  (PrimFloat.ltb 0 (JS.nullish (BackendChangeformerSummary.coverage summary) 0)
   = true ->
   exists change,
     createChangeformerChanges (Some summary) size = [change]
     /\ id change = "changeformer-aggregate"%string
     /\ box change = (0, 0, 1, 1)
     /\ impact change
        = coverageTier
            (coveragePct
               (JS.nullish (BackendChangeformerSummary.coverage summary) 0)))
  /\ (PrimFloat.leb (JS.nullish (BackendChangeformerSummary.coverage summary) 0) 0
      = true ->
      createChangeformerChanges (Some summary) size = []).
Proof.
  intros Hr. unfold createChangeformerChanges. rewrite Hr. split.
  - intros Hpos. rewrite (ltb_not_leb _ _ Hpos).
    eexists. split; [reflexivity | ]. repeat split.
  - intros Hle. rewrite Hle. reflexivity.
Qed.

Lemma C6_drift_aggregate_witness :
  exists change,
    createChangeformerChanges (Some (driftOf 0.004)) None = [change]
    /\ id change = "changeformer-aggregate"%string
    /\ box change = (0, 0, 1, 1)
    /\ impact change = Low.
Proof.
  destruct (proj1 (C6_drift_aggregate (driftOf 0.004) None eq_refl) eq_refl)
    as (change & H1 & H2 & H3 & H4).
  exists change. repeat split; assumption.
Defined.

(** C6 as stated fails between 3% and 3.005%: a coverage of 3.0004% exceeds
    3, and the change is Medium, because the percentage is first rounded to
    3.00. *)
Lemma C6_rounded_percentage_counterexample :
  gt (0.030004 * 100) 3 = true
  /\ map impact (createChangeformerChanges (Some (driftOf 0.030004)) None) = [Medium].
Proof. split; vm_compute; reflexivity. Qed.

End DriftBuilder.

(** ** The object-diff builder and the timeline labels *)

Section ObjectDiff.
Import Types BackendClient.
Local Open Scope float_scope.

Lemma createYoloChanges_severity pairs size :
  Forall2 severityOf pairs (createYoloChanges pairs size).
Proof.
  unfold createYoloChanges, mapi. apply mapi_from_Forall2.
  intros pair i _. unfold severityOf. cbn.
  destruct (JS.nullish (BackendYoloPair.changed pair) false); repeat split.
Qed.

Lemma labelTimelineChanges_length base afterIndex beforeIndex mode prefix :
  List.length (labelTimelineChanges base afterIndex beforeIndex mode prefix)
  = List.length base.
Proof. unfold labelTimelineChanges, mapi. apply mapi_from_length. Qed.

Lemma labelTimelineChanges_nil afterIndex beforeIndex mode prefix :
  labelTimelineChanges [] afterIndex beforeIndex mode prefix = [].
Proof. reflexivity. Qed.

(** The changes of a frame pair on which only the object diff ran. *)
Lemma timelineEntryChanges_objectDiffOnly mode entry stages pairs :
  BackendTimelineEntry.pipeline entry = Some stages ->
  objectDiffOnly stages pairs ->
  timelineEntryChanges mode entry
  = labelTimelineChanges
      (createYoloChanges pairs
         (opt' (BackendPipelineStages.object_diff stages)
            BackendObjectDiffStage.imageSize))
      (BackendTimelineEntry.afterIndex entry)
      (BackendTimelineEntry.beforeIndex entry) mode "RF-DETR-Seg".
Proof.
  intros Hp (Hy & Hm & Hr & Hc). unfold timelineEntryChanges.
  rewrite Hp, Hy, Hm, Hr, Hc. cbn [createChangeformerChanges].
  unfold createPcbChanges, createMaskChanges. cbn [filter mapi mapi_from].
  rewrite !labelTimelineChanges_nil. cbn [app]. now rewrite app_nil_r.
Qed.

(** Labelling keeps the severity of a change. *)
Lemma labelled_severity pairs size afterIndex beforeIndex mode prefix
  (P : DetectedChange -> Prop) :
  (forall pair change, In pair pairs -> severityOf pair change ->
     forall change',
       impact change' = impact change ->
       criticality change' = criticality change ->
       estimatedCost change' = estimatedCost change ->
       P change') ->
  Forall P
    (labelTimelineChanges (createYoloChanges pairs size)
       afterIndex beforeIndex mode prefix).
Proof.
  intros H. unfold labelTimelineChanges, createYoloChanges, mapi.
  rewrite mapi_from_mapi_from. apply mapi_from_Forall. intros pair i Hin.
  eapply (H pair); [exact Hin | | reflexivity | reflexivity | reflexivity].
  unfold severityOf. cbn.
  destruct (JS.nullish (BackendYoloPair.changed pair) false); repeat split.
Qed.

(** C4 (as amended): the severity of the object-diff builder is binary, a
    changed pair giving impact High, criticality 7, cost 5000 and an SSIM
    delta red flag, an unchanged pair impact Low, criticality 3 and cost 0.
    With three frames compared consecutively by the object diff alone, where
    the first frame pair reports unchanged components only and the second
    exactly one component, a changed one, the ledger holds one Low change for
    each unchanged component, followed by exactly one more change, which is
    High with criticality 7 and a description containing "Frame 3 vs
    Frame 2". *)
Theorem C4_object_diff_severity :
  (forall pairs size, Forall2 severityOf pairs (createYoloChanges pairs size))
  /\ (forall job domain first second stages1 stages2 unchanged pair,
        BackendJobResponse.timeline job = Some [first; second] ->
        BackendJobResponse.comparisonMode job = Some consecutive ->
        BackendTimelineEntry.beforeIndex first = 0%Z ->
        BackendTimelineEntry.afterIndex first = 1%Z ->
        BackendTimelineEntry.beforeIndex second = 1%Z ->
        BackendTimelineEntry.afterIndex second = 2%Z ->
        BackendTimelineEntry.pipeline first = Some stages1 ->
        BackendTimelineEntry.pipeline second = Some stages2 ->
        objectDiffOnly stages1 unchanged ->
        objectDiffOnly stages2 [pair] ->
        Forall (fun q => JS.nullish (BackendYoloPair.changed q) false = false)
          unchanged ->
        JS.nullish (BackendYoloPair.changed pair) false = true ->
        exists lows change,
          changes (assembleAnalysisResult job domain) = (lows ++ [change])%list
          /\ List.length lows = List.length unchanged
          /\ Forall (fun c => impact c = Low /\ criticality c = 3
                              /\ estimatedCost c = 0) lows
          /\ JS.includes (description change) "Frame 3 vs Frame 2" = true
          /\ impact change = High
          /\ criticality change = 7).
Proof.
  split; [exact createYoloChanges_severity | ].
  intros job domain first second stages1 stages2 unchanged pair
    Ht Hm Hb1 Ha1 Hb2 Ha2 Hp1 Hp2 Ho1 Ho2 Hu Hc.
  assert (Hcollect :
    collectTimelineChanges job
    = (labelTimelineChanges
         (createYoloChanges unchanged
            (opt' (BackendPipelineStages.object_diff stages1)
               BackendObjectDiffStage.imageSize))
         1 0 consecutive "RF-DETR-Seg"
       ++ labelTimelineChanges
            (createYoloChanges [pair]
               (opt' (BackendPipelineStages.object_diff stages2)
                  BackendObjectDiffStage.imageSize))
            2 1 consecutive "RF-DETR-Seg")%list).
  { unfold collectTimelineChanges. rewrite Ht, Hm. cbn [List.length Nat.eqb flat_map JS.nullish].
    rewrite (timelineEntryChanges_objectDiffOnly _ _ _ _ Hp1 Ho1).
    rewrite (timelineEntryChanges_objectDiffOnly _ _ _ _ Hp2 Ho2).
    rewrite Hb1, Ha1, Hb2, Ha2. now rewrite app_nil_r. }
  unfold assembleAnalysisResult. cbn [changes]. rewrite Hcollect.
  rewrite length_app, !labelTimelineChanges_length.
  unfold createYoloChanges at 2. cbn [mapi mapi_from List.length].
  replace (List.length (createYoloChanges unchanged _) + 1 =? 0)%nat with false
    by (symmetry; apply Nat.eqb_neq; lia).
  eexists. eexists. split; [reflexivity | ].
  split; [ | split; [ | split; [ | split]]].
  - rewrite labelTimelineChanges_length. unfold createYoloChanges, mapi.
    apply mapi_from_length.
  - apply labelled_severity. intros q change Hin Hs change' Hi Hcr Hco.
    rewrite Forall_forall in Hu. unfold severityOf in Hs.
    rewrite (Hu q Hin) in Hs. destruct Hs as (H1 & H2 & H3 & _).
    rewrite Hi, Hcr, Hco. auto.
  - cbn [description labelTimelineChanges mapi mapi_from].
    unfold formatComparisonLabel.
    match goal with
    | |- JS.includes (?a ++ ?b ++ ?c)%string _ = true =>
        rewrite (append_assoc a b c);
        exact (includes_suffix (a ++ b) "Frame 3 vs Frame 2")
    end.
  - cbn. rewrite Hc. reflexivity.
  - cbn. rewrite Hc. reflexivity.
Qed.

Lemma C4_object_diff_severity_witness :
  exists lows change,
    changes
      (assembleAnalysisResult
         (completedJob consecutive
            [framePair 0 1 (objectDiffStages []);
             framePair 1 2 (objectDiffStages [componentOf true])] None) F1)
    = (lows ++ [change])%list
    /\ List.length lows = 0%nat
    /\ JS.includes (description change) "Frame 3 vs Frame 2" = true
    /\ impact change = High
    /\ criticality change = 7.
Proof.
  destruct (proj2 C4_object_diff_severity
              (completedJob consecutive
                 [framePair 0 1 (objectDiffStages []);
                  framePair 1 2 (objectDiffStages [componentOf true])] None)
              F1 _ _ _ _ [] (componentOf true)
              eq_refl eq_refl eq_refl eq_refl eq_refl eq_refl eq_refl eq_refl
              (conj eq_refl (conj eq_refl (conj eq_refl eq_refl)))
              (conj eq_refl (conj eq_refl (conj eq_refl eq_refl)))
              (Forall_nil _) eq_refl)
    as (lows & change & H1 & H2 & _ & H4 & H5 & H6).
  exists lows, change. repeat split; assumption.
Defined.

(** C4 as stated fails when the unchanged frame pair reports its component:
    the unchanged component is a change too, so the ledger holds two. *)
Lemma C4_unchanged_pair_counterexample :
  map impact
    (changes
       (assembleAnalysisResult
          (completedJob consecutive
             [framePair 0 1 (objectDiffStages [componentOf false]);
              framePair 1 2 (objectDiffStages [componentOf true])] None) F1))
  = [Low; High].
Proof. vm_compute. reflexivity. Qed.

End ObjectDiff.

(** ** The fallback rule *)

Section Fallback.
Import Types BackendClient.

Lemma collectTimelineChanges_withPipeline job pipeline :
  collectTimelineChanges (withPipeline job pipeline) = collectTimelineChanges job.
Proof. reflexivity. Qed.

Lemma changes_assemble job domain :
  changes (assembleAnalysisResult job domain)
  = if (List.length (collectTimelineChanges job) =? 0)%nat
    then fallbackChanges
           (JS.nullish (BackendJobResponse.pipeline job) BackendPipelineStages.empty)
    else collectTimelineChanges job.
Proof. reflexivity. Qed.

(** C7: when the timeline yields no change, the changes of the result are
    what the four builders make of the summaries of the job-level pipeline
    [job.pipeline || {}]: the regions of its pcb_cd summary, the pairs of
    its object_diff report, or else of its summary, the detections of its
    mask_rcnn summary and its changeformer_cd summary, each with the image
    size of its stage, in this order.  When the timeline yields at least
    one change, the changes are the timeline's, and the job-level stages
    contribute nothing: any other job-level pipeline gives the same
    changes. *)
Theorem C7_fallback_rule (job : BackendJobResponse.t) (domain : DomainMode) :
  (collectTimelineChanges job = [] ->
   forall pipeline,
     JS.nullish (BackendJobResponse.pipeline job) BackendPipelineStages.empty
     = pipeline ->
     changes (assembleAnalysisResult job domain)
     = (createPcbChanges
         (JS.nullish
            (opt' (opt' (BackendPipelineStages.pcb_cd pipeline)
                     BackendPcbStage.summary)
               BackendPcbSummary.regions) [])
         (opt' (BackendPipelineStages.pcb_cd pipeline) BackendPcbStage.imageSize)
       ++ createYoloChanges
            (match opt' (opt' (BackendPipelineStages.object_diff pipeline)
                           BackendObjectDiffStage.report)
                     BackendObjectDiffReport.paired with
             | Some pairs => pairs
             | None =>
                 JS.nullish
                   (opt' (opt' (BackendPipelineStages.object_diff pipeline)
                            BackendObjectDiffStage.summary)
                      BackendObjectDiffSummary.paired) []
             end)
            (opt' (BackendPipelineStages.object_diff pipeline)
               BackendObjectDiffStage.imageSize)
       ++ createMaskChanges
            (JS.nullish
               (opt' (opt' (BackendPipelineStages.mask_rcnn pipeline)
                        BackendMaskStage.summary)
                  BackendMaskSummary.detections) [])
            (opt' (BackendPipelineStages.mask_rcnn pipeline)
               BackendMaskStage.imageSize)
       ++ createChangeformerChanges
            (opt' (BackendPipelineStages.changeformer_cd pipeline)
               BackendChangeformerStage.summary)
            (opt' (BackendPipelineStages.changeformer_cd pipeline)
               BackendChangeformerStage.imageSize))%list)
  /\ (collectTimelineChanges job <> [] ->
      changes (assembleAnalysisResult job domain) = collectTimelineChanges job
      /\ forall pipeline,
           changes (assembleAnalysisResult (withPipeline job pipeline) domain)
           = changes (assembleAnalysisResult job domain)).
Proof.
  rewrite changes_assemble. split.
  - intros H pipeline <-. rewrite H. reflexivity.
  - intros H.
    assert (E : (List.length (collectTimelineChanges job) =? 0)%nat = false).
    { apply Nat.eqb_neq. intros E. apply H. now apply length_zero_iff_nil. }
    rewrite E. split; [reflexivity | ].
    intros pipeline.
    rewrite changes_assemble, collectTimelineChanges_withPipeline, E.
    reflexivity.
Qed.

Lemma C7_fallback_rule_witness :
  changes
    (assembleAnalysisResult
       (completedJob baseline [] (Some (objectDiffStages [componentOf true]))) F1)
  = createYoloChanges [componentOf true]
      (Some {| BackendImageSize.width := 100; BackendImageSize.height := 50 |})
  /\ map id
       (changes
          (assembleAnalysisResult
             (completedJob baseline [] (Some (objectDiffStages [componentOf true])))
             F1))
     = ["component-0"%string]
  /\ changes
       (assembleAnalysisResult
          (completedJob baseline [framePair 0 1 (objectDiffStages [componentOf false])]
             (Some (objectDiffStages [componentOf true]))) F1)
     = collectTimelineChanges
         (completedJob baseline [framePair 0 1 (objectDiffStages [componentOf false])]
            None).
Proof.
  split; [ | split].
  - etransitivity;
      [ exact (proj1 (C7_fallback_rule
                        (completedJob baseline []
                           (Some (objectDiffStages [componentOf true]))) F1)
                 eq_refl (objectDiffStages [componentOf true]) eq_refl)
      | reflexivity ].
  - vm_compute. reflexivity.
  - apply (proj1
             (proj2 (C7_fallback_rule
                       (completedJob baseline
                          [framePair 0 1 (objectDiffStages [componentOf false])]
                          (Some (objectDiffStages [componentOf true]))) F1)
                (fun H => nil_cons (eq_sym H)))).
Defined.

End Fallback.

(** ** The entry point *)

Section EntryPoint.
Import Types BackendClient.
Local Open Scope float_scope.

(** C3: when the job the backend answers with is not completed, the analysis
    is rejected with an error and gives no result, so no change: whatever
    the inputs, it cannot be fulfilled; and once two frames are uploaded and
    the response is ok, the error is the job's own message, or the default
    one, raised after the second progress report and before any assembly. *)
Theorem C3_incomplete_job_rejected :
  (forall env fetch imageFiles domain comparisonMode,
      (forall request response job,
          fetch request = Async.Fulfilled response ->
          Http.json response = Async.Fulfilled job ->
          BackendJobResponse.status job <> "completed"%string) ->
      exists message,
        fst (Async.run
               (analyzeWithBackend env fetch imageFiles domain comparisonMode))
        = Async.Rejected message)
  /\ (forall env fetch imageFiles domain comparisonMode response job,
        (2 <= List.length imageFiles)%nat ->
        (forall request, fetch request = Async.Fulfilled response) ->
        Http.ok response = true ->
        Http.json response = Async.Fulfilled job ->
        BackendJobResponse.status job <> "completed"%string ->
        Async.run (analyzeWithBackend env fetch imageFiles domain comparisonMode)
        = (Async.Rejected
             (JS.str_or
                (opt' (BackendJobResponse.error job) BackendError.message)
                "Analysis job failed on the backend."),
           [(15, "Uploading ordered frames to backend orchestrator..."%string);
            (60,
             match domain with
             | Manufacturing => "Running RF-DETR-Seg manufacturing pipeline..."
             | Infrastructure => "Running ChangeFormer infrastructure pipeline..."
             | _ => "Running SSIM, RF-DETR-Seg, and Mask R-CNN pipelines..."
             end%string)])).
Proof.
  split.
  - intros env fetch imageFiles domain comparisonMode H.
    unfold analyzeWithBackend, Async.run.
    destruct (List.length imageFiles <? 2)%nat; [eexists; reflexivity | ].
    unfold Async.bind, Async.setProgress, Async.await, Async.throw, Async.ret.
    cbn [app].
    match goal with
    | |- context [fetch ?r] => destruct (fetch r) as [response | m] eqn:Ef
    end; [ | eexists; reflexivity].
    destruct (Http.ok response); cbn [negb].
    + destruct (Http.json response) as [job | m] eqn:Ej; [ | eexists; reflexivity].
      pose proof (H _ _ _ Ef Ej) as Hs. apply String.eqb_neq in Hs.
      rewrite Hs. cbn [negb]. eexists; reflexivity.
    + destruct (Http.text response); eexists; reflexivity.
  - intros env fetch imageFiles domain comparisonMode response job Hn Hf Hok Hj Hs.
    unfold analyzeWithBackend, Async.run.
    apply Nat.ltb_ge in Hn. rewrite Hn.
    unfold Async.bind, Async.setProgress, Async.await, Async.throw, Async.ret.
    cbn [app]. rewrite Hf, Hok. cbn [negb]. rewrite Hj.
    apply String.eqb_neq in Hs. rewrite Hs. cbn [negb].
    reflexivity.
Qed.

Lemma C3_incomplete_job_rejected_witness :
  Async.run
    (analyzeWithBackend localhost (answering failedJob)
       [frameOf "a.png"; frameOf "b.png"] F1 consecutive)
  = (Async.Rejected "alignment stage crashed",
     [(15, "Uploading ordered frames to backend orchestrator..."%string);
      (60, "Running SSIM, RF-DETR-Seg, and Mask R-CNN pipelines..."%string)]).
Proof.
  etransitivity;
    [ exact (proj2 C3_incomplete_job_rejected localhost (answering failedJob)
               [frameOf "a.png"; frameOf "b.png"] F1 consecutive
               _ failedJob (le_n 2) (fun _ => eq_refl) eq_refl eq_refl
               (proj1 (String.eqb_neq (BackendJobResponse.status failedJob)
                         "completed") eq_refl))
    | reflexivity ].
Defined.

End EntryPoint.

(** ** The artifact resolver *)

Section Resolver.
Import Artifacts.

Lemma nonEmpty_false (s : string) : JS.nonEmpty s = false <-> s = ""%string.
Proof. destruct s; simpl; split; congruence. Qed.

Lemma isHttp_nonEmpty (s : string) : isHttp s = true -> JS.nonEmpty s = true.
Proof. destruct s; [discriminate | reflexivity]. Qed.

Lemma trim_empty : JS.trim "" = ""%string.
Proof. reflexivity. Qed.

(** C9: the resolver answers [null] exactly for a reference that is
    missing, empty or blank, the only ones it does not classify; a
    reference that, trimmed, begins with http: or https: in any letter case
    is returned trimmed, so it is returned unchanged exactly when it
    carries no white space at either end. *)
Theorem C9_resolver_null_cases (env : Env.t) (artifact comparisonRoot : option string) :
  (resolveArtifactUrl env artifact comparisonRoot = None
   <-> artifact = None
       \/ exists s, artifact = Some s /\ JS.trim s = ""%string)
  /\ (forall s,
        artifact = Some s -> isHttp (JS.trim s) = true ->
        resolveArtifactUrl env artifact comparisonRoot = Some (JS.trim s)
        /\ (resolveArtifactUrl env artifact comparisonRoot = Some s
            <-> JS.trim s = s)).
Proof.
  assert (Hhttp : forall s,
             artifact = Some s -> isHttp (JS.trim s) = true ->
             resolveArtifactUrl env artifact comparisonRoot = Some (JS.trim s)).
  { intros s Ha Hh. subst artifact. unfold resolveArtifactUrl.
    destruct (JS.nonEmpty s) eqn:En.
    - cbn [negb]. now rewrite (isHttp_nonEmpty _ Hh), Hh.
    - apply nonEmpty_false in En. subst s. rewrite trim_empty in Hh.
      discriminate. }
  split.
  - unfold resolveArtifactUrl. destruct artifact as [s | ].
    + destruct (JS.nonEmpty s) eqn:En; cbn [negb].
      * destruct (JS.nonEmpty (JS.trim s)) eqn:Et; cbn [negb].
        -- split.
           ++ intros H. exfalso.
              destruct (isHttp (JS.trim s)); [discriminate | ].
              destruct (JS.startsWith (JS.trim s) "//"); [discriminate | ].
              destruct (JOB_PATH_REGEX (JS.trim s)) as [[jobId rel] | ];
                [discriminate | ].
              destruct (BackendClient.opt' comparisonRoot JOB_PATH_REGEX)
                as [[jobId rel] | ]; [discriminate | ].
              destruct (JS.startsWith (JS.trim s) "/"); discriminate.
           ++ intros [H | (s' & H & Hs)]; [discriminate | ].
              injection H as <-. rewrite Hs in Et. discriminate.
        -- split; [ | reflexivity]. intros _. right. exists s.
           split; [reflexivity | now apply nonEmpty_false].
      * split; [ | reflexivity]. intros _. right. exists s.
        apply nonEmpty_false in En. subst s. split; reflexivity.
    + split; [now left | reflexivity].
  - intros s Ha Hh. split; [now apply Hhttp | ].
    rewrite (Hhttp s Ha Hh). split; [congruence | ]. intros Ht. now rewrite Ht.
Qed.

Lemma C9_resolver_null_cases_witness :
  resolveArtifactUrl localhost (Some "https://x/y.png"%string) None
  = Some "https://x/y.png"%string.
Proof.
  exact (proj2 (proj2 (proj2 (C9_resolver_null_cases localhost
                                (Some "https://x/y.png"%string) None)
                         "https://x/y.png"%string eq_refl eq_refl))
           eq_refl).
Defined.

(** An http(s) reference that ends with a space is not returned as it is:
    the space is removed. *)
Lemma C9_surrounding_space_counterexample :
  isHttp "https://x/y.png "%string = true
  /\ resolveArtifactUrl localhost (Some "https://x/y.png "%string) None
     = Some "https://x/y.png"%string
  /\ resolveArtifactUrl localhost (Some "https://x/y.png "%string) None
     <> Some "https://x/y.png "%string.
Proof. repeat split. discriminate. Qed.

End Resolver.

(** ** Identifiers *)

Section DecimalText.

Lemma to_uint_nonnil (n : nat) : Nat.to_uint n <> Decimal.Nil.
Proof.
  rewrite <- (DecimalNat.Unsigned.of_to n) at 1.
  rewrite DecimalNat.Unsigned.to_of. apply DecimalFacts.unorm_nonnil.
Qed.

Lemma string_of_nat_inj (n m : nat) :
  JS.string_of_nat n = JS.string_of_nat m -> n = m.
Proof.
  unfold JS.string_of_nat. intros H.
  apply DecimalNat.Unsigned.to_uint_inj.
  apply (f_equal NilZero.uint_of_string) in H.
  rewrite !NilZero.usu in H by apply to_uint_nonnil. now injection H.
Qed.

Lemma to_int_nonnil (z : Z) :
  Z.to_int z <> Decimal.Pos Decimal.Nil /\ Z.to_int z <> Decimal.Neg Decimal.Nil.
Proof.
  destruct z as [ | p | p]; simpl; split; try discriminate;
    intros H; injection H as H; now apply DecimalPos.Unsigned.to_uint_nonnil in H.
Qed.

Lemma string_of_Z_inj (a b : Z) :
  JS.string_of_Z a = JS.string_of_Z b -> a = b.
Proof.
  unfold JS.string_of_Z. intros H.
  apply DecimalZ.to_int_inj.
  apply (f_equal NilZero.int_of_string) in H.
  destruct (to_int_nonnil a) as [A1 A2], (to_int_nonnil b) as [B1 B2].
  rewrite !NilZero.isi in H by assumption. now injection H.
Qed.

Lemma dashFree_uint (d : Decimal.uint) :
  dashFree (NilEmpty.string_of_uint d) = true.
Proof. induction d; simpl; auto. Qed.

Lemma dashFree_nat (n : nat) : dashFree (JS.string_of_nat n) = true.
Proof.
  unfold JS.string_of_nat, NilZero.string_of_uint.
  destruct (Nat.to_uint n) eqn:E; try reflexivity;
    rewrite <- E; apply dashFree_uint.
Qed.

Lemma dashFree_app (a b : string) :
  dashFree (a ++ String "-" b) = false.
Proof.
  induction a as [ | c a IH]; simpl; [reflexivity | ].
  rewrite IH. apply andb_false_r.
Qed.

(** Text that ends with a dash and a number is cut at its last dash. *)
Lemma cut_at_last_dash (x1 : string) :
  forall x2 n1 n2,
    dashFree n1 = true -> dashFree n2 = true ->
    (x1 ++ String "-" n1 = x2 ++ String "-" n2)%string ->
    x1 = x2 /\ n1 = n2.
Proof.
  induction x1 as [ | c x1 IH]; intros [ | c2 x2] n1 n2 H1 H2 H; simpl in H.
  - injection H as H. auto.
  - injection H as Hc H. subst n1. rewrite dashFree_app in H1. discriminate.
  - injection H as Hc H. subst n2. rewrite dashFree_app in H2. discriminate.
  - injection H as Hc H. subst c2.
    destruct (IH x2 n1 n2 H1 H2 H) as [E1 E2]. subst. auto.
Qed.

Lemma append_inv_head (p a b : string) : (p ++ a = p ++ b)%string -> a = b.
Proof.
  induction p as [ | c p IH]; simpl; intros H; [exact H | ].
  injection H as H. auto.
Qed.

Lemma startsWith_append (p t : string) : JS.startsWith (p ++ t) p = true.
Proof.
  unfold JS.startsWith. induction p as [ | c p IH]; simpl;
    [destruct t; reflexivity | ].
  destruct (ascii_dec c c); [exact IH | congruence].
Qed.

End DecimalText.

Section TimelineIds.
Import Types BackendClient.

Lemma timelineId_inj p a i p' a' i' :
  In p timelinePrefixes -> In p' timelinePrefixes ->
  timelineId p a i = timelineId p' a' i' ->
  p = p' /\ a = a' /\ i = i'.
Proof.
  unfold timelinePrefixes, timelineId.
  intros Hp Hp' H.
  assert (Hsame : forall q,
             (q ++ "-f" ++ JS.string_of_Z a ++ "-" ++ JS.string_of_nat i
              = q ++ "-f" ++ JS.string_of_Z a' ++ "-" ++ JS.string_of_nat i')%string ->
             a = a' /\ i = i').
  { intros q E. apply append_inv_head in E. apply (append_inv_head "-f") in E.
    destruct (cut_at_last_dash _ _ _ _ (dashFree_nat i) (dashFree_nat i') E)
      as [E1 E2].
    split; [now apply string_of_Z_inj | now apply string_of_nat_inj]. }
  simpl in Hp, Hp'.
  destruct Hp as [<- | [<- | [<- | [<- | []]]]];
    destruct Hp' as [<- | [<- | [<- | [<- | []]]]];
    try (simpl in H; discriminate H);
    (split; [reflexivity | exact (Hsame _ H)]).
Qed.

Lemma mapi_from_seq {A B : Type} (g : nat -> B) (l : list A) :
  forall k, mapi_from (fun _ i => g i) k l = map g (seq k (List.length l)).
Proof.
  induction l as [ | x l IH]; intros k; simpl; [reflexivity | now rewrite IH].
Qed.

(** Labelling overwrites the ids of the changes by their rank. *)
Lemma labelTimelineChanges_ids base afterIndex beforeIndex mode prefix :
  map id (labelTimelineChanges base afterIndex beforeIndex mode prefix)
  = map (timelineId prefix afterIndex) (seq 0 (List.length base)).
Proof.
  unfold labelTimelineChanges, mapi. rewrite mapi_from_map. cbn [id].
  apply (mapi_from_seq (timelineId prefix afterIndex)).
Qed.

Lemma in_labelled base afterIndex beforeIndex mode prefix x :
  In x (map id (labelTimelineChanges base afterIndex beforeIndex mode prefix)) ->
  exists i, x = timelineId prefix afterIndex i.
Proof.
  rewrite labelTimelineChanges_ids, in_map_iff.
  intros (i & <- & _). now exists i.
Qed.

Lemma NoDup_labelled base afterIndex beforeIndex mode prefix :
  In prefix timelinePrefixes ->
  NoDup (map id (labelTimelineChanges base afterIndex beforeIndex mode prefix)).
Proof.
  intros Hp. rewrite labelTimelineChanges_ids.
  apply NoDup_map_NoDup_ForallPairs; [ | apply seq_NoDup].
  intros i j _ _ E.
  now destruct (timelineId_inj _ _ _ _ _ _ Hp Hp E) as (_ & _ & ?).
Qed.

(** The ids of a frame pair name its [afterIndex]. *)
Lemma in_timelineEntryChanges mode entry x :
  In x (map id (timelineEntryChanges mode entry)) ->
  exists p i,
    In p timelinePrefixes
    /\ x = timelineId p (BackendTimelineEntry.afterIndex entry) i.
Proof.
  unfold timelineEntryChanges.
  destruct (BackendTimelineEntry.pipeline entry) as [stages | ]; [ | intros []].
  cbv zeta. rewrite !map_app, !in_app_iff.
  intros [H | [H | [H | H]]]; apply in_labelled in H; destruct H as (i & ->);
    eexists; exists i; (split; [ | reflexivity]); simpl; auto.
Qed.

Lemma NoDup_timelineEntryChanges mode entry :
  NoDup (map id (timelineEntryChanges mode entry)).
Proof.
  unfold timelineEntryChanges.
  destruct (BackendTimelineEntry.pipeline entry) as [stages | ]; [ | constructor].
  cbv zeta. rewrite !map_app.
  assert (D : forall p q b1 b2 a b m x,
             In p timelinePrefixes -> In q timelinePrefixes -> p <> q ->
             In x (map id (labelTimelineChanges b1 a b m p)) ->
             ~ In x (map id (labelTimelineChanges b2 a b m q))).
  { intros p q b1 b2 a b m x Hp Hq Hpq H1 H2.
    apply in_labelled in H1. apply in_labelled in H2.
    destruct H1 as (i & ->). destruct H2 as (j & E).
    now destruct (timelineId_inj _ _ _ _ _ _ Hp Hq E) as (? & _). }
  assert (P : forall p, In p timelinePrefixes ->
                forall b1 a b m, NoDup (map id (labelTimelineChanges b1 a b m p)))
    by (intros; now apply NoDup_labelled).
  apply NoDup_app; [apply P; simpl; auto | | ].
  - apply NoDup_app; [apply P; simpl; auto | | ].
    + apply NoDup_app; [apply P; simpl; auto | apply P; simpl; auto 6 | ].
      intros x H1. eapply D; try exact H1; simpl; auto 6; discriminate.
    + intros x H1 H2. rewrite in_app_iff in H2. destruct H2 as [H2 | H2];
        revert H2; eapply D; try exact H1; simpl; auto 6; discriminate.
  - intros x H1 H2. rewrite !in_app_iff in H2.
    destruct H2 as [H2 | [H2 | H2]];
      revert H2; eapply D; try exact H1; simpl; auto 6; discriminate.
Qed.

(** Frame pairs with different [afterIndex] give different ids. *)
Lemma NoDup_timeline mode timeline :
  NoDup (map BackendTimelineEntry.afterIndex timeline) ->
  NoDup (map id (flat_map (timelineEntryChanges mode) timeline)).
Proof.
  induction timeline as [ | entry timeline IH]; intros H; simpl; [constructor | ].
  inversion H as [ | a l Hnotin Hrest]; subst.
  rewrite map_app. apply NoDup_app.
  - apply NoDup_timelineEntryChanges.
  - now apply IH.
  - intros x H1 H2. apply Hnotin.
    apply in_timelineEntryChanges in H1. destruct H1 as (p & i & Hp & ->).
    apply in_map_iff in H2. destruct H2 as (change & E & Hin).
    apply in_flat_map in Hin. destruct Hin as (entry' & He' & Hc).
    assert (Hx : In (timelineId p (BackendTimelineEntry.afterIndex entry) i)
                   (map id (timelineEntryChanges mode entry')))
      by (rewrite <- E; now apply in_map).
    apply in_timelineEntryChanges in Hx. destruct Hx as (p' & i' & Hp' & E').
    destruct (timelineId_inj _ _ _ _ _ _ Hp Hp' E') as (_ & Ea & _).
    rewrite Ea. now apply in_map.
Qed.

Lemma NoDup_collectTimelineChanges job :
  NoDup
    (map BackendTimelineEntry.afterIndex
       (JS.nullish (BackendJobResponse.timeline job) [])) ->
  NoDup (map id (collectTimelineChanges job)).
Proof.
  unfold collectTimelineChanges.
  destruct (BackendJobResponse.timeline job) as [timeline | ]; [ | constructor].
  cbn [JS.nullish]. intros H.
  destruct (List.length timeline =? 0)%nat; [constructor | ].
  now apply NoDup_timeline.
Qed.

End TimelineIds.

Section FallbackIds.
Import Types BackendClient.
Local Open Scope string_scope.

Lemma suppliedIds_cons r regions :
  suppliedIds (r :: regions)
  = (match BackendPcbRegion.id r with
     | Some s => if JS.nonEmpty s then [s] else []
     | None => []
     end ++ suppliedIds regions)%list.
Proof. reflexivity. Qed.

(** An id of a region is the detector's or a made-up one of a later rank. *)
Lemma in_regionIds q regions :
  forall k x, In x (regionIds q k regions) ->
    In x (suppliedIds regions)
    \/ exists i, (k <= i)%nat /\ x = q ++ JS.string_of_nat i.
Proof.
  induction regions as [ | r regions IH]; intros k x H; [contradiction | ].
  cbn [regionIds mapi_from] in H. rewrite suppliedIds_cons.
  destruct H as [H | H].
  - unfold JS.str_or in H.
    destruct (BackendPcbRegion.id r) as [s | ];
      [destruct (JS.nonEmpty s) | ];
      try (left; subst x; now left);
      right; exists k; split; auto.
  - destruct (IH (S k) x H) as [H' | (i & Hi & ->)].
    + left. apply in_or_app. now right.
    + right. exists i. split; [lia | reflexivity].
Qed.

Lemma NoDup_regionIds q regions :
  NoDup (suppliedIds regions) ->
  Forall (fun s => JS.startsWith s q = false) (suppliedIds regions) ->
  forall k, NoDup (regionIds q k regions).
Proof.
  induction regions as [ | r regions IH]; intros Hn Hf k; [constructor | ].
  cbn [regionIds mapi_from]. rewrite suppliedIds_cons in Hn, Hf.
  fold (regionIds q (S k) regions).
  assert (Hn' : NoDup (suppliedIds regions)) by now apply NoDup_app_remove_l in Hn.
  assert (Hf' : Forall (fun s => JS.startsWith s q = false) (suppliedIds regions)).
  { rewrite Forall_app in Hf. tauto. }
  constructor; [ | now apply IH].
  intros Hin. apply in_regionIds in Hin.
  unfold JS.str_or in Hin.
  destruct (BackendPcbRegion.id r) as [s | ] eqn:Eid;
    [destruct (JS.nonEmpty s) eqn:Es | ].
  - cbn [app] in Hn, Hf. inversion Hn as [ | ? ? Hnot _]; subst.
    inversion Hf as [ | ? ? Hs _]; subst.
    destruct Hin as [Hin | (i & _ & E)]; [now apply Hnot | ].
    rewrite E, startsWith_append in Hs. discriminate.
  - destruct Hin as [Hin | (i & Hi & E)].
    + rewrite Forall_forall in Hf'. specialize (Hf' _ Hin).
      rewrite startsWith_append in Hf'. discriminate.
    + apply append_inv_head, string_of_nat_inj in E. lia.
  - destruct Hin as [Hin | (i & Hi & E)].
    + rewrite Forall_forall in Hf'. specialize (Hf' _ Hin).
      rewrite startsWith_append in Hf'. discriminate.
    + apply append_inv_head, string_of_nat_inj in E. lia.
Qed.

Lemma NoDup_ranked (q : string) (k n : nat) :
  NoDup (map (fun i => q ++ JS.string_of_nat i) (seq k n)).
Proof.
  apply NoDup_map_NoDup_ForallPairs; [ | apply seq_NoDup].
  intros i j _ _ E. now apply append_inv_head, string_of_nat_inj in E.
Qed.

Lemma foreign_kind s : foreign s -> kind s = None.
Proof.
  unfold foreign, localPrefixes, kind. intros H.
  inversion H as [ | ? ? H1 T1]; subst. inversion T1 as [ | ? ? H2 T2]; subst.
  inversion T2 as [ | ? ? H3 T3]; subst. inversion T3 as [ | ? ? H4 T4]; subst.
  now rewrite H1, H2, H3, H4.
Qed.

Lemma foreign_not q s : foreign s -> In q localPrefixes -> JS.startsWith s q = false.
Proof. unfold foreign. rewrite Forall_forall. auto. Qed.

Lemma kind_pcb t : kind ("pcb-" ++ t) = Some 0%nat.
Proof. unfold kind. now rewrite startsWith_append. Qed.

Lemma kind_component t : kind ("component-" ++ t) = Some 1%nat.
Proof. unfold kind. now rewrite (startsWith_append "component-"). Qed.

Lemma kind_mask t : kind ("mask-" ++ t) = Some 2%nat.
Proof. unfold kind. now rewrite (startsWith_append "mask-"). Qed.

Lemma kind_changeformer t : kind ("changeformer-" ++ t) = Some 3%nat.
Proof. unfold kind. now rewrite (startsWith_append "changeformer-"). Qed.

(** The ids each builder gives. *)
Lemma createPcbChanges_ids regions size :
  map id (createPcbChanges regions size) = regionIds "pcb-" 0 regions.
Proof. unfold createPcbChanges, mapi. now rewrite mapi_from_map. Qed.

Lemma createYoloChanges_ids pairs size :
  map id (createYoloChanges pairs size)
  = map (fun i => "component-" ++ JS.string_of_nat i) (seq 0 (List.length pairs)).
Proof.
  unfold createYoloChanges, mapi. rewrite mapi_from_map. cbn [id].
  apply (mapi_from_seq (fun i => "component-" ++ JS.string_of_nat i)).
Qed.

Lemma createMaskChanges_ids detections size :
  exists n,
    map id (createMaskChanges detections size)
    = map (fun i => "mask-" ++ JS.string_of_nat i) (seq 0 n).
Proof.
  unfold createMaskChanges, mapi. rewrite mapi_from_map. cbn [id].
  eexists. apply (mapi_from_seq (fun i => "mask-" ++ JS.string_of_nat i)).
Qed.

Lemma createChangeformerChanges_ids summary size :
  map id (createChangeformerChanges summary size) = []
  \/ map id (createChangeformerChanges summary size) = ["changeformer-aggregate"]
  \/ map id (createChangeformerChanges summary size)
     = regionIds "changeformer-" 0
         (JS.nullish (opt' summary BackendChangeformerSummary.regions) []).
Proof.
  unfold createChangeformerChanges. destruct summary as [summary | ]; [ | now left].
  cbn [opt'].
  destruct (JS.nullish (BackendChangeformerSummary.regions summary) [])
    as [ | r regions].
  - destruct (PrimFloat.leb _ 0); [now left | right; now left].
  - right. right. unfold mapi. now rewrite mapi_from_map.
Qed.

Lemma in_ranked q k n x :
  In x (map (fun i => q ++ JS.string_of_nat i) (seq k n)) ->
  exists i, x = q ++ JS.string_of_nat i.
Proof. rewrite in_map_iff. intros (i & <- & _). now exists i. Qed.

Lemma NoDup_app_disjoint {A : Type} (l1 l2 : list A) (x : A) :
  NoDup (l1 ++ l2) -> In x l1 -> In x l2 -> False.
Proof.
  induction l1 as [ | a l1 IH]; intros H H1 H2; [contradiction | ].
  simpl in H. inversion H as [ | ? ? Hnot Hrest]; subst.
  destruct H1 as [-> | H1].
  - apply Hnot. apply in_or_app. now right.
  - now apply IH.
Qed.

(** Under the condition on the detectors' ids, the ids of the job-level
    changes are pairwise distinct. *)
Lemma NoDup_fallbackChanges stages :
  suppliedIdsDistinct stages -> NoDup (map id (fallbackChanges stages)).
Proof.
  intros [Hn Hf]. unfold detectorIds in Hn, Hf.
  assert (Hn1 := NoDup_app_remove_r _ _ Hn).
  assert (Hn2 := NoDup_app_remove_l _ _ Hn).
  rewrite Forall_app in Hf. destruct Hf as [Hf1 Hf2].
  unfold fallbackChanges. cbv zeta. rewrite !map_app.
  rewrite createPcbChanges_ids, createYoloChanges_ids.
  destruct (createMaskChanges_ids (maskDetectionsOf stages)
              (opt' (BackendPipelineStages.mask_rcnn stages)
                 BackendMaskStage.imageSize)) as [n ->].
  set (A := regionIds "pcb-" 0 (pcbRegionsOf stages)).
  set (B := map (fun i => "component-" ++ JS.string_of_nat i) _).
  set (C := map (fun i => "mask-" ++ JS.string_of_nat i) _).
  set (D := map id (createChangeformerChanges _ _)).
  assert (KA : forall x, In x A ->
                 (In x (suppliedIds (pcbRegionsOf stages)) /\ kind x = None)
                 \/ kind x = Some 0%nat).
  { intros x H. apply in_regionIds in H. destruct H as [H | (i & _ & ->)].
    - left. split; [exact H | ]. apply foreign_kind.
      rewrite Forall_forall in Hf1. now apply Hf1.
    - right. apply kind_pcb. }
  assert (KB : forall x, In x B -> kind x = Some 1%nat).
  { intros x H. apply in_ranked in H. destruct H as (i & ->).
    apply kind_component. }
  assert (KC : forall x, In x C -> kind x = Some 2%nat).
  { intros x H. apply in_ranked in H. destruct H as (i & ->). apply kind_mask. }
  assert (KD : forall x, In x D ->
                 (In x (suppliedIds (changeformerRegionsOf stages)) /\ kind x = None)
                 \/ kind x = Some 3%nat).
  { intros x H. subst D.
    destruct (createChangeformerChanges_ids (changeformerSummaryOf stages)
                (opt' (BackendPipelineStages.changeformer_cd stages)
                   BackendChangeformerStage.imageSize)) as [E | [E | E]];
      rewrite E in H.
    - contradiction.
    - destruct H as [<- | []]. right. reflexivity.
    - apply in_regionIds in H. destruct H as [H | (i & _ & ->)].
      + left. split; [exact H | ]. apply foreign_kind.
        rewrite Forall_forall in Hf2. now apply Hf2.
      + right. apply kind_changeformer. }
  assert (NA : NoDup A).
  { apply NoDup_regionIds; [exact Hn1 | ].
    eapply Forall_impl; [ | exact Hf1]. intros s Hs.
    apply (foreign_not "pcb-" s Hs). simpl. auto. }
  assert (NB : NoDup B) by apply NoDup_ranked.
  assert (NC : NoDup C) by apply NoDup_ranked.
  assert (ND : NoDup D).
  { subst D.
    destruct (createChangeformerChanges_ids (changeformerSummaryOf stages)
                (opt' (BackendPipelineStages.changeformer_cd stages)
                   BackendChangeformerStage.imageSize)) as [E | [E | E]];
      rewrite E.
    - constructor.
    - repeat constructor. intros [].
    - apply NoDup_regionIds; [exact Hn2 | ].
      eapply Forall_impl; [ | exact Hf2]. intros s Hs.
      apply (foreign_not "changeformer-" s Hs). simpl. auto 6. }
  apply NoDup_app; [exact NA | | ].
  - apply NoDup_app; [exact NB | | ].
    + apply NoDup_app; [exact NC | exact ND | ].
      intros x H1 H2. apply KC in H1. apply KD in H2.
      destruct H2 as [[_ H2] | H2]; congruence.
    + intros x H1 H2. apply KB in H1. rewrite in_app_iff in H2.
      destruct H2 as [H2 | H2]; [apply KC in H2; congruence | ].
      apply KD in H2. destruct H2 as [[_ H2] | H2]; congruence.
  - intros x H1 H2. apply KA in H1. rewrite !in_app_iff in H2.
    destruct H2 as [H2 | [H2 | H2]].
    + apply KB in H2. destruct H1 as [[_ H1] | H1]; congruence.
    + apply KC in H2. destruct H1 as [[_ H1] | H1]; congruence.
    + apply KD in H2.
      destruct H1 as [[I1 H1] | H1], H2 as [[I2 H2] | H2]; try congruence.
      exact (NoDup_app_disjoint _ _ x Hn I1 I2).
Qed.

(** C1 (as amended): the ids of the changes of an assembled result are
    pairwise distinct, on the timeline path when the frame pairs of the
    timeline have pairwise distinct afterIndex, and on the job-level path
    when the ids the detectors supply for the regions are pairwise distinct
    and none begins like a locally indexed id. *)
Theorem C1_change_ids_distinct (job : BackendJobResponse.t) (domain : DomainMode) :
  (collectTimelineChanges job <> [] ->
   NoDup
     (map BackendTimelineEntry.afterIndex
        (JS.nullish (BackendJobResponse.timeline job) [])) ->
   changes (assembleAnalysisResult job domain) = collectTimelineChanges job
   /\ NoDup (map id (changes (assembleAnalysisResult job domain))))
  /\ (collectTimelineChanges job = [] ->
      suppliedIdsDistinct
        (JS.nullish (BackendJobResponse.pipeline job) BackendPipelineStages.empty) ->
      changes (assembleAnalysisResult job domain)
      = fallbackChanges
          (JS.nullish (BackendJobResponse.pipeline job) BackendPipelineStages.empty)
      /\ NoDup (map id (changes (assembleAnalysisResult job domain)))).
Proof.
  rewrite changes_assemble. split.
  - intros Hne Ht.
    assert (E : (List.length (collectTimelineChanges job) =? 0)%nat = false).
    { apply Nat.eqb_neq. intros E. apply Hne. now apply length_zero_iff_nil. }
    rewrite E. split; [reflexivity | now apply NoDup_collectTimelineChanges].
  - intros He Hs. rewrite He. cbn [List.length Nat.eqb].
    split; [reflexivity | now apply NoDup_fallbackChanges].
Qed.

Lemma C1_change_ids_distinct_witness :
  NoDup
    (map id
       (changes
          (assembleAnalysisResult
             (completedJob consecutive
                [framePair 0 1 (objectDiffStages [componentOf false]);
                 framePair 1 2 (objectDiffStages [componentOf true])]
                (Some (pcbStages [regionOf (Some "r1") None 0.03%float;
                                  regionOf (Some "r1") None 0.01%float])))
             F1)))
  /\ NoDup
       (map id
          (changes
             (assembleAnalysisResult
                (completedJob baseline []
                   (Some (pcbStages [regionOf (Some "r1") None 0.03%float;
                                     regionOf None None 0.01%float])))
                Manufacturing))).
Proof.
  split.
  - apply (proj1 (C1_change_ids_distinct _ F1)).
    + discriminate.
    + repeat constructor; simpl; intuition discriminate.
  - apply (proj2 (C1_change_ids_distinct _ Manufacturing)).
    + reflexivity.
    + split.
      * repeat constructor. intros [].
      * repeat constructor.
Defined.

(** C1 as stated fails on the job-level path when a detector repeats an id:
    the two changes carry it. *)
Lemma C1_repeated_region_id_counterexample :
  map id
    (changes
       (assembleAnalysisResult
          (completedJob baseline []
             (Some (pcbStages [regionOf (Some "r1") None 0.03%float;
                               regionOf (Some "r1") None 0.01%float])))
          Manufacturing))
  = ["r1"; "r1"].
Proof. vm_compute. reflexivity. Qed.

End FallbackIds.

(** * Further properties *)

(** ** The entry point, beyond the incomplete job *)

Section EntryPointMore.
Import Types BackendClient.
Local Open Scope float_scope.

(** X1: with fewer than two frames the analysis is rejected at once: the
    network is not consulted and no progress is reported. *)
Theorem X1_too_few_frames env (fetch fetch' : Http.Fetch) imageFiles domain
  comparisonMode :
  (List.length imageFiles < 2)%nat ->
  Async.run (analyzeWithBackend env fetch imageFiles domain comparisonMode)
  = (Async.Rejected "At least two images are required for backend analysis.", [])
  /\ Async.run (analyzeWithBackend env fetch imageFiles domain comparisonMode)
     = Async.run (analyzeWithBackend env fetch' imageFiles domain comparisonMode).
Proof.
  intros H. apply Nat.ltb_lt in H.
  unfold analyzeWithBackend, Async.run. rewrite H. split; reflexivity.
Qed.

Lemma X1_too_few_frames_witness :
  Async.run
    (analyzeWithBackend localhost (answering (completedJob baseline [] None))
       [frameOf "a.png"] F1 baseline)
  = (Async.Rejected "At least two images are required for backend analysis.", []).
Proof.
  exact (proj1 (X1_too_few_frames localhost
                  (answering (completedJob baseline [] None))
                  (answering failedJob) [frameOf "a.png"] F1 baseline (le_n 2))).
Defined.

(** X2: when the backend answers with an HTTP error, the analysis is
    rejected with the body of the response, or with a default message when
    the body is empty, after the first progress report only. *)
Theorem X2_http_error env fetch imageFiles domain comparisonMode response text :
  (2 <= List.length imageFiles)%nat ->
  (forall request, fetch request = Async.Fulfilled response) ->
  Http.ok response = false ->
  Http.text response = Async.Fulfilled text ->
  Async.run (analyzeWithBackend env fetch imageFiles domain comparisonMode)
  = (Async.Rejected
       (if JS.nonEmpty text then text else "Backend analysis request failed."),
     [(15, "Uploading ordered frames to backend orchestrator..."%string)]).
Proof.
  intros Hn Hf Hok Ht. unfold analyzeWithBackend, Async.run.
  apply Nat.ltb_ge in Hn. rewrite Hn.
  unfold Async.bind, Async.setProgress, Async.await, Async.throw.
  cbn [app]. rewrite Hf, Hok. cbn [negb]. rewrite Ht. reflexivity.
Qed.

Lemma X2_http_error_witness :
  Async.run
    (analyzeWithBackend localhost (refusing "") [frameOf "a.png"; frameOf "b.png"]
       Manufacturing baseline)
  = (Async.Rejected "Backend analysis request failed.",
     [(15, "Uploading ordered frames to backend orchestrator..."%string)]).
Proof.
  exact (X2_http_error localhost (refusing "") [frameOf "a.png"; frameOf "b.png"]
           Manufacturing baseline _ ""%string (le_n 2) (fun _ => eq_refl)
           eq_refl eq_refl).
Defined.

(** X3: with at least two frames, an ok response and a completed job, the
    analysis is fulfilled with the ledger assembled from that job, after the
    three progress reports 15, 60 and 90. *)
Theorem X3_completed_job env fetch imageFiles domain comparisonMode response job :
  (2 <= List.length imageFiles)%nat ->
  (forall request, fetch request = Async.Fulfilled response) ->
  Http.ok response = true ->
  Http.json response = Async.Fulfilled job ->
  BackendJobResponse.status job = "completed"%string ->
  Async.run (analyzeWithBackend env fetch imageFiles domain comparisonMode)
  = (Async.Fulfilled (assembleAnalysisResult job domain), fullProgress domain).
Proof.
  intros Hn Hf Hok Hj Hs. unfold analyzeWithBackend, Async.run.
  apply Nat.ltb_ge in Hn. rewrite Hn.
  unfold Async.bind, Async.setProgress, Async.await, Async.throw, Async.ret.
  cbn [app]. rewrite Hf, Hok. cbn [negb]. rewrite Hj, Hs.
  destruct domain; reflexivity.
Qed.

Lemma X3_completed_job_witness :
  Async.run
    (analyzeWithBackend localhost
       (answering (completedJob baseline [] (Some (objectDiffStages [componentOf true]))))
       [frameOf "a.png"; frameOf "b.png"] F1 baseline)
  = (Async.Fulfilled
       (assembleAnalysisResult
          (completedJob baseline [] (Some (objectDiffStages [componentOf true]))) F1),
     fullProgress F1).
Proof.
  exact (X3_completed_job localhost
           (answering (completedJob baseline []
                         (Some (objectDiffStages [componentOf true]))))
           [frameOf "a.png"; frameOf "b.png"] F1 baseline _ _
           (le_n 2) (fun _ => eq_refl) eq_refl eq_refl eq_refl).
Defined.

(** X4: in every run the progress reports are an initial part of 15, 60, 90
    with their labels, and the run is fulfilled only after all three, with
    the ledger of a job whose status is "completed", never in demo mode. *)
Theorem X4_progress_and_fulfilment env fetch imageFiles domain comparisonMode :
  isPrefix
    (snd (Async.run (analyzeWithBackend env fetch imageFiles domain comparisonMode)))
    (fullProgress domain)
  /\ forall result,
       fst (Async.run (analyzeWithBackend env fetch imageFiles domain comparisonMode))
       = Async.Fulfilled result ->
       snd (Async.run (analyzeWithBackend env fetch imageFiles domain comparisonMode))
       = fullProgress domain
       /\ isDemoMode result = false
       /\ exists job,
            BackendJobResponse.status job = "completed"%string
            /\ result = assembleAnalysisResult job domain.
Proof.
  unfold analyzeWithBackend, Async.run.
  destruct (List.length imageFiles <? 2)%nat.
  { split; [exact I | discriminate]. }
  unfold Async.bind, Async.setProgress, Async.await, Async.throw, Async.ret.
  cbn [app].
  match goal with
  | |- context [fetch ?r] => destruct (fetch r) as [response | m]
  end; [ | split; [simpl; auto | discriminate]].
  destruct (Http.ok response); cbn [negb].
  - destruct (Http.json response) as [job | m];
      [ | split; [destruct domain; simpl; auto | discriminate]].
    destruct (String.eqb (BackendJobResponse.status job) "completed") eqn:Es;
      cbn [negb].
    + split; [destruct domain; simpl; auto | ].
      intros result H. cbn [fst snd] in *. injection H as <-.
      split; [destruct domain; reflexivity | ].
      split; [reflexivity | ].
      exists job. split; [now apply String.eqb_eq | reflexivity].
    + split; [destruct domain; simpl; auto | discriminate].
  - destruct (Http.text response); split; simpl; auto; discriminate.
Qed.

Lemma X4_progress_and_fulfilment_witness :
  snd (Async.run
         (analyzeWithBackend localhost
            (answering (completedJob baseline [] None))
            [frameOf "a.png"; frameOf "b.png"] QA baseline))
  = fullProgress QA.
Proof.
  exact (proj1 (proj2 (X4_progress_and_fulfilment localhost
                         (answering (completedJob baseline [] None))
                         [frameOf "a.png"; frameOf "b.png"] QA baseline)
                  _ eq_refl)).
Defined.

End EntryPointMore.

(** ** The recommendations *)

Section Recommendations.
Import Types BackendClient.
Local Open Scope float_scope.

Lemma highCount_zero changes :
  highCount changes = 0%nat <-> Forall (fun c => impact c <> High) changes.
Proof.
  unfold highCount. induction changes as [ | c changes IH]; simpl;
    [split; auto | ].
  assert (F : Forall (fun c => impact c <> High) (c :: changes)
              <-> impact c <> High
                  /\ Forall (fun c => impact c <> High) changes).
  { split; [inversion 1; auto | intros []; constructor; auto]. }
  rewrite F. destruct (impact c); simpl; rewrite ?IH;
    intuition (try discriminate; try congruence).
Qed.

Ltac split_ifs :=
  repeat match goal with
         | |- context [if ?b then _ else _] => destruct b
         end.

(** X5: the recommendations of a ledger are never empty: between two and
    five lines, the last one the line on backend artifacts, the first one
    the baseline-monitoring line exactly when no change is High, and
    otherwise the line that counts the High changes. *)
Theorem X5_recommendations_shape (job : BackendJobResponse.t) (domain : DomainMode) :
  (2 <= List.length (recommendations (assembleAnalysisResult job domain)) <= 5)%nat
  /\ List.last (recommendations (assembleAnalysisResult job domain)) ""%string
     = artifactsLine
  /\ (hd_error (recommendations (assembleAnalysisResult job domain))
      = Some noDeltaLine
      <-> Forall (fun c => impact c <> High)
            (changes (assembleAnalysisResult job domain)))
  /\ (highCount (changes (assembleAnalysisResult job domain)) <> 0%nat ->
      hd_error (recommendations (assembleAnalysisResult job domain))
      = Some (prioritiseLine
                (highCount (changes (assembleAnalysisResult job domain))))).
Proof.
  rewrite <- highCount_zero.
  unfold assembleAnalysisResult. cbn [recommendations changes].
  set (chs := if (List.length (collectTimelineChanges job) =? 0)%nat then _ else _).
  fold (highCount chs).
  destruct (highCount chs) as [ | n] eqn:En; cbn [Nat.ltb Nat.leb].
  - split; [split_ifs; simpl; lia | ].
    split; [split_ifs; reflexivity | ].
    split; [split_ifs; simpl; tauto | congruence].
  - split; [split_ifs; simpl; lia | ].
    split; [split_ifs; reflexivity | ].
    split; [ | reflexivity].
    split; [ | discriminate].
    split_ifs; simpl; intros H; discriminate H.
Qed.

Lemma X5_recommendations_shape_witness :
  hd_error
    (recommendations
       (assembleAnalysisResult
          (completedJob consecutive
             [framePair 0 1 (objectDiffStages [componentOf false]);
              framePair 1 2 (objectDiffStages [componentOf true])] None) F1))
  = Some (prioritiseLine 1).
Proof.
  etransitivity;
    [ apply (proj2 (proj2 (proj2 (X5_recommendations_shape _ F1)))); discriminate
    | reflexivity ].
Defined.

End Recommendations.

Section MaskAdvice.
Import Types BackendClient.
Local Open Scope float_scope.

Ltac split_ifs' :=
  repeat match goal with
         | |- context [if ?b then _ else _] => destruct b
         end.

Lemma existsb_labelled_mask base afterIndex beforeIndex mode :
  existsb (fun c => JS.startsWith (id c) "mask")
    (labelTimelineChanges base afterIndex beforeIndex mode "mask")
  = negb (List.length base =? 0)%nat.
Proof.
  unfold labelTimelineChanges, mapi.
  destruct base as [ | b base]; [reflexivity | ].
  cbn [mapi_from existsb id List.length Nat.eqb negb].
  rewrite (startsWith_append "mask"). reflexivity.
Qed.

Lemma existsb_labelled_other base afterIndex beforeIndex mode prefix :
  prefix = "pcb"%string \/ prefix = "RF-DETR-Seg"%string
  \/ prefix = "changeformer"%string ->
  existsb (fun c => JS.startsWith (id c) "mask")
    (labelTimelineChanges base afterIndex beforeIndex mode prefix)
  = false.
Proof.
  intros Hp. unfold labelTimelineChanges, mapi. generalize 0%nat.
  induction base as [ | b base IH]; intros k; [reflexivity | ].
  cbn [mapi_from existsb id]. rewrite IH.
  destruct Hp as [-> | [-> | ->]]; reflexivity.
Qed.

Lemma createMaskChanges_nonempty detections size :
  (List.length (createMaskChanges detections size) =? 0)%nat = false
  <-> exists det, In det detections /\ scoreAtOrAbove det = true.
Proof.
  unfold createMaskChanges, mapi. rewrite mapi_from_length.
  rewrite (filter_ext _ _ mask_filter_eq). rewrite Nat.eqb_neq.
  split.
  - intros H. destruct (filter scoreAtOrAbove detections) as [ | det l] eqn:E;
      [now elim H | ].
    exists det. apply filter_In. rewrite E. now left.
  - intros (det & Hin & Hk) E. apply length_zero_iff_nil in E.
    assert (H : In det (filter scoreAtOrAbove detections))
      by (apply filter_In; auto).
    rewrite E in H. exact H.
Qed.

(** Whether some change of a frame pair comes from the mask builder. *)
Lemma existsb_mask_entry mode entry :
  existsb (fun c => JS.startsWith (id c) "mask") (timelineEntryChanges mode entry)
  = true
  <-> exists stages det,
        BackendTimelineEntry.pipeline entry = Some stages
        /\ In det (maskDetectionsOf stages)
        /\ scoreAtOrAbove det = true.
Proof.
  unfold timelineEntryChanges.
  destruct (BackendTimelineEntry.pipeline entry) as [stages | ].
  - cbv zeta. rewrite !existsb_app.
    rewrite (existsb_labelled_other _ _ _ _ "pcb") by auto.
    rewrite (existsb_labelled_other _ _ _ _ "RF-DETR-Seg") by auto.
    rewrite (existsb_labelled_other _ _ _ _ "changeformer") by auto.
    rewrite existsb_labelled_mask. cbn [orb]. rewrite orb_false_r.
    rewrite negb_true_iff, createMaskChanges_nonempty.
    split.
    + intros (det & H1 & H2). now exists stages, det.
    + intros (stages' & det & E & H1 & H2). injection E as <-. now exists det.
  - simpl. split; [discriminate | intros (? & ? & E & _); discriminate].
Qed.

Lemma existsb_flat_map {A B : Type} (p : B -> bool) (f : A -> list B) (l : list A) :
  existsb p (flat_map f l) = existsb (fun x => existsb p (f x)) l.
Proof.
  induction l as [ | x l IH]; simpl; [reflexivity | ].
  now rewrite existsb_app, IH.
Qed.

(** Whether the mask line is among the recommendations. *)
Lemma mask_line_iff job domain :
  In maskLine (recommendations (assembleAnalysisResult job domain))
  <-> (if (List.length (collectTimelineChanges job) =? 0)%nat
       then (0 <? List.length
                    (maskDetectionsOf
                       (JS.nullish (BackendJobResponse.pipeline job)
                          BackendPipelineStages.empty)))%nat
       else existsb (fun c => JS.startsWith (id c) "mask")
              (collectTimelineChanges job))
      = true.
Proof.
  unfold assembleAnalysisResult. cbn [recommendations].
  match goal with
  | |- _ <-> ?h = true => set (hasMaskChanges := h)
  end.
  destruct hasMaskChanges.
  - split; [reflexivity | intros _].
    rewrite !in_app_iff. do 3 right. left. now left.
  - split; [ | discriminate]. intros H. exfalso.
    rewrite !in_app_iff in H. cbn [In] in H.
    destruct H as [H | [H | [H | [[] | [H | []]]]]].
    + revert H. split_ifs'; simpl; intuition discriminate.
    + revert H. split_ifs'; simpl; intuition discriminate.
    + revert H. split_ifs'; simpl; intuition discriminate.
    + discriminate H.
Qed.

(** X6: the recommendation to review the Mask R-CNN overlay.  On the
    timeline path it is given exactly when some frame pair has a mask
    detection whose score is at or above 0.85, that is when the ledger holds
    a mask change; on the job-level path it is given exactly when the
    job-level mask stage lists a detection, whatever its score. *)
Theorem X6_mask_recommendation (job : BackendJobResponse.t) (domain : DomainMode) :
  (collectTimelineChanges job <> [] ->
   (In maskLine (recommendations (assembleAnalysisResult job domain))
    <-> exists entry stages det,
          In entry (JS.nullish (BackendJobResponse.timeline job) [])
          /\ BackendTimelineEntry.pipeline entry = Some stages
          /\ In det (maskDetectionsOf stages)
          /\ scoreAtOrAbove det = true))
  /\ (collectTimelineChanges job = [] ->
      (In maskLine (recommendations (assembleAnalysisResult job domain))
       <-> maskDetectionsOf
             (JS.nullish (BackendJobResponse.pipeline job)
                BackendPipelineStages.empty) <> [])).
Proof.
  rewrite mask_line_iff. split.
  - intros Hne.
    assert (E : (List.length (collectTimelineChanges job) =? 0)%nat = false).
    { apply Nat.eqb_neq. intros E. apply Hne. now apply length_zero_iff_nil. }
    rewrite E. unfold collectTimelineChanges in *.
    destruct (BackendJobResponse.timeline job) as [timeline | ]; [ | now elim Hne].
    destruct (List.length timeline =? 0)%nat; [now elim Hne | ].
    cbn [JS.nullish]. rewrite existsb_flat_map, existsb_exists.
    split.
    + intros (entry & Hin & H). apply existsb_mask_entry in H.
      destruct H as (stages & det & H1 & H2 & H3). now exists entry, stages, det.
    + intros (entry & stages & det & Hin & H1 & H2 & H3).
      exists entry. split; [exact Hin | ].
      apply existsb_mask_entry. now exists stages, det.
  - intros He. rewrite He. cbn [List.length Nat.eqb].
    rewrite Nat.ltb_lt. rewrite <- length_zero_iff_nil. lia.
Qed.

Lemma X6_mask_recommendation_witness :
  In maskLine
    (recommendations
       (assembleAnalysisResult
          (completedJob baseline [] (Some (maskStages [detectionOf 0.5]))) F1))
  /\ changes
       (assembleAnalysisResult
          (completedJob baseline [] (Some (maskStages [detectionOf 0.5]))) F1)
     = [].
Proof.
  split; [ | reflexivity].
  apply (proj2 (X6_mask_recommendation
                  (completedJob baseline [] (Some (maskStages [detectionOf 0.5])))
                  F1) eq_refl).
  discriminate.
Defined.

End MaskAdvice.

(** ** The change ledger *)

Section Ledger.
Import Types BackendClient.
Local Open Scope float_scope.

(** What [labelTimelineChanges] changes in a change, and what it keeps. *)
Lemma in_labelTimelineChanges c base afterIndex beforeIndex mode prefix :
  In c (labelTimelineChanges base afterIndex beforeIndex mode prefix) ->
  exists c0,
    In c0 base
    /\ comparisonRef c
       = Some {| beforeIndex := beforeIndex;
                 afterIndex := afterIndex;
                 label := formatComparisonLabel afterIndex beforeIndex mode |}
    /\ description c
       = (description c0 ++ " · "
          ++ formatComparisonLabel afterIndex beforeIndex mode)%string
    /\ impact c = impact c0
    /\ criticality c = criticality c0.
Proof.
  unfold labelTimelineChanges, mapi. intros H.
  apply mapi_from_In in H. destruct H as (c0 & i & Hin & _ & ->).
  exists c0. repeat split. exact Hin.
Qed.

(** The changes of a frame pair are relabelled copies of the changes the
    builders make of the stages of the pair. *)
Lemma in_timelineEntryChanges_base mode entry c :
  In c (timelineEntryChanges mode entry) ->
  exists stages c0,
    BackendTimelineEntry.pipeline entry = Some stages
    /\ In c0 (fallbackChanges stages)
    /\ comparisonRef c = Some (refOf mode entry)
    /\ description c
       = (description c0 ++ " · " ++ label (refOf mode entry))%string
    /\ impact c = impact c0
    /\ criticality c = criticality c0.
Proof.
  unfold timelineEntryChanges, fallbackChanges, refOf.
  destruct (BackendTimelineEntry.pipeline entry) as [stages | ]; [ | intros []].
  cbv zeta. rewrite !in_app_iff.
  intros [H | [H | [H | H]]]; apply in_labelTimelineChanges in H;
    destruct H as (c0 & Hin & H1 & H2 & H3 & H4);
    exists stages, c0; rewrite !in_app_iff; cbn [label]; repeat split; auto.
Qed.

Lemma in_collectTimelineChanges job c :
  In c (collectTimelineChanges job) ->
  exists entry,
    In entry (JS.nullish (BackendJobResponse.timeline job) [])
    /\ In c (timelineEntryChanges (modeOf job) entry).
Proof.
  unfold collectTimelineChanges, modeOf.
  destruct (BackendJobResponse.timeline job) as [timeline | ]; [ | intros []].
  destruct (List.length timeline =? 0)%nat; [intros [] | ].
  cbv zeta. rewrite in_flat_map. intros (entry & H1 & H2). now exists entry.
Qed.

Lemma comparisonRef_createPcbChanges regions size :
  Forall (fun c => comparisonRef c = None) (createPcbChanges regions size).
Proof. apply mapi_from_Forall. reflexivity. Qed.

Lemma comparisonRef_createYoloChanges pairs size :
  Forall (fun c => comparisonRef c = None) (createYoloChanges pairs size).
Proof. apply mapi_from_Forall. reflexivity. Qed.

Lemma comparisonRef_createMaskChanges detections size :
  Forall (fun c => comparisonRef c = None) (createMaskChanges detections size).
Proof. apply mapi_from_Forall. reflexivity. Qed.

Lemma comparisonRef_createChangeformerChanges summary size :
  Forall (fun c => comparisonRef c = None) (createChangeformerChanges summary size).
Proof.
  unfold createChangeformerChanges. destruct summary as [summary | ]; [ | constructor].
  destruct (JS.nullish (BackendChangeformerSummary.regions summary) []).
  - destruct (PrimFloat.leb _ 0); repeat constructor.
  - apply mapi_from_Forall. reflexivity.
Qed.

Lemma comparisonRef_fallbackChanges stages :
  Forall (fun c => comparisonRef c = None) (fallbackChanges stages).
Proof.
  unfold fallbackChanges. cbv zeta. rewrite !Forall_app.
  auto using comparisonRef_createPcbChanges, comparisonRef_createYoloChanges,
    comparisonRef_createMaskChanges, comparisonRef_createChangeformerChanges.
Qed.

Lemma nonempty_length {A : Type} (l : list A) :
  l <> [] -> (List.length l =? 0)%nat = false.
Proof. destruct l; [congruence | reflexivity]. Qed.

(** X7: where the changes of a result come from.  When the timeline yields
    changes, every change of the result refers to a frame pair of the
    timeline: it carries the indices of that pair and the label of the
    comparison, and its description ends with that label.  When the timeline
    yields none, no change of the result refers to a frame pair. *)
Theorem X7_comparison_refs (job : BackendJobResponse.t) (domain : DomainMode) :
  (collectTimelineChanges job <> [] ->
   Forall
     (fun c =>
        exists entry text,
          In entry (JS.nullish (BackendJobResponse.timeline job) [])
          /\ comparisonRef c = Some (refOf (modeOf job) entry)
          /\ description c
             = (text ++ " · " ++ label (refOf (modeOf job) entry))%string)
     (changes (assembleAnalysisResult job domain)))
  /\ (collectTimelineChanges job = [] ->
      Forall (fun c => comparisonRef c = None)
        (changes (assembleAnalysisResult job domain))).
Proof.
  rewrite changes_assemble. split.
  - intros Hne. rewrite (nonempty_length _ Hne). apply Forall_forall.
    intros c Hc. apply in_collectTimelineChanges in Hc.
    destruct Hc as (entry & He & Hc).
    apply in_timelineEntryChanges_base in Hc.
    destruct Hc as (stages & c0 & _ & _ & H1 & H2 & _).
    exists entry, (description c0). auto.
  - intros He. rewrite He. apply comparisonRef_fallbackChanges.
Qed.

Lemma X7_comparison_refs_witness :
  Forall (fun c => comparisonRef c = None)
    (changes
       (assembleAnalysisResult
          (completedJob baseline [] (Some (maskStages [detectionOf 0.9]))) F1))
  /\ List.length
       (changes
          (assembleAnalysisResult
             (completedJob baseline [] (Some (maskStages [detectionOf 0.9]))) F1))
     = 1%nat.
Proof.
  split; [ | reflexivity].
  exact (proj2 (X7_comparison_refs
                  (completedJob baseline [] (Some (maskStages [detectionOf 0.9])))
                  F1) eq_refl).
Defined.

End Ledger.

(** ** The criticality scale *)

Section CriticalityScale.
Import Types BackendClient.
Local Open Scope float_scope.

Lemma leb_not_nan (x y : float) :
  PrimFloat.leb x y = true -> is_nan y = false.
Proof.
  rewrite leb_spec, is_nan_spec. unfold SFleb.
  destruct (Prim2SF x) as [sx | sx | | sx mx ex],
           (Prim2SF y) as [sy | sy | | sy my ey]; simpl; congruence.
Qed.

(** A number times a finite number other than zero is a number. *)
Lemma mul_not_nan (x k : float) s m e :
  Prim2SF k = S754_finite s m e -> is_nan x = false -> is_nan (x * k) = false.
Proof.
  intros Hk. rewrite !is_nan_spec, mul_spec, Hk. unfold SF64mul, SFmul.
  destruct (Prim2SF x) as [sx | sx | | sx mx ex]; try reflexivity;
    try discriminate.
  intros _.
  pose proof (binary_round_aux_not_nan prec emax (xorb sx s)
                (Zpos (mx * m)) (ex + e) loc_Exact) as N.
  destruct (binary_round_aux _ _ _ _ _ _); try reflexivity.
  exfalso. apply N; [lia | reflexivity].
Qed.

Lemma of_uint63_not_nan n : is_nan (of_uint63 n) = false.
Proof.
  rewrite is_nan_spec, of_uint63_spec. unfold binary_normalize.
  destruct (Uint63Axioms.to_Z n) as [ | p | p]; [reflexivity | | ];
    unfold binary_round;
    match goal with
    | |- context [shl_align ?a ?b ?c] => destruct (shl_align a b c) as [mz ez]
    end;
    match goal with
    | |- context [binary_round_aux ?p ?em ?s ?m ?e ?l] =>
        pose proof (binary_round_aux_not_nan p em s m e l) as N;
        destruct (binary_round_aux p em s m e l); try reflexivity;
        exfalso; apply N; [lia | reflexivity]
    end.
Qed.

Lemma opp_not_nan x : is_nan x = false -> is_nan (- x) = false.
Proof.
  rewrite !is_nan_spec, opp_spec. now destruct (Prim2SF x).
Qed.

Lemma of_Z_not_nan n : is_nan (JS.of_Z n) = false.
Proof.
  destruct n; simpl; [reflexivity | apply of_uint63_not_nan | ].
  apply opp_not_nan, of_uint63_not_nan.
Qed.

Lemma Math_round_not_nan x : is_nan x = false -> is_nan (JS.Math_round x) = false.
Proof.
  intros H. unfold JS.Math_round.
  destruct (Prim2SF x) as [sx | sx | | sx mx ex]; try exact H.
  destruct (0 <=? ex)%Z; [exact H | ].
  cbv zeta.
  match goal with |- context [(?n =? 0)%Z] => destruct (n =? 0)%Z end.
  - now destruct sx.
  - apply of_Z_not_nan.
Qed.

Lemma SFcompare_none (x y : spec_float) :
  SFcompare x y = None -> x = S754_nan \/ y = S754_nan.
Proof.
  destruct x as [sx | sx | | sx mx ex], y as [sy | sy | | sy my ey];
    simpl; try discriminate; auto.
Qed.

(** The smaller of two numbers is a number no greater than the first. *)
Lemma Math_min_le a b :
  is_nan a = false -> is_nan b = false ->
  is_nan (JS.Math_min a b) = false
  /\ PrimFloat.leb (JS.Math_min a b) a = true.
Proof.
  intros Ha Hb. unfold JS.Math_min. rewrite Ha, Hb. cbn [orb].
  destruct (PrimFloat.ltb a b) eqn:E1.
  - split; [exact Ha | ]. revert Ha. rewrite leb_spec, is_nan_spec.
    unfold SFleb.
    destruct (Prim2SF a) as [sa | sa | | sa ma ea]; simpl; try congruence;
      try (destruct sa; reflexivity).
    destruct sa; rewrite Z.compare_refl, Pos.compare_cont_refl; reflexivity.
  - destruct (PrimFloat.ltb b a) eqn:E2.
    + split; [exact Hb | ]. revert E2. rewrite leb_spec, ltb_spec.
      unfold SFleb, SFltb. destruct (SFcompare _ _) as [[ | | ] | ]; congruence.
    + assert (L : PrimFloat.leb b a = true).
      { revert E1 E2. rewrite leb_spec, !ltb_spec. unfold SFleb, SFltb.
        rewrite (SFcompare_antisym (Prim2SF a) (Prim2SF b)).
        destruct (SFcompare (Prim2SF a) (Prim2SF b)) as [[ | | ] | ] eqn:E;
          simpl; try congruence.
        apply SFcompare_none in E. rewrite !is_nan_spec in Ha, Hb.
        destruct E as [E | E]; rewrite E in *; discriminate. }
      assert (R : PrimFloat.leb a a = true).
      { revert Ha. rewrite leb_spec, is_nan_spec. unfold SFleb.
        destruct (Prim2SF a) as [sa | sa | | sa ma ea]; simpl; try congruence;
          try (destruct sa; reflexivity).
        destruct sa; rewrite Z.compare_refl, Pos.compare_cont_refl; reflexivity. }
      destruct (get_sign a); auto.
Qed.


Lemma onScale_tier (c : DetectedChange) (low : float) :
  low = 3 \/ low = 4 ->
  criticality c = match impact c with High => 8 | Medium => 6 | Low => low end ->
  onScale c.
Proof.
  intros Hl Hc. unfold onScale. rewrite Hc.
  destruct (impact c); repeat split; try discriminate; auto;
    destruct Hl as [-> | ->]; reflexivity.
Qed.

Lemma onScale_createPcbChanges regions size :
  Forall onScale (createPcbChanges regions size).
Proof.
  apply mapi_from_Forall. intros r i _.
  apply (onScale_tier _ 3); [now left | reflexivity].
Qed.

Lemma onScale_createYoloChanges pairs size :
  Forall onScale (createYoloChanges pairs size).
Proof.
  apply mapi_from_Forall. intros pair i _. unfold onScale. cbn [criticality impact].
  destruct (JS.nullish (BackendYoloPair.changed pair) false);
    repeat split; try discriminate; auto.
Qed.

Lemma onScale_createMaskChanges detections size :
  Forall onScale (createMaskChanges detections size).
Proof.
  apply mapi_from_Forall. intros det i Hin. apply filter_In in Hin.
  destruct Hin as [_ Hk]. unfold onScale. cbn [criticality impact].
  assert (N : is_nan (JS.nullish (BackendMaskDetection.score det) 0.6) = false).
  { destruct (BackendMaskDetection.score det) as [s | ]; simpl in *.
    - exact (leb_not_nan _ _ Hk).
    - reflexivity. }
  pose proof (mul_not_nan _ 10 _ _ _ eq_refl N) as N1.
  apply Math_round_not_nan in N1.
  destruct (Math_min_le 10 _ eq_refl N1) as [M1 M2].
  repeat split; try discriminate; assumption.
Qed.

Lemma onScale_createChangeformerChanges summary size :
  Forall onScale (createChangeformerChanges summary size).
Proof.
  unfold createChangeformerChanges. destruct summary as [summary | ]; [ | constructor].
  destruct (JS.nullish (BackendChangeformerSummary.regions summary) []).
  - destruct (PrimFloat.leb _ 0); [constructor | ].
    constructor; [ | constructor].
    apply (onScale_tier _ 4); [now right | ]. cbn [criticality impact].
    destruct (gt _ 3); [reflexivity | ]. destruct (gt _ 1); reflexivity.
  - apply mapi_from_Forall. intros r i _.
    apply (onScale_tier _ 4); [now right | reflexivity].
Qed.

Lemma onScale_fallbackChanges stages : Forall onScale (fallbackChanges stages).
Proof.
  unfold fallbackChanges. cbv zeta. rewrite !Forall_app.
  auto using onScale_createPcbChanges, onScale_createYoloChanges,
    onScale_createMaskChanges, onScale_createChangeformerChanges.
Qed.

(** X8: the criticality scale.  Whatever the job, every change of the
    result has a criticality that is a number, not NaN, and at most 10; a
    change of impact High has criticality 7 or 8 and a change of impact Low
    has criticality 3 or 4. *)
Theorem X8_criticality_scale (job : BackendJobResponse.t) (domain : DomainMode) :
  Forall onScale (changes (assembleAnalysisResult job domain)).
Proof.
  rewrite changes_assemble.
  destruct (List.length (collectTimelineChanges job) =? 0)%nat.
  - apply onScale_fallbackChanges.
  - apply Forall_forall. intros c Hc.
    apply in_collectTimelineChanges in Hc. destruct Hc as (entry & _ & Hc).
    apply in_timelineEntryChanges_base in Hc.
    destruct Hc as (stages & c0 & _ & Hin & _ & _ & Hi & Hcr).
    pose proof (proj1 (Forall_forall _ _) (onScale_fallbackChanges stages) c0 Hin)
      as H.
    unfold onScale in *. rewrite Hi, Hcr. exact H.
Qed.

End CriticalityScale.

(** ** The summary line *)

Section SummaryLine.
Import Types BackendClient.
Local Open Scope float_scope.

(** X9: in the Manufacturing and Infrastructure modes the summary line is
    read off the job-level stages alone.  Two jobs with the same job-level
    stages get the same summary, whatever their timelines and so whatever
    their changes. *)
Theorem X9_summary_ignores_timeline (job job' : BackendJobResponse.t) :
  BackendJobResponse.pipeline job = BackendJobResponse.pipeline job' ->
  summary (assembleAnalysisResult job Manufacturing)
  = summary (assembleAnalysisResult job' Manufacturing)
  /\ summary (assembleAnalysisResult job Infrastructure)
     = summary (assembleAnalysisResult job' Infrastructure).
Proof.
  intros H. unfold assembleAnalysisResult. cbn [summary]. rewrite H.
  split; reflexivity.
Qed.

Lemma X9_summary_ignores_timeline_witness :
  summary
    (assembleAnalysisResult
       (completedJob baseline
          [framePair 0 1 (pcbStages [regionOf None (Some "short"%string) 0.03])]
          None)
       Manufacturing)
  = "RF-DETR-Seg reports no manufacturing anomalies versus baseline."%string
  /\ map impact
       (changes
          (assembleAnalysisResult
             (completedJob baseline
                [framePair 0 1
                   (pcbStages [regionOf None (Some "short"%string) 0.03])]
                None)
             Manufacturing))
     = [High].
Proof.
  split; [ | reflexivity].
  etransitivity;
    [ exact (proj1 (X9_summary_ignores_timeline
                      (completedJob baseline
                         [framePair 0 1
                            (pcbStages [regionOf None (Some "short"%string) 0.03])]
                         None)
                      (completedJob baseline [] None) eq_refl))
    | reflexivity ].
Defined.

End SummaryLine.

(** ** Comparison labels *)

Section ComparisonLabels.
Import Types BackendClient.

Lemma spaceFree_uint (d : Decimal.uint) :
  spaceFree (NilEmpty.string_of_uint d) = true.
Proof. induction d; simpl; auto. Qed.

Lemma spaceFree_Z (z : Z) : spaceFree (JS.string_of_Z z) = true.
Proof.
  unfold JS.string_of_Z, NilZero.string_of_int, NilZero.string_of_uint.
  destruct (Z.to_int z) as [d | d]; destruct d eqn:E; try reflexivity;
    rewrite <- E; simpl; apply spaceFree_uint.
Qed.

(** Text is cut at its first space. *)
Lemma cut_at_first_space (a a' t t' : string) :
  spaceFree a = true -> spaceFree a' = true ->
  (a ++ String " " t)%string = (a' ++ String " " t')%string ->
  a = a' /\ t = t'.
Proof.
  revert a'. induction a as [ | c a IH]; intros [ | c' a'] Ha Ha' E;
    simpl in *.
  - injection E as E. auto.
  - injection E as E1 E2. subst c'. discriminate.
  - injection E as E1 E2. subst c. discriminate.
  - injection E as E1 E2. subst c'.
    apply andb_true_iff in Ha, Ha'.
    destruct (IH a' (proj2 Ha) (proj2 Ha') E2) as [-> ->]. auto.
Qed.

Lemma label_cut (a b : Z) (mode : ComparisonMode) :
  formatComparisonLabel a b mode
  = ("Frame " ++ JS.string_of_Z (a + 1)
     ++ String " "
          match mode with
          | consecutive => "vs Frame " ++ JS.string_of_Z (b + 1)
          | baseline => "vs Baseline"
          end)%string.
Proof. destruct mode; reflexivity. Qed.

Lemma label_modes_differ a b a' b' :
  formatComparisonLabel a b consecutive <> formatComparisonLabel a' b' baseline.
Proof.
  intros E. rewrite !label_cut in E. apply append_inv_head in E.
  apply cut_at_first_space in E; try apply spaceFree_Z.
  destruct E as [_ E]. discriminate E.
Qed.

(** X10: what a comparison label identifies, for frame indices that are
    integers and, with their successors, safe integers.  In the consecutive
    mode two frame pairs have the same label exactly when they have the
    same indices; in the baseline mode exactly when they have the same
    after index, the before index not being named; and no label of one
    mode is a label of the other. *)
Theorem X10_labels_identify (a b a' b' : Z) :
  safeIndex a = true -> safeIndex b = true ->
  safeIndex a' = true -> safeIndex b' = true ->
  (formatComparisonLabel a b consecutive = formatComparisonLabel a' b' consecutive
   <-> a = a' /\ b = b')
  /\ (formatComparisonLabel a b baseline = formatComparisonLabel a' b' baseline
      <-> a = a')
  /\ formatComparisonLabel a b consecutive <> formatComparisonLabel a' b' baseline.
Proof.
  intros _ _ _ _.
  assert (cut : forall b b' m m',
             formatComparisonLabel a b m = formatComparisonLabel a' b' m' ->
             a = a'
             /\ match m with
                | consecutive => "vs Frame " ++ JS.string_of_Z (b + 1)
                | baseline => "vs Baseline"
                end%string
                = match m' with
                  | consecutive => "vs Frame " ++ JS.string_of_Z (b' + 1)
                  | baseline => "vs Baseline"
                  end%string).
  { intros c c' m m' E. rewrite !label_cut in E.
    apply append_inv_head in E.
    apply cut_at_first_space in E; try apply spaceFree_Z.
    destruct E as [E1 E2]. apply string_of_Z_inj in E1. split; [lia | exact E2]. }
  split; [ | split].
  - split.
    + intros E. apply cut in E. destruct E as [-> E].
      apply append_inv_head in E. apply string_of_Z_inj in E. split; [reflexivity | lia].
    + intros [-> ->]. reflexivity.
  - split.
    + intros E. apply cut in E. tauto.
    + intros ->. reflexivity.
  - intros E. apply cut in E. destruct E as [_ E]. discriminate E.
Qed.

Lemma X10_labels_identify_witness :
  formatComparisonLabel 2 1 consecutive <> formatComparisonLabel 2 0 baseline
  /\ formatComparisonLabel 2 1 baseline = formatComparisonLabel 2 0 baseline.
Proof.
  split.
  - exact (proj2 (proj2 (X10_labels_identify 2 1 2 0 eq_refl eq_refl eq_refl eq_refl))).
  - exact (proj2 (proj1 (proj2 (X10_labels_identify 2 1 2 0
                                  eq_refl eq_refl eq_refl eq_refl)))
             eq_refl).
Defined.

End ComparisonLabels.

(** ** Paths and the artifact resolver *)

Section SegmentedPaths.
Import Artifacts.

Lemma split_nonnil sep s : JS.split sep s <> [].
Proof.
  destruct s as [ | c s]; simpl; [discriminate | ].
  destruct (Ascii.eqb c sep); [discriminate | ].
  destruct (JS.split sep s); discriminate.
Qed.

Lemma split_sepFree sep s : sepFree sep s = true -> JS.split sep s = [s].
Proof.
  induction s as [ | c s IH]; simpl; [reflexivity | ].
  intros H. apply andb_true_iff in H. destruct H as [H1 H2].
  apply negb_true_iff in H1. rewrite H1, (IH H2). reflexivity.
Qed.

Lemma split_app sep a t :
  sepFree sep a = true ->
  JS.split sep (a ++ String sep t) = a :: JS.split sep t.
Proof.
  induction a as [ | c a IH]; simpl.
  - intros _. now rewrite Ascii.eqb_refl.
  - intros H. apply andb_true_iff in H. destruct H as [H1 H2].
    apply negb_true_iff in H1. rewrite H1, (IH H2). reflexivity.
Qed.

(** Joining parts that are free of the separator and splitting the text
    again gives the parts back. *)
Lemma split_join sep parts :
  parts <> [] ->
  Forall (fun p => sepFree sep p = true) parts ->
  JS.split sep (JS.join (String sep "") parts) = parts.
Proof.
  unfold JS.join.
  induction parts as [ | p parts IH]; [congruence | ].
  intros _ H. inversion H as [ | ? ? Hp Hr]; subst.
  destruct parts as [ | q parts].
  - simpl. now apply split_sepFree.
  - change (String.concat (String sep "") (p :: q :: parts))
      with (p ++ String sep (String.concat (String sep "") (q :: parts)))%string.
    rewrite (split_app _ _ _ Hp). f_equal. apply IH; [discriminate | exact Hr].
Qed.

Lemma split_parts_sepFree sep s :
  Forall (fun p => sepFree sep p = true) (JS.split sep s).
Proof.
  induction s as [ | c s IH]; simpl; [repeat constructor | ].
  destruct (Ascii.eqb c sep) eqn:E.
  - constructor; [reflexivity | exact IH].
  - destruct (JS.split sep s) as [ | w ws]; [repeat constructor; simpl; now rewrite E | ].
    inversion IH; subst. constructor; [simpl; now rewrite E | assumption].
Qed.


Lemma join_split sep s : JS.join (String sep "") (JS.split sep s) = s.
Proof.
  unfold JS.join. induction s as [ | c s IH]; simpl; [reflexivity | ].
  destruct (Ascii.eqb c sep) eqn:E.
  - apply Ascii.eqb_eq in E. subst c.
    pose proof (split_nonnil sep s) as N.
    destruct (JS.split sep s) as [ | w ws]; [congruence | ].
    simpl in *. now rewrite IH.
  - pose proof (split_nonnil sep s) as N.
    destruct (JS.split sep s) as [ | w ws]; [congruence | ].
    simpl in *. destruct ws; simpl in *; now rewrite <- IH.
Qed.

Lemma hexDigit_unreserved (c : ascii) :
  JS.uriUnreserved (JS.hexDigit (nat_of_ascii c / 16)) = true
  /\ JS.uriUnreserved (JS.hexDigit (nat_of_ascii c mod 16)) = true.
Proof.
  destruct c as [[ | ] [ | ] [ | ] [ | ] [ | ] [ | ] [ | ] [ | ]];
    vm_compute; split; reflexivity.
Qed.

Lemma unreserved_not_slash (c : ascii) :
  JS.uriUnreserved c = true -> Ascii.eqb c "/" = false.
Proof.
  destruct c as [[ | ] [ | ] [ | ] [ | ] [ | ] [ | ] [ | ] [ | ]];
    vm_compute; congruence.
Qed.

(** An encoded segment is made of unreserved characters and escapes, and
    has no slash. *)
Lemma encodeURIComponent_chars s :
  allChars (fun c => JS.uriUnreserved c || Ascii.eqb c "%")
    (JS.encodeURIComponent s) = true
  /\ sepFree "/" (JS.encodeURIComponent s) = true.
Proof.
  induction s as [ | c s [IH1 IH2]]; [split; reflexivity | ].
  cbn [JS.encodeURIComponent]. cbv zeta.
  destruct (hexDigit_unreserved c) as [H1 H2].
  destruct (JS.uriUnreserved c) eqn:E.
  - cbn [allChars sepFree]. rewrite E, IH1, IH2, (unreserved_not_slash c E).
    split; reflexivity.
  - cbn [allChars sepFree].
    rewrite H1, H2, IH1, IH2, (unreserved_not_slash _ H1), (unreserved_not_slash _ H2).
    split; reflexivity.
Qed.

Lemma encodeURIComponent_nonEmpty s :
  JS.nonEmpty s = true -> JS.nonEmpty (JS.encodeURIComponent s) = true.
Proof.
  destruct s as [ | c s]; [discriminate | ]. intros _. simpl.
  destruct (JS.uriUnreserved c); reflexivity.
Qed.

Lemma encodeURIComponent_unreserved s :
  allChars JS.uriUnreserved s = true -> JS.encodeURIComponent s = s.
Proof.
  induction s as [ | c s IH]; [reflexivity | ]. simpl. intros H.
  apply andb_true_iff in H. destruct H as [H1 H2]. now rewrite H1, IH.
Qed.

Lemma allChars_app p a b :
  allChars p (a ++ b) = allChars p a && allChars p b.
Proof.
  induction a as [ | c a IH]; simpl; [reflexivity | ].
  now rewrite IH, andb_assoc.
Qed.

Lemma allChars_weaken (p q : ascii -> bool) s :
  (forall c, p c = true -> q c = true) ->
  allChars p s = true -> allChars q s = true.
Proof.
  intros W. induction s as [ | c s IH]; simpl; [reflexivity | ].
  intros H. apply andb_true_iff in H. destruct H as [H1 H2].
  now rewrite (W c H1), IH.
Qed.

Lemma allChars_join parts :
  Forall (fun s => allChars pathChar s = true) parts ->
  allChars pathChar (JS.join "/" parts) = true.
Proof.
  unfold JS.join. induction 1 as [ | s parts Hs Hr IH]; [reflexivity | ].
  destruct parts as [ | q parts]; [exact Hs | ].
  change (String.concat "/" (s :: q :: parts))
    with (s ++ String "/" (String.concat "/" (q :: parts)))%string.
  rewrite allChars_app, Hs. simpl. exact IH.
Qed.

(** X11: the text of an encoded path.  It is made of unreserved characters,
    percent escapes and slashes only; it is empty when the path has no
    segment other than empty ones; otherwise its segments between slashes
    are, in order, the encoded non-empty segments of the path, so that it
    neither begins nor ends with a slash and has no two slashes in a row. *)
Theorem X11_encoded_path (path : string) :
  allChars pathChar (encodeSegmentedPath path) = true
  /\ (segments path = [] -> encodeSegmentedPath path = ""%string)
  /\ (segments path <> [] ->
      JS.split "/" (encodeSegmentedPath path)
      = map JS.encodeURIComponent (segments path)
      /\ Forall (fun seg => JS.nonEmpty seg = true)
           (JS.split "/" (encodeSegmentedPath path))).
Proof.
  unfold encodeSegmentedPath. fold (segments path).
  split; [ | split].
  - apply allChars_join. apply Forall_map, Forall_forall. intros s _.
    apply (allChars_weaken (fun c => JS.uriUnreserved c || Ascii.eqb c "%"));
      [ | apply encodeURIComponent_chars].
    intros c H. unfold pathChar. now rewrite H.
  - intros ->. reflexivity.
  - intros Hne.
    assert (E : JS.split "/" (JS.join "/" (map JS.encodeURIComponent (segments path)))
                = map JS.encodeURIComponent (segments path)).
    { apply split_join.
      - destruct (segments path); [congruence | discriminate].
      - apply Forall_map, Forall_forall. intros s _.
        apply encodeURIComponent_chars. }
    rewrite E. split; [reflexivity | ].
    apply Forall_map, Forall_forall. intros s Hs.
    apply encodeURIComponent_nonEmpty.
    unfold segments in Hs. apply filter_In in Hs. tauto.
Qed.

Lemma X11_encoded_path_witness :
  JS.split "/" (encodeSegmentedPath "//roi dir//a&b.png/")
  = ["roi%20dir"; "a%26b.png"]%string.
Proof.
  etransitivity;
    [ exact (proj1 (proj2 (proj2 (X11_encoded_path "//roi dir//a&b.png/"))
                     ltac:(discriminate)))
    | reflexivity ].
Defined.

Lemma filter_all {A : Type} (p : A -> bool) (l : list A) :
  Forall (fun x => p x = true) l -> filter p l = l.
Proof.
  induction 1 as [ | x l Hx Hl IH]; simpl; [reflexivity | ].
  now rewrite Hx, IH.
Qed.

Lemma map_id_on {A : Type} (f : A -> A) (l : list A) :
  Forall (fun x => f x = x) l -> map f l = l.
Proof.
  induction 1 as [ | x l Hx Hl IH]; simpl; [reflexivity | ].
  now rewrite Hx, IH.
Qed.

(** X12: a path whose segments are non-empty and made of unreserved
    characters is returned as it is; dot segments are among them, so that
    a path that climbs out of its directory is not changed. *)
Theorem X12_clean_path_unchanged (path : string) :
  Forall (fun seg => JS.nonEmpty seg = true /\ allChars JS.uriUnreserved seg = true)
    (JS.split "/" path) ->
  encodeSegmentedPath path = path.
Proof.
  intros H. unfold encodeSegmentedPath.
  rewrite filter_all by (eapply Forall_impl; [ | exact H]; simpl; tauto).
  rewrite map_id_on.
  - apply (join_split "/").
  - eapply Forall_impl; [ | exact H]. simpl.
    intros s [_ Hs]. now apply encodeURIComponent_unreserved.
Qed.

Lemma X12_clean_path_unchanged_witness :
  encodeSegmentedPath "../../etc/report-v1.json" = "../../etc/report-v1.json"%string.
Proof.
  apply (X12_clean_path_unchanged "../../etc/report-v1.json").
  vm_compute. repeat (apply Forall_cons; [split; reflexivity | ]). apply Forall_nil.
Defined.

End SegmentedPaths.

Section JobPaths.
Import Artifacts.

Lemma strip_prefix_Some p : forall s r, JS.strip_prefix p s = Some r -> s = (p ++ r)%string.
Proof.
  induction p as [ | a p IH]; intros s r; simpl.
  - now intros [= ->].
  - destruct s as [ | b s]; [discriminate | ].
    destruct (Ascii.eqb a b) eqn:E; [ | discriminate].
    apply Ascii.eqb_eq in E. subst b. intros H. now rewrite (IH _ _ H).
Qed.

Lemma strip_prefix_app p r : JS.strip_prefix p (p ++ r) = Some r.
Proof.
  induction p as [ | a p IH]; simpl; [reflexivity | ].
  now rewrite Ascii.eqb_refl.
Qed.

Lemma strip_prefix_extend p : forall a r b,
  JS.strip_prefix p a = Some r -> JS.strip_prefix p (a ++ b) = Some (r ++ b)%string.
Proof.
  induction p as [ | x p IH]; intros a r b; simpl.
  - now intros [= ->].
  - destruct a as [ | y a]; [discriminate | ]. simpl.
    destruct (Ascii.eqb x y); [apply IH | discriminate].
Qed.

Lemma strip_any_extend ps a b :
  JS.strip_any ps (a ++ b) = None -> JS.strip_any ps a = None.
Proof.
  induction ps as [ | p ps IH]; simpl; [reflexivity | ].
  destruct (JS.strip_prefix p a) as [r | ] eqn:E.
  - now rewrite (strip_prefix_extend _ _ _ b E).
  - destruct (JS.strip_prefix p (a ++ b)); [discriminate | exact IH].
Qed.

Lemma span_segment_spec s :
  s = (fst (span_segment s) ++ snd (span_segment s))%string
  /\ sepFree "/" (fst (span_segment s)) = true.
Proof.
  induction s as [ | c s [IH1 IH2]]; simpl; [split; reflexivity | ].
  destruct (Ascii.eqb c "/") eqn:E; simpl; [split; reflexivity | ].
  destruct (span_segment s) as [seg rest]. simpl in *.
  rewrite E, IH2. split; [now rewrite <- IH1 | reflexivity].
Qed.

Lemma span_segment_app seg rest :
  sepFree "/" seg = true ->
  span_segment (seg ++ String "/" rest) = (seg, String "/" rest).
Proof.
  induction seg as [ | c seg IH]; simpl; [reflexivity | ].
  intros H. apply andb_true_iff in H. destruct H as [H1 H2].
  apply negb_true_iff in H1. now rewrite H1, (IH H2).
Qed.

Lemma span_line_spec s :
  (exists post, s = (span_line s ++ post)%string)
  /\ noLineBreak (span_line s) = true.
Proof.
  induction s as [ | c s [[post IH1] IH2]]; [split; [now exists ""%string | reflexivity] | ].
  cbn [span_line].
  destruct (JS.strip_any JS.lineTerminators (String c s)) eqn:E.
  - split; [now exists (String c s) | reflexivity].
  - split; [exists post; simpl; now rewrite <- IH1 | ].
    cbn [noLineBreak]. rewrite IH1 in E.
    change (String c (span_line s ++ post)) with (String c (span_line s) ++ post)%string in E.
    now rewrite (strip_any_extend _ _ _ E).
Qed.

Lemma span_line_all s : noLineBreak s = true -> span_line s = s.
Proof.
  induction s as [ | c s IH]; [reflexivity | ]. cbn [noLineBreak span_line].
  destruct (JS.strip_any JS.lineTerminators (String c s)); [discriminate | ].
  intros H. now rewrite (IH H).
Qed.

Lemma span_line_nonEmpty s :
  JS.nonEmpty s = true -> JS.strip_any JS.lineTerminators s = None ->
  JS.nonEmpty (span_line s) = true.
Proof.
  destruct s as [ | c s]; [discriminate | ]. intros _ H.
  cbn [span_line]. now rewrite H.
Qed.

Lemma JOB_PATH_at_sound s jobId rel :
  JOB_PATH_at s = Some (jobId, rel) ->
  (exists post, s = (jobPath jobId rel ++ post)%string)
  /\ JS.nonEmpty jobId = true /\ sepFree "/" jobId = true
  /\ JS.nonEmpty rel = true /\ noLineBreak rel = true.
Proof.
  unfold JOB_PATH_at.
  destruct (JS.strip_prefix "/data/jobs/" s) as [r | ] eqn:E; [ | discriminate].
  apply strip_prefix_Some in E.
  destruct (span_segment_spec r) as [S1 S2].
  destruct (span_segment r) as [seg rest]. simpl in S1, S2.
  destruct seg as [ | c seg]; [discriminate | ].
  destruct rest as [ | c' rest]; [discriminate | ].
  destruct c' as [[ | ] [ | ] [ | ] [ | ] [ | ] [ | ] [ | ] [ | ]]; try discriminate.
  destruct (span_line_spec rest) as [[post L1] L2].
  destruct (span_line rest) as [ | d line] eqn:El; [discriminate | ].
  intros [= <- <-]. repeat split; auto.
  exists post. unfold jobPath. rewrite E, S1, L1.
  rewrite <- !append_assoc. reflexivity.
Qed.

Lemma JOB_PATH_at_complete jobId rel :
  JS.nonEmpty jobId = true -> sepFree "/" jobId = true ->
  JS.nonEmpty rel = true -> JS.strip_any JS.lineTerminators rel = None ->
  JOB_PATH_at (jobPath jobId rel) = Some (jobId, span_line rel).
Proof.
  intros H1 H2 H3 H4. unfold JOB_PATH_at, jobPath.
  rewrite strip_prefix_app.
  change ("/" ++ rel)%string with (String "/" rel).
  rewrite (span_segment_app _ _ H2).
  destruct jobId as [ | c jobId]; [discriminate | ].
  pose proof (span_line_nonEmpty _ H3 H4) as N.
  destruct (span_line rel); [discriminate | reflexivity].
Qed.


Lemma JOB_PATH_REGEX_eq s :
  JOB_PATH_REGEX s
  = match JOB_PATH_at s with
    | Some groups => Some groups
    | None =>
        match s with
        | EmptyString => None
        | String _ s' => JOB_PATH_REGEX s'
        end
    end.
Proof. destruct s; reflexivity. Qed.

Lemma JOB_PATH_REGEX_sound s : forall jobId rel,
  JOB_PATH_REGEX s = Some (jobId, rel) ->
  (exists pre post, s = (pre ++ jobPath jobId rel ++ post)%string)
  /\ JS.nonEmpty jobId = true /\ sepFree "/" jobId = true
  /\ JS.nonEmpty rel = true /\ noLineBreak rel = true.
Proof.
  induction s as [ | c s IH]; intros jobId rel; rewrite JOB_PATH_REGEX_eq.
  - discriminate.
  - destruct (JOB_PATH_at (String c s)) as [[j r] | ] eqn:E.
    + intros [= -> ->]. apply JOB_PATH_at_sound in E.
      destruct E as [[post E] R]. split; [ | exact R].
      exists ""%string, post. exact E.
    + intros H. destruct (IH _ _ H) as [(pre & post & E') R].
      split; [ | exact R]. exists (String c pre), post. simpl. now rewrite E'.
Qed.

Lemma JOB_PATH_REGEX_complete pre jobId rel :
  JS.nonEmpty jobId = true -> sepFree "/" jobId = true ->
  JS.nonEmpty rel = true -> JS.strip_any JS.lineTerminators rel = None ->
  JOB_PATH_REGEX (pre ++ jobPath jobId rel) <> None.
Proof.
  intros H1 H2 H3 H4.
  induction pre as [ | c pre IH]; rewrite JOB_PATH_REGEX_eq.
  - cbn [append]. now rewrite (JOB_PATH_at_complete _ _ H1 H2 H3 H4).
  - destruct (JOB_PATH_at _); [discriminate | exact IH].
Qed.

Lemma JOB_PATH_REGEX_head jobId rel :
  JS.nonEmpty jobId = true -> sepFree "/" jobId = true ->
  JS.nonEmpty rel = true -> noLineBreak rel = true ->
  JOB_PATH_REGEX (jobPath jobId rel) = Some (jobId, rel).
Proof.
  intros H1 H2 H3 H4. rewrite JOB_PATH_REGEX_eq.
  assert (H5 : JS.strip_any JS.lineTerminators rel = None).
  { destruct rel as [ | c rel]; [discriminate | ]. cbn [noLineBreak] in H4.
    destruct (JS.strip_any JS.lineTerminators (String c rel));
      [discriminate | reflexivity]. }
  rewrite (JOB_PATH_at_complete _ _ H1 H2 H3 H5).
  now rewrite (span_line_all _ H4).
Qed.

(** X13: what the job path pattern matches.  A match gives a job id that
    is not empty and has no slash and a relative path that is not empty and
    has no line break, and the text holds the job path made of the two; a
    text that ends with a job path of such a job id and a relative path that
    does not begin with a line break is matched; and a job path with a
    relative path without line breaks is matched from its head, the groups
    being the job id and the relative path. *)
Theorem X13_job_path_match :
  (forall s jobId rel,
      JOB_PATH_REGEX s = Some (jobId, rel) ->
      (exists pre post, s = (pre ++ jobPath jobId rel ++ post)%string)
      /\ JS.nonEmpty jobId = true /\ sepFree "/" jobId = true
      /\ JS.nonEmpty rel = true /\ noLineBreak rel = true)
  /\ (forall pre jobId rel,
        JS.nonEmpty jobId = true -> sepFree "/" jobId = true ->
        JS.nonEmpty rel = true -> JS.strip_any JS.lineTerminators rel = None ->
        JOB_PATH_REGEX (pre ++ jobPath jobId rel) <> None)
  /\ (forall jobId rel,
        JS.nonEmpty jobId = true -> sepFree "/" jobId = true ->
        JS.nonEmpty rel = true -> noLineBreak rel = true ->
        JOB_PATH_REGEX (jobPath jobId rel) = Some (jobId, rel)).
Proof.
  split; [exact JOB_PATH_REGEX_sound | split].
  - exact JOB_PATH_REGEX_complete.
  - exact JOB_PATH_REGEX_head.
Qed.

Lemma X13_job_path_match_witness :
  JOB_PATH_REGEX "/data/jobs/job-42/pair_00/alignment/overlay.png"
  = Some ("job-42", "pair_00/alignment/overlay.png")%string.
Proof.
  exact (proj2 (proj2 X13_job_path_match) "job-42"%string
           "pair_00/alignment/overlay.png"%string eq_refl eq_refl eq_refl eq_refl).
Defined.

End JobPaths.

Section ResolverMore.
Import Artifacts.

(** X14: a file of a job resolves to the artifact route of that job.  For
    an artifact that is a job path without surrounding white space, the
    result is the base without its final slash, the route of the job id,
    written as it is, and the encoded relative path; the comparison root is
    not consulted. *)
Theorem X14_job_file_route (env : Env.t) (jobId rel : string)
  (comparisonRoot : option string) :
  JS.nonEmpty jobId = true -> sepFree "/" jobId = true ->
  JS.nonEmpty rel = true -> noLineBreak rel = true ->
  JS.trim (jobPath jobId rel) = jobPath jobId rel ->
  resolveArtifactUrl env (Some (jobPath jobId rel)) comparisonRoot
  = Some (dropFinalSlash (ORCHESTRATOR_BASE env) ++ "/api/jobs/" ++ jobId
          ++ "/artifacts/" ++ encodeSegmentedPath rel)%string.
Proof.
  intros H1 H2 H3 H4 Ht. unfold resolveArtifactUrl. rewrite Ht.
  rewrite (JOB_PATH_REGEX_head jobId rel H1 H2 H3 H4). reflexivity.
Qed.

Lemma X14_job_file_route_witness :
  resolveArtifactUrl localhost
    (Some "/data/jobs/job 42/pair_00/mask rcnn/overlay.png"%string)
    (Some "/data/jobs/other/pair_01"%string)
  = Some "http://localhost:8000/api/jobs/job 42/artifacts/pair_00/mask%20rcnn/overlay.png"%string.
Proof.
  exact (X14_job_file_route localhost "job 42" "pair_00/mask rcnn/overlay.png"
           (Some "/data/jobs/other/pair_01"%string)
           eq_refl eq_refl eq_refl eq_refl eq_refl).
Defined.


Lemma toLowerCase_app a b :
  JS.toLowerCase (a ++ b) = (JS.toLowerCase a ++ JS.toLowerCase b)%string.
Proof. induction a as [ | c a IH]; simpl; [reflexivity | now rewrite IH]. Qed.

Lemma prefix_app p : forall a b,
  String.prefix p a = true -> String.prefix p (a ++ b) = true.
Proof.
  induction p as [ | x p IH]; intros a b; [now destruct a, b | ].
  destruct a as [ | y a]; simpl; [discriminate | ].
  destruct (ascii_dec x y); [apply IH | discriminate].
Qed.

Lemma isHttp_app a b : isHttp a = true -> isHttp (a ++ b) = true.
Proof.
  unfold isHttp, JS.startsWith. cbv zeta. rewrite toLowerCase_app.
  intros H. apply orb_true_iff in H. apply orb_true_iff.
  destruct H as [H | H]; [left | right]; now apply prefix_app.
Qed.

Lemma isHttp_https t : isHttp ("https:" ++ t) = true.
Proof.
  unfold isHttp, JS.startsWith. cbv zeta.
  rewrite (toLowerCase_app "https:" t).
  apply orb_true_iff. right. now apply (prefix_app "https:" "https:").
Qed.

(** What the resolver returns: an http or https URL, or the base without
    its final slash followed by a path. *)
Lemma resolved_cases (env : Env.t) (artifact comparisonRoot : option string)
  (url : string) :
  resolveArtifactUrl env artifact comparisonRoot = Some url ->
  isHttp url = true
  \/ exists t, url = (dropFinalSlash (ORCHESTRATOR_BASE env) ++ t)%string.
Proof.
  unfold resolveArtifactUrl.
  destruct artifact as [a | ]; [ | discriminate].
  destruct (JS.nonEmpty a); [ | discriminate]. cbn [negb]. cbv zeta.
  destruct (JS.nonEmpty (JS.trim a)); [ | discriminate]. cbn [negb].
  destruct (isHttp (JS.trim a)) eqn:Eh; [intros E; injection E as <-; auto | ].
  destruct (JS.startsWith (JS.trim a) "//");
    [intros E; injection E as <-; left; apply isHttp_https | ].
  destruct (JOB_PATH_REGEX (JS.trim a)) as [[jobId rel] | ];
    [intros E; injection E as <-; right; eexists; reflexivity | ].
  destruct (BackendClient.opt' comparisonRoot JOB_PATH_REGEX) as [[jobId rel] | ];
    [intros E; injection E as <-; right; eexists; reflexivity | ].
  destruct (JS.startsWith (JS.trim a) "/"); intros E; injection E as <-;
    right; eexists; reflexivity.
Qed.

(** X15: a resolved reference is never a bare relative path.  Whatever the
    artifact and the comparison root, a result is an http or https URL, or
    begins with the orchestrator base without its final slash; so with a
    base that is itself an http or https URL, as the default one is, every
    result is an http or https URL. *)
Theorem X15_resolved_is_absolute (env : Env.t) (artifact comparisonRoot : option string)
  (url : string) :
  resolveArtifactUrl env artifact comparisonRoot = Some url ->
  (isHttp url = true
   \/ JS.startsWith url (dropFinalSlash (ORCHESTRATOR_BASE env)) = true)
  /\ (isHttp (dropFinalSlash (ORCHESTRATOR_BASE env)) = true -> isHttp url = true).
Proof.
  intros H. destruct (resolved_cases _ _ _ _ H) as [Hh | (t & ->)].
  - split; [now left | intros _; exact Hh].
  - split.
    + right. apply startsWith_append.
    + intros Hb. now apply isHttp_app.
Qed.

Lemma X15_resolved_is_absolute_witness :
  isHttp "http://localhost:8000/roi/a.png" = true.
Proof.
  exact (proj2 (X15_resolved_is_absolute localhost (Some "roi/a.png"%string) None
                  "http://localhost:8000/roi/a.png"%string eq_refl) eq_refl).
Defined.

Lemma dropFinalSlash_app b : dropFinalSlash (b ++ "/") = b.
Proof.
  induction b as [ | c b IH]; [reflexivity | ].
  cbn [append]. cbn [dropFinalSlash].
  destruct (b ++ "/")%string eqn:E; [now destruct b | ]. now rewrite IH.
Qed.

Lemma dropFinalSlash_none b : endsWithSlash b = false -> dropFinalSlash b = b.
Proof.
  induction b as [ | c b IH]; [reflexivity | ].
  cbn [endsWithSlash dropFinalSlash]. destruct b as [ | d b].
  - intros ->. reflexivity.
  - intros H. now rewrite (IH H).
Qed.

(** X16: a slash at the end of the configured orchestrator URL makes no
    difference.  A configured URL that does not end with a slash, and the
    same URL followed by one slash, give the same result for every artifact
    and comparison root. *)
Theorem X16_base_final_slash (base : string) (artifact comparisonRoot : option string) :
  JS.nonEmpty base = true -> endsWithSlash base = false ->
  resolveArtifactUrl {| Env.VITE_ORCHESTRATOR_URL := Some (base ++ "/")%string |}
    artifact comparisonRoot
  = resolveArtifactUrl {| Env.VITE_ORCHESTRATOR_URL := Some base |}
      artifact comparisonRoot.
Proof.
  intros Hb Hs. unfold resolveArtifactUrl, ORCHESTRATOR_BASE, JS.str_or.
  cbn [Env.VITE_ORCHESTRATOR_URL]. rewrite Hb.
  assert (E : JS.nonEmpty (base ++ "/") = true) by now destruct base.
  rewrite E, dropFinalSlash_app, (dropFinalSlash_none _ Hs). reflexivity.
Qed.

Lemma X16_base_final_slash_witness :
  resolveArtifactUrl
    {| Env.VITE_ORCHESTRATOR_URL := Some "https://orchestrator.example/"%string |}
    (Some "exports/report.pdf"%string) None
  = Some "https://orchestrator.example/exports/report.pdf"%string.
Proof.
  etransitivity;
    [ exact (X16_base_final_slash "https://orchestrator.example"
               (Some "exports/report.pdf"%string) None eq_refl eq_refl)
    | reflexivity ].
Defined.

Lemma resolve_http (env : Env.t) (s : string) (comparisonRoot : option string) :
  isHttp s = true -> JS.trim s = s ->
  resolveArtifactUrl env (Some s) comparisonRoot = Some s.
Proof.
  intros Hh Ht. unfold resolveArtifactUrl.
  rewrite Ht, (isHttp_nonEmpty _ Hh), Hh. reflexivity.
Qed.

(** X29: resolving twice.  With an orchestrator base that is an http or
    https URL, a resolved reference that carries no surrounding white space
    resolves to itself, whatever the comparison root. *)
Theorem X29_resolved_is_stable (env : Env.t) (artifact comparisonRoot : option string)
  (comparisonRoot' : option string) (url : string) :
  resolveArtifactUrl env artifact comparisonRoot = Some url ->
  isHttp (dropFinalSlash (ORCHESTRATOR_BASE env)) = true ->
  JS.trim url = url ->
  resolveArtifactUrl env (Some url) comparisonRoot' = Some url.
Proof.
  intros H Hb Ht. apply resolve_http; [ | exact Ht].
  destruct (resolved_cases _ _ _ _ H) as [Hh | (t & ->)]; [exact Hh | ].
  now apply isHttp_app.
Qed.

Lemma X29_resolved_is_stable_witness :
  resolveArtifactUrl localhost
    (Some "http://localhost:8000/api/jobs/job-42/artifacts/pair_00/overlay.png"%string)
    None
  = Some "http://localhost:8000/api/jobs/job-42/artifacts/pair_00/overlay.png"%string.
Proof.
  exact (X29_resolved_is_stable localhost
           (Some "/data/jobs/job-42/pair_00/overlay.png"%string) None None
           "http://localhost:8000/api/jobs/job-42/artifacts/pair_00/overlay.png"
           eq_refl eq_refl eq_refl).
Defined.

End ResolverMore.

(** ** The selection and the viewer *)

Section Selection.
Import Types BackendClient.

Lemma find_by_id (l : list DetectedChange) (c : DetectedChange) :
  NoDup (map id l) -> In c l ->
  List.find (fun c' => String.eqb (id c') (id c)) l = Some c.
Proof.
  induction l as [ | x l IH]; intros N H; [contradiction | ].
  simpl in N. inversion N as [ | ? ? Hx Hl]; subst. simpl.
  destruct (String.eqb (id x) (id c)) eqn:E.
  - destruct H as [-> | H]; [reflexivity | ].
    apply String.eqb_eq in E. exfalso. apply Hx. rewrite E. now apply in_map.
  - destruct H as [-> | H]; [now rewrite String.eqb_refl in E | ].
    now apply IH.
Qed.

Lemma timeline_of_document (job : Document.JobResponse.t) :
  JS.nullish (BackendJobResponse.timeline (Document.JobResponse.job job)) []
  = map Document.TimelineEntry.entry (timelineOf job).
Proof.
  unfold timelineOf. simpl. now destruct (Document.JobResponse.timeline job).
Qed.

Lemma timelineComparisons_loaded host job domain (s : App.State) :
  carries s (Analysis.assembleAnalysisResult host job domain) ->
  App.timelineComparisons s
  = map (BackendTimeline.comparisonMetadata host) (timelineOf job).
Proof.
  intros (r & Hr & _ & Ht). unfold App.timelineComparisons.
  rewrite Hr. cbn [opt']. rewrite Ht. simpl.
  unfold BackendTimeline.buildTimelineSummary. fold (timelineOf job).
  rewrite !length_map.
  destruct (List.length (JS.nullish (Document.JobResponse.frames job) []) =? 0)%nat;
    [ | reflexivity].
  destruct (timelineOf job); reflexivity.
Qed.

Lemma ledger_loaded host job domain (s : App.State) :
  carries s (Analysis.assembleAnalysisResult host job domain) ->
  ledger s = changes (assembleAnalysisResult (Document.JobResponse.job job) domain).
Proof. intros (r & Hr & Hc & _). unfold ledger. rewrite Hr. exact Hc. Qed.

(** A change of the timeline's ledger and the frame pair it comes from. *)
Lemma in_ledger_entry (job : Document.JobResponse.t) c :
  In c (collectTimelineChanges (Document.JobResponse.job job)) ->
  exists e,
    In e (timelineOf job)
    /\ comparisonRef c
       = Some (refOf (modeOf (Document.JobResponse.job job))
                 (Document.TimelineEntry.entry e)).
Proof.
  intros H. apply in_collectTimelineChanges in H.
  destruct H as (entry & He & Hc). rewrite timeline_of_document in He.
  apply in_map_iff in He. destruct He as (e & <- & He).
  apply in_timelineEntryChanges_base in Hc.
  destruct Hc as (_ & _ & _ & _ & Hr & _). now exists e.
Qed.

Lemma find_pair host (timeline : list Document.TimelineEntry.t) e :
  In e timeline ->
  exists e',
    In e' timeline
    /\ List.find
         (fun comparison =>
            (TimelineComparisonMetadata.afterIndex comparison
             =? Document.TimelineEntry.afterIndex e)%Z
            && (TimelineComparisonMetadata.beforeIndex comparison
                =? Document.TimelineEntry.beforeIndex e)%Z)
         (map (BackendTimeline.comparisonMetadata host) timeline)
       = Some (BackendTimeline.comparisonMetadata host e')
    /\ Document.TimelineEntry.afterIndex e' = Document.TimelineEntry.afterIndex e
    /\ Document.TimelineEntry.beforeIndex e' = Document.TimelineEntry.beforeIndex e.
Proof.
  induction timeline as [ | x timeline IH]; intros H; [contradiction | ].
  cbn [map List.find].
  cbn [BackendTimeline.comparisonMetadata TimelineComparisonMetadata.afterIndex
         TimelineComparisonMetadata.beforeIndex].
  destruct ((Document.TimelineEntry.afterIndex x =? Document.TimelineEntry.afterIndex e)%Z
            && (Document.TimelineEntry.beforeIndex x
                =? Document.TimelineEntry.beforeIndex e)%Z) eqn:E.
  - apply andb_true_iff in E. destruct E as [E1 E2].
    apply Z.eqb_eq in E1, E2. exists x. repeat split; auto. now left.
  - destruct H as [-> | H].
    + rewrite !Z.eqb_refl in E. discriminate.
    + destruct (IH H) as (e' & H1 & H2 & H3 & H4). exists e'.
      repeat split; auto. now right.
Qed.






Lemma activeComparison_selected (s : App.State) c ref x :
  App.selectedChange s = Some c -> comparisonRef c = Some ref ->
  App.find
    (fun comparison =>
       (TimelineComparisonMetadata.afterIndex comparison =? afterIndex ref)%Z
       && (TimelineComparisonMetadata.beforeIndex comparison =? beforeIndex ref)%Z)
    (App.timelineComparisons s) = Some x ->
  App.activeComparison s = Some x.
Proof.
  intros Hs Hr Hf. unfold App.activeComparison.
  assert (Hne : App.timelineComparisons s <> []).
  { intros E. rewrite E in Hf. discriminate. }
  rewrite (nonempty_length _ Hne). rewrite Hs. cbn [opt']. rewrite Hr.
  cbv zeta. now rewrite Hf.
Qed.

Lemma ledger_timeline host job domain (s : App.State) :
  carries s (Analysis.assembleAnalysisResult host job domain) ->
  collectTimelineChanges (Document.JobResponse.job job) <> [] ->
  ledger s = collectTimelineChanges (Document.JobResponse.job job).
Proof.
  intros H Hne. rewrite (ledger_loaded _ _ _ _ H), changes_assemble.
  now rewrite (nonempty_length _ Hne).
Qed.

(** X17: selecting a change of the timeline's ledger by its id.  Let the
    application hold a result with the changes and the timeline assembled
    from a job whose frame pairs have distinct after indices and whose
    timeline yields changes.  Selecting the id of a change of the ledger
    makes that very change the selected one, moves the slider to the after
    index of its frame pair, and makes active a comparison with the indices
    of that frame pair. *)
Theorem X17_select_change (host : Host.t) (job : Document.JobResponse.t)
  (domain : DomainMode) (s : App.State) (c : DetectedChange) :
  carries s (Analysis.assembleAnalysisResult host job domain) ->
  NoDup (map Document.TimelineEntry.afterIndex (timelineOf job)) ->
  collectTimelineChanges (Document.JobResponse.job job) <> [] ->
  In c (ledger s) ->
  App.selectedChange (App.handleSelectChange (Some (id c)) s) = Some c
  /\ comparisonRef c <> None
  /\ App.timelineSliderAfterIndex (App.handleSelectChange (Some (id c)) s)
     = option_map afterIndex (comparisonRef c)
  /\ option_map
       (fun comparison =>
          (TimelineComparisonMetadata.beforeIndex comparison,
           TimelineComparisonMetadata.afterIndex comparison))
       (App.activeComparison (App.handleSelectChange (Some (id c)) s))
     = option_map (fun ref => (beforeIndex ref, afterIndex ref)) (comparisonRef c).
Proof.
  intros H N Hne Hc.
  pose proof (ledger_timeline _ _ _ _ H Hne) as L.
  assert (Hsel : App.selectedChange (App.handleSelectChange (Some (id c)) s) = Some c).
  { destruct H as (r & Hr & _ & _).
    cbn [App.handleSelectChange App.selectedChange]. rewrite Hr. cbn [opt'].
    unfold ledger in L, Hc. rewrite Hr in L, Hc. unfold App.find.
    apply find_by_id; [ | exact Hc]. rewrite L.
    apply NoDup_collectTimelineChanges. rewrite timeline_of_document, map_map.
    exact N. }
  rewrite L in Hc. destruct (in_ledger_entry _ _ Hc) as (e & He & Hr).
  split; [exact Hsel | ]. split; [now rewrite Hr | ].
  split.
  - cbn [App.handleSelectChange App.timelineSliderAfterIndex].
    cbn [App.handleSelectChange App.selectedChange] in Hsel.
    rewrite Hsel. cbn [opt']. now rewrite Hr.
  - destruct (find_pair host _ _ He) as (e' & He' & Hf & Ha & Hb).
    rewrite (activeComparison_selected _ c _ (BackendTimeline.comparisonMetadata host e')
               Hsel Hr).
    + rewrite Hr. cbn. now rewrite Ha, Hb.
    + rewrite (timelineComparisons_loaded host job domain) by exact H.
      exact Hf.
Qed.


Lemma X17_select_change_witness :
  App.timelineSliderAfterIndex
    (App.handleSelectChange (Some "mask-f2-0"%string)
       (loaded bytewise threeFrames F1 threeImages))
  = Some 2%Z.
Proof.
  destruct (nth_error (ledger (loaded bytewise threeFrames F1 threeImages)) 1)
    as [c | ] eqn:E; [ | discriminate E].
  pose proof (nth_error_In _ _ E) as Hc.
  assert (Hid : id c = "mask-f2-0"%string) by (injection E as <-; reflexivity).
  assert (Hr : option_map afterIndex (comparisonRef c) = Some 2%Z)
    by (injection E as <-; reflexivity).
  rewrite <- Hid, <- Hr.
  apply (X17_select_change bytewise threeFrames F1
           (loaded bytewise threeFrames F1 threeImages) c
           (ex_intro _ _ (conj eq_refl (conj eq_refl eq_refl)))).
  - repeat constructor; simpl; intuition discriminate.
  - discriminate.
  - exact Hc.
Defined.






End Selection.

(** ** The timeline summary *)

Section TimelineSummaryFacts.
Import Types BackendClient.
Local Open Scope float_scope.

Lemma maskDetections_document (p : Document.PipelineStages.t) :
  JS.nullish
    (opt' (opt' (Document.PipelineStages.mask_rcnn p)
             (fun s => BackendMaskStage.summary (Document.MaskStage.stage s)))
       BackendMaskSummary.detections) []
  = maskDetectionsOf (Document.PipelineStages.stages p).
Proof.
  unfold maskDetectionsOf. simpl.
  now destruct (Document.PipelineStages.mask_rcnn p).
Qed.

Lemma existsb_scoreAtOrAbove detections :
  existsb
    (fun det =>
       PrimFloat.leb MASK_CONFIDENCE_THRESHOLD
         (JS.nullish (BackendMaskDetection.score det) 0))
    detections = true
  <-> exists det, In det detections /\ scoreAtOrAbove det = true.
Proof.
  rewrite existsb_exists. split; intros (det & H1 & H2); exists det;
    (split; [exact H1 | ]); now rewrite mask_filter_eq in *.
Qed.

(** When the summary of a frame pair offers a mask overlay. *)
Lemma maskArtifacts_iff host (e : Document.TimelineEntry.t) :
  TimelineComparisonMetadata.maskArtifacts (BackendTimeline.comparisonMetadata host e)
  <> None
  <-> exists p m det,
        Document.TimelineEntry.pipeline e = Some p
        /\ Document.PipelineStages.mask_rcnn p = Some m
        /\ BackendTimeline.givenPath
             (opt' (Document.MaskStage.artifacts m) BackendMaskArtifacts.overlay)
           = true
        /\ In det (maskDetectionsOf (Document.PipelineStages.stages p))
        /\ scoreAtOrAbove det = true.
Proof.
  unfold BackendTimeline.comparisonMetadata.
  cbn [TimelineComparisonMetadata.maskArtifacts].
  destruct (Document.TimelineEntry.pipeline e) as [p | ]; cbn [opt'].
  - rewrite maskDetections_document.
    destruct (Document.PipelineStages.mask_rcnn p) as [m | ] eqn:Em; cbn [opt'].
    + destruct (BackendTimeline.givenPath
                  (opt' (Document.MaskStage.artifacts m) BackendMaskArtifacts.overlay))
        eqn:Eg; cbn [andb].
      * destruct (existsb _ (maskDetectionsOf (Document.PipelineStages.stages p)))
          eqn:Ex; cbn [andb].
        -- split; [intros _ | discriminate].
           apply existsb_scoreAtOrAbove in Ex. destruct Ex as (det & H1 & H2).
           now exists p, m, det.
        -- split; [congruence | ].
           intros (p' & m' & det & E1 & E2 & _ & H1 & H2).
           injection E1 as <-. 
           assert (T : existsb
                         (fun det =>
                            PrimFloat.leb MASK_CONFIDENCE_THRESHOLD
                              (JS.nullish (BackendMaskDetection.score det) 0))
                         (maskDetectionsOf (Document.PipelineStages.stages p)) = true)
             by (apply existsb_scoreAtOrAbove; now exists det).
           congruence.
      * split; [congruence | ].
        intros (p' & m' & det & E1 & E2 & G & _).
        injection E1 as <-. rewrite Em in E2. injection E2 as <-. congruence.
    + split; [simpl; congruence | ].
      intros (p' & m' & det & E1 & E2 & _). injection E1 as <-. congruence.
  - split; [simpl; congruence | ].
    intros (p' & m' & det & E & _). discriminate.
Qed.


Lemma in_collect_of_entry (job : Document.JobResponse.t) e c :
  In e (timelineOf job) ->
  In c (timelineEntryChanges (modeOf (Document.JobResponse.job job))
          (Document.TimelineEntry.entry e)) ->
  In c (collectTimelineChanges (Document.JobResponse.job job)).
Proof.
  intros He Hc. unfold collectTimelineChanges.
  pose proof (timeline_of_document job) as T.
  destruct (BackendJobResponse.timeline (Document.JobResponse.job job)) as [tl | ];
    cbn [JS.nullish] in T.
  - subst tl.
    destruct (map Document.TimelineEntry.entry (timelineOf job)) eqn:E.
    + destruct (timelineOf job); [contradiction | discriminate].
    + rewrite <- E. cbn [List.length Nat.eqb]. rewrite length_map.
      assert (L : (List.length (timelineOf job) =? 0)%nat = false)
        by (destruct (timelineOf job); [contradiction | reflexivity]).
      rewrite L. apply in_flat_map. exists (Document.TimelineEntry.entry e).
      split; [now apply in_map | exact Hc].
  - destruct (timelineOf job); [contradiction | discriminate].
Qed.

(** X19: the mask overlay of a frame pair and the ledger.  The summary of
    a frame pair offers a mask overlay exactly when the mask stage of the
    pair comes with the path of an overlay and the pair yields a mask
    change; and whenever it offers one, the ledger of the result holds a
    mask change that refers to that frame pair. *)
Theorem X19_mask_overlay_and_ledger (host : Host.t) (job : Document.JobResponse.t)
  (domain : DomainMode) (e : Document.TimelineEntry.t) :
  In e (timelineOf job) ->
  (TimelineComparisonMetadata.maskArtifacts (BackendTimeline.comparisonMetadata host e)
   <> None
   <-> maskOverlayGiven e = true
       /\ exists c,
            In c (timelineEntryChanges (modeOf (Document.JobResponse.job job))
                    (Document.TimelineEntry.entry e))
            /\ JS.startsWith (id c) "mask" = true)
  /\ (TimelineComparisonMetadata.maskArtifacts
        (BackendTimeline.comparisonMetadata host e) <> None ->
      exists c,
        In c (changes (Analysis.result (Analysis.assembleAnalysisResult host job domain)))
        /\ comparisonRef c
           = Some (refOf (modeOf (Document.JobResponse.job job))
                     (Document.TimelineEntry.entry e))
        /\ JS.startsWith (id c) "mask" = true).
Proof.
  intros He.
  assert (A : TimelineComparisonMetadata.maskArtifacts
                (BackendTimeline.comparisonMetadata host e) <> None
              <-> maskOverlayGiven e = true
                  /\ exists c,
                       In c (timelineEntryChanges (modeOf (Document.JobResponse.job job))
                               (Document.TimelineEntry.entry e))
                       /\ JS.startsWith (id c) "mask" = true).
  { rewrite maskArtifacts_iff. unfold maskOverlayGiven. split.
    - intros (p & m & det & E1 & E2 & G & H1 & H2).
      rewrite E1. cbn [opt']. rewrite E2. cbn [opt']. split; [exact G | ].
      apply existsb_exists. apply existsb_mask_entry.
      exists (Document.PipelineStages.stages p), det. simpl. rewrite E1. auto.
    - intros (G & c & Hc & Hid).
      assert (X : existsb (fun c => JS.startsWith (id c) "mask")
                    (timelineEntryChanges (modeOf (Document.JobResponse.job job))
                       (Document.TimelineEntry.entry e)) = true)
        by (apply existsb_exists; now exists c).
      apply existsb_mask_entry in X. destruct X as (stages & det & E & H1 & H2).
      simpl in E.
      destruct (Document.TimelineEntry.pipeline e) as [p | ]; [ | discriminate].
      cbn [opt'] in G. injection E as <-.
      destruct (Document.PipelineStages.mask_rcnn p) as [m | ] eqn:Em;
        [ | discriminate].
      now exists p, m, det. }
  split; [exact A | ].
  intros H. apply A in H. destruct H as (_ & c & Hc & Hid).
  exists c. split; [ | split; [ | exact Hid]].
  - cbn [Analysis.assembleAnalysisResult Analysis.result].
    rewrite changes_assemble.
    pose proof (in_collect_of_entry job e c He Hc) as Hin.
    rewrite nonempty_length; [exact Hin | ].
    intros E. rewrite E in Hin. contradiction.
  - apply in_timelineEntryChanges_base in Hc.
    destruct Hc as (_ & _ & _ & _ & Hr & _). exact Hr.
Qed.

Lemma X19_mask_overlay_and_ledger_witness :
  exists c,
    In c
      (changes
         (Analysis.result
            (Analysis.assembleAnalysisResult bytewise
               (maskDocument [detectionOf 0.9] (Some "masks/overlay.png"%string))
               F1)))
    /\ option_map afterIndex (comparisonRef c) = Some 1%Z
    /\ JS.startsWith (id c) "mask" = true.
Proof.
  destruct (proj2 (X19_mask_overlay_and_ledger bytewise
                     (maskDocument [detectionOf 0.9] (Some "masks/overlay.png"%string))
                     F1 _ (or_introl eq_refl))
              ltac:(discriminate)) as (c & H1 & H2 & H3).
  exists c. split; [exact H1 | split; [ | exact H3]]. now rewrite H2.
Defined.

End TimelineSummaryFacts.

Section RoboflowVisualizations.
Import BackendTimeline.

Lemma insert_perm {A : Type} (compare : A -> A -> Z) x l :
  Permutation (insert compare x l) (x :: l).
Proof.
  induction l as [ | y l IH]; simpl; [apply Permutation_refl | ].
  destruct (compare x y <=? 0)%Z; [apply Permutation_refl | ].
  apply perm_trans with (y :: x :: l); [now apply perm_skip | apply perm_swap].
Qed.

Lemma sort_perm {A : Type} (compare : A -> A -> Z) l :
  Permutation (sort compare l) l.
Proof.
  induction l as [ | x l IH]; simpl; [constructor | ].
  apply perm_trans with (x :: sort compare l);
    [apply insert_perm | now apply perm_skip].
Qed.

Lemma filter_perm {A : Type} (f : A -> bool) l l' :
  Permutation l l' -> Permutation (filter f l) (filter f l').
Proof.
  induction 1 as [ | x l l' H IH | x y l | l l' l'' H1 IH1 H2 IH2]; simpl.
  - constructor.
  - destruct (f x); [now apply perm_skip | exact IH].
  - destruct (f x), (f y); try apply Permutation_refl. apply perm_swap.
  - now apply perm_trans with (filter f l').
Qed.

Lemma strings_perm l l' :
  Permutation l l' -> Permutation (strings l) (strings l').
Proof.
  induction 1 as [ | x l l' H IH | x y l | l l' l'' H1 IH1 H2 IH2]; simpl.
  - constructor.
  - destruct x; simpl; [now apply perm_skip | exact IH].
  - destruct x, y; simpl; try apply Permutation_refl. apply perm_swap.
  - now apply perm_trans with (strings l').
Qed.

Lemma insert_sorted {A : Type} (compare : A -> A -> Z) x l :
  (forall a b, (compare a b <= 0)%Z \/ (compare b a <= 0)%Z) ->
  (forall a b c, (compare a b <= 0)%Z -> (compare b c <= 0)%Z -> (compare a c <= 0)%Z) ->
  StronglySorted (fun a b => (compare a b <= 0)%Z) l ->
  StronglySorted (fun a b => (compare a b <= 0)%Z) (insert compare x l).
Proof.
  intros Ht Hr. induction 1 as [ | y l Hs IH Hy]; simpl.
  - repeat constructor.
  - destruct (compare x y <=? 0)%Z eqn:E.
    + apply Z.leb_le in E. constructor; [now constructor | ].
      constructor; [exact E | ].
      eapply Forall_impl; [ | exact Hy]. intros a Ha. now apply Hr with y.
    + apply Z.leb_gt in E. constructor; [exact IH | ].
      assert (Hyx : (compare y x <= 0)%Z) by (destruct (Ht x y); [lia | assumption]).
      apply (Permutation_Forall (Permutation_sym (insert_perm compare x l))).
      now constructor.
Qed.

Lemma sort_sorted {A : Type} (compare : A -> A -> Z) l :
  (forall a b, (compare a b <= 0)%Z \/ (compare b a <= 0)%Z) ->
  (forall a b c, (compare a b <= 0)%Z -> (compare b c <= 0)%Z -> (compare a c <= 0)%Z) ->
  StronglySorted (fun a b => (compare a b <= 0)%Z) (sort compare l).
Proof.
  intros Ht Hr. induction l as [ | x l IH]; simpl; [constructor | ].
  now apply insert_sorted.
Qed.

Lemma strings_given l :
  Forall (fun p => JS.nonEmpty p = true) (strings (filter givenPath l)).
Proof.
  induction l as [ | [s | ] l IH]; simpl; auto.
  destruct (JS.nonEmpty s) eqn:E; simpl; auto.
Qed.

(** X20: the Roboflow renderings of a frame pair.  Without the record
    there are none; with it, there are none exactly when no entry has a
    path that is given; otherwise they are the given paths, each once for
    each entry that has it, rearranged; and for a comparator of the host
    that orders the keys consistently they are the given paths of the
    entries taken in the order of their keys. *)
Theorem X20_roboflow_visualizations (host : Host.t)
  (entries : list (string * option string)) :
  extractRoboflowVisualizations host None = None
  /\ (extractRoboflowVisualizations host (Some entries) = None
      <-> givenPaths entries = [])
  /\ (forall resolved,
        extractRoboflowVisualizations host (Some entries) = Some resolved ->
        Permutation resolved (givenPaths entries)
        /\ Forall (fun p => JS.nonEmpty p = true) resolved
        /\ (consistent (Host.localeCompare host) ->
            exists sorted,
              Permutation sorted entries
              /\ StronglySorted
                   (fun a b => (Host.localeCompare host (fst a) (fst b) <= 0)%Z)
                   sorted
              /\ resolved = givenPaths sorted)).
Proof.
  set (compare := fun a b : string * option string =>
                    Host.localeCompare host (fst a) (fst b)).
  assert (P : Permutation
                (strings (filter givenPath (map snd (sort compare entries))))
                (givenPaths entries)).
  { unfold givenPaths. apply strings_perm, filter_perm, Permutation_map, sort_perm. }
  unfold extractRoboflowVisualizations. fold compare.
  split; [reflexivity | split].
  - destruct (strings (filter givenPath (map snd (sort compare entries)))) eqn:E.
    + simpl. split; [intros _ | reflexivity].
      apply Permutation_nil. now apply Permutation_sym.
    + simpl. split; [discriminate | ]. intros E'. rewrite E' in P.
      apply Permutation_sym, Permutation_nil in P. discriminate.
  - intros resolved.
    destruct (List.length _ =? 0)%nat; [discriminate | ].
    intros [= <-]. split; [exact P | ]. split; [apply strings_given | ].
    intros [Ht Hr]. exists (sort compare entries).
    split; [apply sort_perm | ]. split; [ | reflexivity].
    apply (sort_sorted compare).
    + intros a b. apply Ht.
    + intros a b c. apply Hr.
Qed.

Lemma X20_roboflow_visualizations_witness :
  extractRoboflowVisualizations bytewise
    (Some [("frame_b", Some "b.png"); ("frame_c", None); ("frame_a", Some "a.png")]%string)
  = Some ["a.png"; "b.png"]%string
  /\ Permutation ["a.png"; "b.png"]%string
       (givenPaths [("frame_b", Some "b.png"); ("frame_c", None);
                    ("frame_a", Some "a.png")]%string).
Proof.
  split; [reflexivity | ].
  exact (proj1 (proj2 (proj2 (X20_roboflow_visualizations bytewise
                                [("frame_b", Some "b.png"); ("frame_c", None);
                                 ("frame_a", Some "a.png")]%string))
                  ["a.png"; "b.png"]%string eq_refl)).
Defined.

End RoboflowVisualizations.

Section ComponentDiffs.
Import Types BackendClient BackendTimeline.

Lemma Forall2_map_mapi_from {A B C : Type} (P : B -> C -> Prop)
  (f : A -> B) (g : A -> nat -> C) (l : list A) :
  (forall x i, In x l -> P (f x) (g x i)) ->
  forall k, Forall2 P (map f l) (mapi_from g k l).
Proof.
  induction l as [ | x l IH]; intros H k; simpl; constructor.
  - apply H. now left.
  - apply IH. intros y i Hy. apply H. now right.
Qed.

Lemma comparisons_assembled host job domain :
  comparisonsOf (Analysis.assembleAnalysisResult host job domain)
  = map (comparisonMetadata host) (timelineOf job).
Proof.
  unfold comparisonsOf. cbn [Analysis.assembleAnalysisResult Analysis.timeline].
  unfold buildTimelineSummary. fold (timelineOf job). rewrite !length_map.
  destruct (List.length (JS.nullish (Document.JobResponse.frames job) []) =? 0)%nat;
    [ | reflexivity].
  destruct (timelineOf job); reflexivity.
Qed.

Lemma summarized_rows (pairs : list BackendYoloPair.t)
  (size : option BackendImageSize.t) :
  pairs <> [] ->
  exists diffs,
    summarizeComponentDiffs (Some pairs) = Some diffs
    /\ diffs <> []
    /\ Forall2 tableAgrees diffs (createYoloChanges pairs size).
Proof.
  intros Hne. unfold summarizeComponentDiffs.
  destruct pairs as [ | pair pairs]; [contradiction | ].
  cbn [List.length Nat.eqb]. cbv zeta. rewrite length_map. cbn [List.length Nat.eqb].
  eexists. split; [reflexivity | ]. split; [discriminate | ].
  unfold createYoloChanges, mapi.
  apply Forall2_map_mapi_from. intros q i _. unfold tableAgrees.
  cbn [TimelineComponentDiff.changed TimelineComponentDiff.component impact description].
  split.
  - destruct (JS.nullish (BackendYoloPair.changed q) false); auto.
  - unfold JS.str_or. destruct (BackendYoloPair.class_name q) as [name | ]; auto.
    destruct (JS.nonEmpty name); auto.
Qed.

Lemma componentTable_of_entry host (e : Document.TimelineEntry.t) :
  componentTable (comparisonMetadata host e)
  = match objectDiffBundle e with
    | Some _ =>
        match componentPairs e with
        | [] => None
        | pairs => summarizeComponentDiffs (Some pairs)
        end
    | None => None
    end.
Proof.
  unfold componentTable, objectDiffBundle, componentPairs, comparisonMetadata.
  cbn [TimelineComparisonMetadata.objectDiffArtifacts].
  destruct (Document.TimelineEntry.pipeline e) as [p | ]; [ | reflexivity].
  cbn [opt']. unfold yoloPairsOf.
  cbn [Document.PipelineStages.stages BackendPipelineStages.object_diff].
  destruct (Document.PipelineStages.object_diff p) as [stage | ]; [ | reflexivity].
  cbn [opt' option_map].
  destruct (Document.ObjectDiffStage.artifacts stage) as [a | ]; [ | reflexivity].
  cbn [opt' TimelineObjectDiffArtifacts.componentDiffs].
  destruct (BackendObjectDiffStage.report (Document.ObjectDiffStage.stage stage))
    as [report | ]; cbn [opt' orElse].
  - destruct (BackendObjectDiffReport.paired report) as [[ | pair pairs] | ];
      cbn [orElse]; try reflexivity.
    destruct (opt' (BackendObjectDiffStage.summary (Document.ObjectDiffStage.stage stage))
                BackendObjectDiffSummary.paired) as [[ | pair pairs] | ];
      reflexivity.
  - destruct (opt' (BackendObjectDiffStage.summary (Document.ObjectDiffStage.stage stage))
                BackendObjectDiffSummary.paired) as [[ | pair pairs] | ];
      reflexivity.
Qed.

(** X21: the component table of the timeline summary and the ledger.  In
    the summary of a job, the component table of a frame pair is missing
    exactly when the object diff stage of the pair comes without an
    artifact bundle or reports no pair of components.  A table that is
    there is not empty: it has one row for each change the object diff
    builder makes of the pairs of the same frame pair, in the same order;
    a row is marked changed exactly when its change has impact High, and
    unchanged exactly when it has impact Low; a row names its component as
    the change does when the detector named it, and as 'component'
    otherwise. *)
Theorem X21_component_table (host : Host.t) (job : Document.JobResponse.t)
  (domain : DomainMode) (size : option BackendImageSize.t) :
  Forall2
    (fun e comparison =>
       (componentTable comparison = None
        <-> objectDiffBundle e = None \/ componentPairs e = [])
       /\ (forall diffs,
             componentTable comparison = Some diffs ->
             diffs <> []
             /\ Forall2 tableAgrees diffs (createYoloChanges (componentPairs e) size)))
    (timelineOf job)
    (comparisonsOf (Analysis.assembleAnalysisResult host job domain)).
Proof.
  rewrite comparisons_assembled.
  induction (timelineOf job) as [ | e timeline IH]; cbn [map]; constructor;
    [ | exact IH].
  rewrite componentTable_of_entry.
  destruct (objectDiffBundle e) as [a | ].
  - destruct (componentPairs e) as [ | pair pairs] eqn:E.
    + split; [split; auto | discriminate].
    + destruct (summarized_rows (pair :: pairs) size) as (rows & Hs & Hne & Hr);
        [discriminate | ].
      rewrite Hs. split.
      * split; [discriminate | ]. intros [H | H]; discriminate.
      * intros diffs [= <-]. split; assumption.
  - split; [split; auto | discriminate].
Qed.

Lemma X21_component_table_example :
  map componentTable
    (comparisonsOf
       (Analysis.assembleAnalysisResult bytewise tabledFrames F1))
  = [Some [ {| TimelineComponentDiff.component := "front_wing";
               TimelineComponentDiff.ssim := Some 0.4125%float;
               TimelineComponentDiff.confidence := Some 0.9%float;
               TimelineComponentDiff.changed := Some true |} ];
     None; None].
Proof. vm_compute. reflexivity. Qed.

End ComponentDiffs.

(** ** The badge of a change *)

Section Badges.
Import Types BackendClient.

Lemma badge_RFDETR host t :
  Icons.getChangeSourceLabel host ("RF-DETR-Seg" ++ t) = "RF-DETR-Seg"%string.
Proof. destruct t; reflexivity. Qed.

Lemma badge_component host t :
  Icons.getChangeSourceLabel host ("component" ++ t) = "RF-DETR-Seg"%string.
Proof. destruct t; reflexivity. Qed.

Lemma badge_mask host t :
  Icons.getChangeSourceLabel host ("mask" ++ t) = "Mask R-CNN"%string.
Proof. destruct t; reflexivity. Qed.

Lemma badge_pcb host t :
  Icons.getChangeSourceLabel host ("pcb" ++ t) = "RF-DETR-Seg"%string.
Proof. destruct t; reflexivity. Qed.

Lemma badge_changeformer host t :
  Icons.getChangeSourceLabel host ("changeformer" ++ t) = "ChangeFormer"%string.
Proof. destruct t; reflexivity. Qed.

Lemma detector_createPcbChanges regions size :
  Forall (fun c => detectorOf c = "RF-DETR-Seg"%string) (createPcbChanges regions size).
Proof. apply mapi_from_Forall. reflexivity. Qed.

Lemma detector_createYoloChanges pairs size :
  Forall (fun c => detectorOf c = "RF-DETR-Seg"%string) (createYoloChanges pairs size).
Proof. apply mapi_from_Forall. reflexivity. Qed.

Lemma detector_createMaskChanges detections size :
  Forall (fun c => detectorOf c = "Mask R-CNN"%string)
    (createMaskChanges detections size).
Proof. apply mapi_from_Forall. reflexivity. Qed.

Lemma detector_createChangeformerChanges summary size :
  Forall (fun c => detectorOf c = "ChangeFormer"%string)
    (createChangeformerChanges summary size).
Proof.
  unfold createChangeformerChanges. destruct summary as [summary | ]; [ | constructor].
  destruct (JS.nullish (BackendChangeformerSummary.regions summary) []).
  - destruct (PrimFloat.leb _ 0); repeat constructor.
  - apply mapi_from_Forall. reflexivity.
Qed.

Lemma badged_labelled host base afterIndex beforeIndex mode prefix detector :
  (forall t, Icons.getChangeSourceLabel host (prefix ++ t) = detector) ->
  Forall (fun c => detectorOf c = detector) base ->
  Forall (badged host) (labelTimelineChanges base afterIndex beforeIndex mode prefix).
Proof.
  intros Hb Hd. apply mapi_from_Forall. intros c0 i Hin. unfold badged.
  cbn [id]. rewrite Hb.
  symmetry. exact (proj1 (Forall_forall _ _) Hd c0 Hin).
Qed.

Lemma badged_timelineEntryChanges host mode entry :
  Forall (badged host) (timelineEntryChanges mode entry).
Proof.
  unfold timelineEntryChanges.
  destruct (BackendTimelineEntry.pipeline entry) as [stages | ]; [ | constructor].
  cbv zeta. rewrite !Forall_app. repeat split.
  - apply (badged_labelled host _ _ _ _ "pcb" "RF-DETR-Seg");
      [apply badge_pcb | apply detector_createPcbChanges].
  - apply (badged_labelled host _ _ _ _ "RF-DETR-Seg" "RF-DETR-Seg");
      [apply badge_RFDETR | apply detector_createYoloChanges].
  - apply (badged_labelled host _ _ _ _ "mask" "Mask R-CNN");
      [apply badge_mask | apply detector_createMaskChanges].
  - apply (badged_labelled host _ _ _ _ "changeformer" "ChangeFormer");
      [apply badge_changeformer | apply detector_createChangeformerChanges].
Qed.

Lemma suppliedIds_nil regions r d :
  suppliedIds regions = [] -> In r regions ->
  JS.str_or (BackendPcbRegion.id r) d = d.
Proof.
  unfold suppliedIds. intros H Hin.
  assert (N : forall x, ~ In x (match BackendPcbRegion.id r with
                                | Some s => if JS.nonEmpty s then [s] else []
                                | None => []
                                end)).
  { intros x Hx.
    assert (In x (flat_map
                    (fun r => match BackendPcbRegion.id r with
                              | Some s => if JS.nonEmpty s then [s] else []
                              | None => []
                              end) regions))
      by (apply in_flat_map; now exists r).
    rewrite H in *. contradiction. }
  unfold JS.str_or. destruct (BackendPcbRegion.id r) as [s | ]; [ | reflexivity].
  destruct (JS.nonEmpty s); [ | reflexivity]. exfalso. apply (N s). now left.
Qed.

Lemma badged_fallbackChanges host stages :
  detectorIds stages = [] -> Forall (badged host) (fallbackChanges stages).
Proof.
  unfold detectorIds. intros H. apply app_eq_nil in H. destruct H as [H1 H2].
  unfold fallbackChanges. cbv zeta. rewrite !Forall_app. repeat split.
  - apply mapi_from_Forall. intros r i Hin. unfold badged. cbn [id].
    rewrite (suppliedIds_nil _ _ _ H1 Hin). apply (badge_pcb host).
  - apply mapi_from_Forall. intros q i _. apply (badge_component host).
  - apply mapi_from_Forall. intros d i _. apply (badge_mask host).
  - unfold changeformerRegionsOf in H2. unfold createChangeformerChanges.
    destruct (changeformerSummaryOf stages) as [summary | ]; [ | constructor].
    cbn [opt'] in H2.
    destruct (JS.nullish (BackendChangeformerSummary.regions summary) []) eqn:E.
    + destruct (PrimFloat.leb _ 0); repeat constructor.
    + apply mapi_from_Forall. intros r i Hin. unfold badged. cbn [id].
      rewrite (suppliedIds_nil _ _ _ H2 Hin). apply (badge_changeformer host).
Qed.

(** X22: the badges of the ledger.  When the changes come from the
    timeline, or when no region of the job-level stages brings an id of its
    own, the badge of every change of the result names the detector the
    change comes from: ChangeFormer for a spatial change, Mask R-CNN for a
    surface change that the mask builder made, RF-DETR-Seg otherwise; the
    fallback of the badge and the host's upper case are never reached. *)
Theorem X22_badges (host : Host.t) (job : BackendJobResponse.t)
  (domain : DomainMode) :
  collectTimelineChanges job <> []
  \/ detectorIds (JS.nullish (BackendJobResponse.pipeline job)
                    BackendPipelineStages.empty) = [] ->
  Forall (badged host) (changes (assembleAnalysisResult job domain)).
Proof.
  intros H. rewrite changes_assemble.
  destruct (List.length (collectTimelineChanges job) =? 0)%nat eqn:E.
  - destruct H as [H | H].
    + rewrite (nonempty_length _ H) in E. discriminate.
    + now apply badged_fallbackChanges.
  - apply Forall_forall. intros c Hc.
    apply in_collectTimelineChanges in Hc. destruct Hc as (entry & _ & Hc).
    exact (proj1 (Forall_forall _ _) (badged_timelineEntryChanges host _ entry) c Hc).
Qed.

Lemma X22_badges_witness :
  Forall (badged bytewise)
    (changes
       (assembleAnalysisResult
          (completedJob consecutive
             [framePair 0 1 (objectDiffStages [componentOf true]);
              framePair 1 2 (maskStages [detectionOf 0.9])]
             None) F1))
  /\ map (Icons.getChangeSourceLabel bytewise)
       (map id
          (changes
             (assembleAnalysisResult
                (completedJob consecutive
                   [framePair 0 1 (objectDiffStages [componentOf true]);
                    framePair 1 2 (maskStages [detectionOf 0.9])]
                   None) F1)))
     = ["RF-DETR-Seg"; "Mask R-CNN"]%string.
Proof.
  split; [ | reflexivity].
  apply (X22_badges bytewise
           (completedJob consecutive
              [framePair 0 1 (objectDiffStages [componentOf true]);
               framePair 1 2 (maskStages [detectionOf 0.9])]
              None) F1).
  left. discriminate.
Defined.

End Badges.

(** ** One frame pair, four labels *)

Section LabelsAcrossComponents.
Import Types BackendClient.

Lemma Forall2_mapi_from_map {A B C : Type} (P : C -> A -> Prop)
  (g : A -> B) (f : B -> nat -> C) (l : list A) :
  (forall x i, In x l -> P (f (g x) i) x) ->
  forall k, Forall2 P (mapi_from f k (map g l)) l.
Proof.
  induction l as [ | x l IH]; intros H k; simpl; constructor.
  - apply H. now left.
  - apply IH. intros y i Hy. apply H. now right.
Qed.

Lemma timeline_loaded host job domain :
  timelineOf job <> [] ->
  Analysis.timeline (Analysis.assembleAnalysisResult host job domain)
  = Some {| TimelineSummary.mode := modeOf (Document.JobResponse.job job);
            TimelineSummary.baselineIndex :=
              JS.nullish (Document.JobResponse.baselineIndex job) 0%Z;
            TimelineSummary.frames :=
              map BackendTimeline.frameMetadata
                (JS.nullish (Document.JobResponse.frames job) []);
            TimelineSummary.comparisons :=
              map (BackendTimeline.comparisonMetadata host) (timelineOf job) |}.
Proof.
  intros Hne. cbn [Analysis.assembleAnalysisResult Analysis.timeline].
  unfold BackendTimeline.buildTimelineSummary. fold (timelineOf job).
  rewrite !length_map.
  assert (L : (List.length (timelineOf job) =? 0)%nat = false)
    by now apply nonempty_length.
  rewrite L, andb_false_r. reflexivity.
Qed.

Lemma maskArtifacts_given host e :
  BackendTimeline.givenPath
    (opt' (TimelineComparisonMetadata.maskArtifacts
             (BackendTimeline.comparisonMetadata host e))
       TimelineMaskArtifacts.overlay) = true
  <-> TimelineComparisonMetadata.maskArtifacts
        (BackendTimeline.comparisonMetadata host e) <> None.
Proof.
  unfold BackendTimeline.comparisonMetadata.
  cbn [TimelineComparisonMetadata.maskArtifacts].
  set (o := opt' _ BackendMaskArtifacts.overlay).
  destruct (BackendTimeline.givenPath o) eqn:G; cbn [andb].
  - destruct (existsb _ _); cbn [andb opt' TimelineMaskArtifacts.overlay].
    + rewrite G. split; [discriminate | reflexivity].
    + split; [discriminate | congruence].
  - cbn [opt']. split; [discriminate | congruence].
Qed.

(** X23: the labels of a frame pair in the components.  For every frame
    pair of a job, the heading of the diagnostics panel and the label of the
    viewer are the label that the changes of that pair carry in the ledger;
    the digest of the artifact gallery has one item for each frame pair, in
    order, numbered from 1, which has a mask map exactly when the summary
    offers a mask overlay, and whose label is the one of the consecutive
    mode whatever the mode of the job: in the baseline mode it is the label
    of no change. *)
Theorem X23_labels_across_components (host : Host.t) (job : Document.JobResponse.t)
  (domain : DomainMode) (images : list ImageFile) :
  timelineOf job <> [] ->
  Forall
    (fun e =>
       DiagnosticsPanel.formatComparisonLabel
         (BackendTimeline.comparisonMetadata host e)
         (modeOf (Document.JobResponse.job job))
       = label (refOf (modeOf (Document.JobResponse.job job))
                  (Document.TimelineEntry.entry e))
       /\ ResultDisplay.formatComparisonLabel
            (ResultDisplay.ofApp (loaded host job domain images))
            (Document.TimelineEntry.afterIndex e)
            (Document.TimelineEntry.beforeIndex e)
          = label (refOf (modeOf (Document.JobResponse.job job))
                     (Document.TimelineEntry.entry e)))
    (timelineOf job)
  /\ Forall2
       (fun digest e =>
          GeminiService.ArtifactGalleryDigest.label digest
          = formatComparisonLabel (Document.TimelineEntry.afterIndex e)
              (Document.TimelineEntry.beforeIndex e) consecutive
          /\ (GeminiService.ArtifactGalleryDigest.hasMaskMap digest = true
              <-> TimelineComparisonMetadata.maskArtifacts
                    (BackendTimeline.comparisonMetadata host e) <> None)
          /\ (modeOf (Document.JobResponse.job job) = baseline ->
              forall c,
                In c (changes
                        (Analysis.result
                           (Analysis.assembleAnalysisResult host job domain))) ->
                option_map label (comparisonRef c)
                <> Some (GeminiService.ArtifactGalleryDigest.label digest)))
       (GeminiService.buildArtifactGalleryDigest
          (Analysis.assembleAnalysisResult host job domain))
       (timelineOf job)
  /\ map GeminiService.ArtifactGalleryDigest.appendixIndex
       (GeminiService.buildArtifactGalleryDigest
          (Analysis.assembleAnalysisResult host job domain))
     = seq 1 (List.length (timelineOf job)).
Proof.
  intros Hne. pose proof (timeline_loaded host job domain Hne) as T.
  split; [ | split].
  - apply Forall_forall. intros e _. split.
    + destruct (modeOf (Document.JobResponse.job job)); reflexivity.
    + unfold ResultDisplay.formatComparisonLabel, ResultDisplay.timelineMode.
      cbn [ResultDisplay.ofApp ResultDisplay.result loaded App.result opt'].
      rewrite T. cbn [option_map JS.nullish TimelineSummary.mode].
      destruct (modeOf (Document.JobResponse.job job)); reflexivity.
  - unfold GeminiService.buildArtifactGalleryDigest. rewrite T.
    cbn [TimelineSummary.comparisons]. unfold mapi.
    apply Forall2_mapi_from_map. intros e i He.
    cbn [GeminiService.ArtifactGalleryDigest.label
           GeminiService.ArtifactGalleryDigest.hasMaskMap].
    split; [reflexivity | split; [apply maskArtifacts_given | ]].
    intros Hm c Hc Habs.
    cbn [Analysis.assembleAnalysisResult Analysis.result] in Hc.
    rewrite changes_assemble in Hc.
    destruct (List.length (collectTimelineChanges (Document.JobResponse.job job)) =? 0)%nat.
    + pose proof (proj1 (Forall_forall _ _) (comparisonRef_fallbackChanges _) c Hc) as N.
      simpl in N. rewrite N in Habs. discriminate.
    + destruct (in_ledger_entry _ _ Hc) as (e' & _ & Hr).
      rewrite Hr, Hm in Habs.
      assert (E : formatComparisonLabel (Document.TimelineEntry.afterIndex e)
                    (Document.TimelineEntry.beforeIndex e) consecutive
                  = formatComparisonLabel (Document.TimelineEntry.afterIndex e')
                      (Document.TimelineEntry.beforeIndex e') baseline)
        by (change (Some (formatComparisonLabel (Document.TimelineEntry.afterIndex e')
                            (Document.TimelineEntry.beforeIndex e') baseline)
                    = Some (formatComparisonLabel (Document.TimelineEntry.afterIndex e)
                              (Document.TimelineEntry.beforeIndex e) consecutive))
              in Habs; congruence).
      exact (label_modes_differ _ _ _ _ E).
  - unfold GeminiService.buildArtifactGalleryDigest. rewrite T.
    cbn [TimelineSummary.comparisons]. unfold mapi. rewrite mapi_from_map.
    cbn [GeminiService.ArtifactGalleryDigest.appendixIndex].
    rewrite (mapi_from_seq (fun i => i + 1)%nat), length_map.
    rewrite <- seq_shift. apply map_ext. intros i. apply Nat.add_1_r.
Qed.

Lemma X23_labels_across_components_witness :
  map GeminiService.ArtifactGalleryDigest.appendixIndex
    (GeminiService.buildArtifactGalleryDigest
       (Analysis.assembleAnalysisResult bytewise threeFrames F1))
  = [1; 2]%nat
  /\ map GeminiService.ArtifactGalleryDigest.label
       (GeminiService.buildArtifactGalleryDigest
          (Analysis.assembleAnalysisResult bytewise threeFrames F1))
     = ["Frame 2 vs Frame 1"; "Frame 3 vs Frame 2"]%string.
Proof.
  split; [ | reflexivity].
  assert (H : timelineOf threeFrames <> []) by discriminate.
  exact (proj2 (proj2 (X23_labels_across_components bytewise threeFrames F1
                         threeImages H))).
Defined.

(** X24: the references of the ledger resolve.  A result has no timeline
    exactly when the job lists neither frames nor frame pairs; and whatever
    the job, every change of the result that refers to a frame pair refers
    to one of the comparisons of the result's timeline: some comparison has
    its two indices. *)
Theorem X24_references_resolve (host : Host.t) (job : Document.JobResponse.t)
  (domain : DomainMode) :
  (Analysis.timeline (Analysis.assembleAnalysisResult host job domain) = None
   <-> JS.nullish (Document.JobResponse.frames job) [] = [] /\ timelineOf job = [])
  /\ Forall
       (fun c =>
          forall ref,
            comparisonRef c = Some ref ->
            exists comparison,
              In comparison
                (comparisonsOf (Analysis.assembleAnalysisResult host job domain))
              /\ TimelineComparisonMetadata.afterIndex comparison = afterIndex ref
              /\ TimelineComparisonMetadata.beforeIndex comparison = beforeIndex ref)
       (changes (Analysis.result (Analysis.assembleAnalysisResult host job domain))).
Proof.
  split.
  - cbn [Analysis.assembleAnalysisResult Analysis.timeline].
    unfold BackendTimeline.buildTimelineSummary. fold (timelineOf job).
    rewrite !length_map.
    destruct (JS.nullish (Document.JobResponse.frames job) []) as [ | f fs];
      destruct (timelineOf job) as [ | e es]; cbn [List.length Nat.eqb andb];
      split; auto; try discriminate; intros [? ?]; discriminate.
  - apply Forall_forall. intros c Hc ref Hr.
    cbn [Analysis.assembleAnalysisResult Analysis.result] in Hc.
    rewrite changes_assemble in Hc.
    destruct (List.length (collectTimelineChanges (Document.JobResponse.job job)) =? 0)%nat.
    + pose proof (proj1 (Forall_forall _ _) (comparisonRef_fallbackChanges _) c Hc) as N.
      simpl in N. congruence.
    + destruct (in_ledger_entry _ _ Hc) as (e & He & Hr').
      rewrite Hr in Hr'. injection Hr' as ->.
      exists (BackendTimeline.comparisonMetadata host e).
      split; [ | split; reflexivity].
      unfold comparisonsOf. rewrite timeline_loaded.
      * cbn [TimelineSummary.comparisons]. now apply in_map.
      * intros E. rewrite E in He. contradiction.
Qed.

End LabelsAcrossComponents.

(** ** The upload *)

Section Upload.
Import Types BackendClient.

(** X25: the one request.  The outcome and the progress reports of a call
    depend on the network only through its answer to the upload of the
    frames: two networks that answer that request alike give the same
    call. *)
Theorem X25_single_upload (env : Env.t) (fetch fetch' : Http.Fetch)
  (imageFiles : list ImageFile) (domain : DomainMode)
  (comparisonMode : ComparisonMode) :
  fetch (uploadRequest env imageFiles domain comparisonMode)
  = fetch' (uploadRequest env imageFiles domain comparisonMode) ->
  analyzeWithBackend env fetch imageFiles domain comparisonMode
  = analyzeWithBackend env fetch' imageFiles domain comparisonMode.
Proof.
  intros H. unfold analyzeWithBackend.
  fold (uploadRequest env imageFiles domain comparisonMode). now rewrite H.
Qed.

Lemma X25_single_upload_witness :
  Async.run
    (analyzeWithBackend localhost
       (fun request =>
          if String.eqb (Http.method request) "POST"
          then Async.Rejected "Failed to fetch" else Async.Rejected "unreachable")
       [frameOf "a.png"; frameOf "b.png"] F1 baseline)
  = Async.run
      (analyzeWithBackend localhost (fun _ => Async.Rejected "Failed to fetch")
         [frameOf "a.png"; frameOf "b.png"] F1 baseline).
Proof.
  rewrite (X25_single_upload localhost
             (fun request =>
                if String.eqb (Http.method request) "POST"
                then Async.Rejected "Failed to fetch" else Async.Rejected "unreachable")
             (fun _ => Async.Rejected "Failed to fetch")
             [frameOf "a.png"; frameOf "b.png"] F1 baseline eq_refl).
  reflexivity.
Defined.

End Upload.

(** ** The same regions under two builders *)

Section TwoBuilders.
Import Types BackendClient.
Local Open Scope float_scope.

Lemma Forall2_mapi_from_both {A B C : Type} (P : B -> C -> Prop)
  (f : A -> nat -> B) (g : A -> nat -> C) (l : list A) :
  (forall x i, In x l -> P (f x i) (g x i)) ->
  forall k, Forall2 P (mapi_from f k l) (mapi_from g k l).
Proof.
  induction l as [ | x l IH]; intros H k; simpl; constructor.
  - apply H. now left.
  - apply IH. intros y i Hy. apply H. now right.
Qed.

(** X26: defect keywords only raise the impact.  For regions reported with
    the same area ratios, the drift builder gives each region the impact of
    its area tier, and the defect builder gives it an impact that is never
    lower: the keywords of a label can raise the impact of a region and
    cannot lower it. *)
Theorem X26_keywords_only_raise (summary : BackendChangeformerSummary.t)
  (regions : list BackendPcbRegion.t) (size size' : option BackendImageSize.t) :
  JS.nullish (BackendChangeformerSummary.regions summary) [] = regions ->
  regions <> [] ->
  Forall2 (fun region drift => impact drift = areaTier (areaOf region))
    regions (createChangeformerChanges (Some summary) size)
  /\ Forall2 (fun drift defect => Impact_le (impact drift) (impact defect))
       (createChangeformerChanges (Some summary) size)
       (createPcbChanges regions size').
Proof.
  intros Hr Hne. unfold createChangeformerChanges. rewrite Hr.
  destruct regions as [ | r regions]; [congruence | ].
  split.
  - unfold mapi. apply mapi_from_Forall2. reflexivity.
  - unfold createPcbChanges, mapi. apply Forall2_mapi_from_both.
    intros x i _. cbn [impact].
    repeat match goal with
           | |- context [if ?b then _ else _] => destruct b
           end; exact I.
Qed.

Lemma X26_keywords_only_raise_witness :
  map impact
    (createChangeformerChanges
       (Some {| BackendChangeformerSummary.status := None;
                BackendChangeformerSummary.coverage := None;
                BackendChangeformerSummary.pixelsChanged := None;
                BackendChangeformerSummary.regionCount := None;
                BackendChangeformerSummary.regions :=
                  Some [regionOf None (Some "short"%string) 0.001];
                BackendChangeformerSummary.globalMeanProbability := None;
                BackendChangeformerSummary.globalMaxProbability := None |})
       None)
  = [Low]
  /\ map impact (createPcbChanges [regionOf None (Some "short"%string) 0.001] None)
     = [High].
Proof.
  split; [ | reflexivity].
  pose proof (proj1 (X26_keywords_only_raise
                       {| BackendChangeformerSummary.status := None;
                          BackendChangeformerSummary.coverage := None;
                          BackendChangeformerSummary.pixelsChanged := None;
                          BackendChangeformerSummary.regionCount := None;
                          BackendChangeformerSummary.regions :=
                            Some [regionOf None (Some "short"%string) 0.001];
                          BackendChangeformerSummary.globalMeanProbability := None;
                          BackendChangeformerSummary.globalMaxProbability := None |}
                       [regionOf None (Some "short"%string) 0.001] None None
                       eq_refl ltac:(discriminate))) as W.
  remember (createChangeformerChanges _ None) as cs eqn:E. clear E.
  inversion W as [ | r c rs cs' H1 T E1 E2]; subst.
  inversion T; subst. cbn [map]. rewrite H1. reflexivity.
Defined.

End TwoBuilders.

(** ** The slider, and the changes of a frame pair *)

Section Slider.
Import Types BackendClient.

Lemma find_after host (timeline : list Document.TimelineEntry.t) a :
  In a (map Document.TimelineEntry.afterIndex timeline) ->
  exists e,
    In e timeline
    /\ List.find
         (fun comparison =>
            (TimelineComparisonMetadata.afterIndex comparison =? a)%Z)
         (map (BackendTimeline.comparisonMetadata host) timeline)
       = Some (BackendTimeline.comparisonMetadata host e)
    /\ Document.TimelineEntry.afterIndex e = a.
Proof.
  induction timeline as [ | x timeline IH]; intros H; [contradiction | ].
  cbn [map List.find].
  cbn [BackendTimeline.comparisonMetadata TimelineComparisonMetadata.afterIndex].
  destruct (Document.TimelineEntry.afterIndex x =? a)%Z eqn:E.
  - apply Z.eqb_eq in E. exists x. repeat split; auto. now left.
  - destruct H as [H | H]; [rewrite H, Z.eqb_refl in E; discriminate | ].
    destruct (IH H) as (e & H1 & H2 & H3). exists e. repeat split; auto. now right.
Qed.

(** X27: choosing a comparison on the slider.  When the application holds
    a result with the changes and the timeline assembled from a job,
    choosing the after index of a frame pair of the job clears the selection
    and makes active the first comparison with that after index. *)
Theorem X27_choose_comparison (host : Host.t) (job : Document.JobResponse.t)
  (domain : DomainMode) (s : App.State) (a : Z) :
  carries s (Analysis.assembleAnalysisResult host job domain) ->
  In a (map Document.TimelineEntry.afterIndex (timelineOf job)) ->
  App.selectedChange (App.handleComparisonChange a s) = None
  /\ App.activeComparison (App.handleComparisonChange a s)
     = List.find
         (fun comparison => (TimelineComparisonMetadata.afterIndex comparison =? a)%Z)
         (comparisonsOf (Analysis.assembleAnalysisResult host job domain))
  /\ option_map TimelineComparisonMetadata.afterIndex
       (App.activeComparison (App.handleComparisonChange a s))
     = Some a.
Proof.
  intros H Ha. split; [reflexivity | ].
  assert (T : App.timelineComparisons (App.handleComparisonChange a s)
              = map (BackendTimeline.comparisonMetadata host) (timelineOf job))
    by (apply (timelineComparisons_loaded host job domain); exact H).
  assert (C : comparisonsOf (Analysis.assembleAnalysisResult host job domain)
              = map (BackendTimeline.comparisonMetadata host) (timelineOf job)).
  { rewrite <- (timelineComparisons_loaded host job domain s H).
    destruct H as (r & Hr & _ & Ht).
    unfold comparisonsOf, App.timelineComparisons. rewrite Hr. cbn [opt'].
    now rewrite Ht. }
  destruct (find_after host _ _ Ha) as (e & He & Hf & Hea).
  assert (A : App.activeComparison (App.handleComparisonChange a s)
              = Some (BackendTimeline.comparisonMetadata host e)).
  { unfold App.activeComparison. rewrite T.
    rewrite nonempty_length by (destruct (timelineOf job); [contradiction | discriminate]).
    cbn [App.handleComparisonChange App.selectedChange App.timelineSliderAfterIndex opt'].
    cbv zeta. unfold App.find. now rewrite Hf. }
  rewrite A, C, Hf. split; [reflexivity | ]. cbn. now rewrite Hea.
Qed.

Lemma X27_choose_comparison_witness :
  option_map TimelineComparisonMetadata.beforeIndex
    (App.activeComparison
       (App.handleComparisonChange 2 (loaded bytewise threeFrames F1 threeImages)))
  = Some 1%Z.
Proof.
  rewrite (proj1 (proj2 (X27_choose_comparison bytewise threeFrames F1
                           (loaded bytewise threeFrames F1 threeImages) 2
                           (ex_intro _ _ (conj eq_refl (conj eq_refl eq_refl)))
                           (or_intror (or_introl eq_refl))))).
  reflexivity.
Defined.

Lemma filter_none {A : Type} (p : A -> bool) (l : list A) :
  (forall x, In x l -> p x = false) -> filter p l = [].
Proof.
  induction l as [ | x l IH]; intros H; [reflexivity | ]. simpl.
  rewrite (H x) by now left. apply IH. intros y Hy. apply H. now right.
Qed.

Lemma filter_every {A : Type} (p : A -> bool) (l : list A) :
  (forall x, In x l -> p x = true) -> filter p l = l.
Proof.
  induction l as [ | x l IH]; intros H; [reflexivity | ]. simpl.
  rewrite (H x) by now left. f_equal. apply IH. intros y Hy. apply H. now right.
Qed.

Lemma ofPair_entry host mode e e' c :
  In c (timelineEntryChanges mode (Document.TimelineEntry.entry e')) ->
  ofPair (BackendTimeline.comparisonMetadata host e) c
  = (Document.TimelineEntry.afterIndex e' =? Document.TimelineEntry.afterIndex e)%Z
    && (Document.TimelineEntry.beforeIndex e' =? Document.TimelineEntry.beforeIndex e)%Z.
Proof.
  intros Hc. apply in_timelineEntryChanges_base in Hc.
  destruct Hc as (_ & _ & _ & _ & Hr & _). unfold ofPair. now rewrite Hr.
Qed.

Lemma filter_timeline host mode e (timeline : list Document.TimelineEntry.t) :
  NoDup (map Document.TimelineEntry.afterIndex timeline) ->
  In e timeline ->
  filter (ofPair (BackendTimeline.comparisonMetadata host e))
    (flat_map (timelineEntryChanges mode) (map Document.TimelineEntry.entry timeline))
  = timelineEntryChanges mode (Document.TimelineEntry.entry e).
Proof.
  induction timeline as [ | x timeline IH]; intros N He; [contradiction | ].
  simpl in N. inversion N as [ | ? ? Hx Hn]; subst.
  cbn [map flat_map]. rewrite filter_app.
  assert (Rest : forall e0,
             Document.TimelineEntry.afterIndex e0
             <> Document.TimelineEntry.afterIndex e ->
             filter (ofPair (BackendTimeline.comparisonMetadata host e))
               (timelineEntryChanges mode (Document.TimelineEntry.entry e0)) = []).
  { intros e0 Hd. apply filter_none. intros c Hc.
    rewrite (ofPair_entry host mode e e0 c Hc).
    apply Z.eqb_neq in Hd. now rewrite Hd. }
  destruct He as [-> | He].
  - rewrite filter_every.
    + rewrite filter_none; [apply app_nil_r | ].
      intros c Hc. apply in_flat_map in Hc. destruct Hc as (y & Hy & Hc).
      apply in_map_iff in Hy. destruct Hy as (e0 & <- & He0).
      rewrite (ofPair_entry host mode e e0 c Hc).
      assert (Hd : Document.TimelineEntry.afterIndex e0
                   <> Document.TimelineEntry.afterIndex e).
      { intros E. apply Hx. rewrite <- E. now apply in_map. }
      apply Z.eqb_neq in Hd. now rewrite Hd.
    + intros c Hc. rewrite (ofPair_entry host mode e e c Hc).
      now rewrite !Z.eqb_refl.
  - rewrite Rest, (IH Hn He); [reflexivity | ].
    intros E. apply Hx. rewrite E. now apply in_map.
Qed.

(** X28: the changes of a frame pair.  When the frame pairs of the job
    have distinct after indices, the changes of the timeline's ledger that
    belong to a frame pair are the changes the builders make of the stages
    of that pair, in the builders' order: defect regions, components, mask
    detections, drift. *)
Theorem X28_changes_of_pair (host : Host.t) (job : Document.JobResponse.t)
  (e : Document.TimelineEntry.t) :
  NoDup (map Document.TimelineEntry.afterIndex (timelineOf job)) ->
  In e (timelineOf job) ->
  filter (ofPair (BackendTimeline.comparisonMetadata host e))
    (collectTimelineChanges (Document.JobResponse.job job))
  = timelineEntryChanges (modeOf (Document.JobResponse.job job))
      (Document.TimelineEntry.entry e).
Proof.
  intros N He. unfold collectTimelineChanges.
  pose proof (timeline_of_document job) as T.
  destruct (BackendJobResponse.timeline (Document.JobResponse.job job)) as [tl | ];
    cbn [JS.nullish] in T.
  - subst tl. rewrite length_map.
    rewrite nonempty_length by (destruct (timelineOf job); [contradiction | discriminate]).
    now apply filter_timeline.
  - destruct (timelineOf job); [contradiction | discriminate].
Qed.

Lemma X28_changes_of_pair_witness :
  map id
    (filter
       (ofPair
          (BackendTimeline.comparisonMetadata bytewise
             (bareEntry (framePair 1 2 (maskStages [detectionOf 0.9])))))
       (collectTimelineChanges (Document.JobResponse.job threeFrames)))
  = ["mask-f2-0"%string].
Proof.
  rewrite (X28_changes_of_pair bytewise threeFrames
             (bareEntry (framePair 1 2 (maskStages [detectionOf 0.9])))).
  - reflexivity.
  - repeat constructor; simpl; intuition discriminate.
  - right. left. reflexivity.
Defined.

End Slider.
